(** * Nova Bank: the transactional ledger and the AI tool orchestration

    A shallow embedding of the account operations of [App.tsx]
    (transferMoney, makeAccountPayment, requestPaymentExtension,
    addCardToUser, addLoanToUser, loadOrGenerateInsights, refreshInsights),
    of its session functions (loadUserAndData, refreshUserData, login,
    registerUser, updateUserKycStatus, registerPasskey, loginWithPasskey,
    removePasskey, verifyCurrentUserWithPasskey) and its base64url codec,
    of [getComprehensiveInsights] of [services/geminiService.ts] and of the
    conversation loop of [ChatModal.tsx] (handleFunctionCall, handleSend).
    Module [Faults] repeats transferMoney and addLoanToUser with the writes
    they make after their transaction has committed able to fail.

    Conventions of the embedding:
    - a JavaScript [number] holding money is an exact amount counted in
      cents, a [Z]; the code compares, adds and subtracts amounts and takes
      [Math.max], so every operation on them is exact integer arithmetic;
    - an ISO-8601 time stamp string is the time value it denotes
      (milliseconds since the epoch, a [Z]); [new Date(s)] and
      [toISOString] convert between the two without loss;
    - the document store is explicit state; its reads and writes succeed,
      except an [update] of a missing document; a rejected promise is the
      [Throw] outcome, carrying the [Error]'s message;
    - what the code draws from outside is an argument: the value of
      [Math.random()], the clock, the offset of the client's time zone, the
      answer of the model, the outcome of the passkey ceremony;
    - console output, voice input and the rendering are left out. *)

From Stdlib Require Import ZArith NArith List String Ascii Bool Lia.
From Stdlib Require Import DecimalString QArith Qround Qabs.
Import ListNotations.

Open Scope string_scope.
Open Scope Z_scope.

(* ------------------------------------------------------------------ *)
(** ** JavaScript strings (the ASCII fragment) *)

Module JsString.

Definition lowerAscii (c : ascii) : ascii :=
  let n := nat_of_ascii c in
  if (Nat.leb 65 n && Nat.leb n 90)%bool then ascii_of_nat (n + 32) else c.

(** [s.toLowerCase()] *)
Fixpoint toLowerCase (s : string) : string :=
  match s with
  | EmptyString => EmptyString
  | String c r => String (lowerAscii c) (toLowerCase r)
  end.

(** [s.slice(-n)]: the last [n] characters, the whole string when it is
    shorter. *)
Definition sliceLast (n : nat) (s : string) : string :=
  substring (String.length s - n)%nat n s.

Definition digits (n : N) : string := NilZero.string_of_uint (N.to_uint n).

Definition padLeft (width : nat) (s : string) : string :=
  let fix zeros (k : nat) : string :=
    match k with O => "" | S k' => "0" ++ zeros k' end in
  zeros (width - String.length s)%nat ++ s.

Fixpoint groupThousands (fuel : nat) (n : N) : string :=
  match fuel with
  | O => digits n
  | S f =>
      if (n <? 1000)%N then digits n
      else groupThousands f (n / 1000)%N ++ "," ++ padLeft 3 (digits (n mod 1000)%N)
  end.

(** [new Intl.NumberFormat('en-US', {style:'currency', currency:'USD'}).format]
    on an amount given in cents. *)
Definition formatCurrency (cents : Z) : string :=
  let a := Z.to_N (Z.abs cents) in
  (if cents <? 0 then "-" else "") ++ "$"
  ++ groupThousands (N.to_nat (N.size a)) (a / 100)%N
  ++ "." ++ padLeft 2 (digits (a mod 100)%N).

End JsString.

(* ------------------------------------------------------------------ *)
(** ** The data model ([types.ts]) *)

Inductive TransactionType : Type := credit | debit.

Record Transaction : Type := {
  tx_id : option string;
  tx_uid : string;
  tx_type : TransactionType;
  tx_amount : Z;
  tx_description : string;
  tx_timestamp : Z;
  tx_partyName : string;
  tx_category : string;
  tx_cardId : option string
}.

Inductive CardType : Type := Visa | Mastercard.

Record Card : Type := {
  cardNumber : string;
  cardType : CardType;
  creditLimit : Z;
  creditBalance : Z;
  card_paymentDueDate : Z;
  statementBalance : Z;
  minimumPayment : Z;
  card_transactions : list Transaction
}.

Inductive LoanStatus : Type := Active | PaidOff.

Record Loan : Type := {
  loan_id : string;
  loan_uid : string;
  loanAmount : Z;
  termMonths : Z;
  monthlyPayment : Z;
  remainingBalance : Z;
  status : LoanStatus;
  loan_startDate : Z;
  loan_paymentDueDate : Z
}.

(** The fields of a document of the [users] collection: a [User] without
    [uid] (the document id), [cards] and [loans] (sub-collections). *)
Record UserData : Type := {
  name : string;
  username : string;
  balance : Z;
  savingsAccountNumber : string;
  email : string;
  phone : string;
  kycVerified : bool
}.

(** The [User] object the client holds in React state ([currentUser]). *)
Record User : Type := {
  uid : string;
  data : UserData;
  cards : list Card;
  loans : list Loan
}.

Definition setBalance (b : Z) (d : UserData) : UserData :=
  {| name := name d; username := username d; balance := b;
     savingsAccountNumber := savingsAccountNumber d; email := email d;
     phone := phone d; kycVerified := kycVerified d |}.

Definition withBalance (f : Z -> Z) (u : User) : User :=
  {| uid := uid u; data := setBalance (f (balance (data u))) (data u);
     cards := cards u; loans := loans u |}.

Record SpendingBreakdownItem : Type := { item_name : string; value : Z }.
Record CategoryChange : Type := { category : string; changePercent : Q }.
Record SavingOpportunity : Type := { suggestion : string; potentialSavings : Z }.
Record Subscription : Type := { sub_name : string; sub_amount : Z }.

Record InsightsData : Type := {
  spendingBreakdown : list SpendingBreakdownItem;
  overallSpendingChange : Q;
  topCategoryChanges : list CategoryChange;
  cashFlowForecast : string;
  savingOpportunities : list SavingOpportunity;
  subscriptions : list Subscription
}.

(** [CachedInsight]: [data] maps a language code to its analysis. *)
Record CachedInsight : Type := {
  insight_data : list (string * InsightsData);
  lastUpdated : Z
}.

(** The outcome of an awaited promise. *)
Inductive Outcome (A : Type) : Type :=
| Ok (a : A)
| Throw (errorMessage : string).
Arguments Ok {A} a.
Arguments Throw {A} errorMessage.

(* ------------------------------------------------------------------ *)
(** ** The document store (Firestore) *)

Module Firestore.

Section Collection.
Context {K D : Type} (eqb : K -> K -> bool).

(** [ref.get()]: the first document stored under the id. *)
Fixpoint getDoc (k : K) (docs : list (K * D)) : option D :=
  match docs with
  | [] => None
  | (k', d) :: rest => if eqb k' k then Some d else getDoc k rest
  end.

(** [ref.update(fields)]: fails when no document has the id. *)
Fixpoint updateDoc (k : K) (f : D -> D) (docs : list (K * D)) : option (list (K * D)) :=
  match docs with
  | [] => None
  | (k', d) :: rest =>
      if eqb k' k then Some ((k', f d) :: rest)
      else option_map (cons (k', d)) (updateDoc k f rest)
  end.

(** [ref.set(doc)]: replaces the document or creates it. *)
Fixpoint setDoc (k : K) (d : D) (docs : list (K * D)) : list (K * D) :=
  match docs with
  | [] => [(k, d)]
  | (k', d') :: rest =>
      if eqb k' k then (k', d) :: rest else (k', d') :: setDoc k d rest
  end.

End Collection.

Definition pathEqb (p q : string * string) : bool :=
  (String.eqb (fst p) (fst q) && String.eqb (snd p) (snd q))%bool.

(** The collections the account operations use: [users], [users/{uid}/cards],
    [users/{uid}/loans], [users/{uid}/insights] and the top-level
    [transactions]. A document of a sub-collection is stored under the pair
    of the user id and its own id. *)
Record Store : Type := {
  users : list (string * UserData);
  cardDocs : list (string * string * Card);
  loanDocs : list (string * string * Loan);
  insightDocs : list (string * string * CachedInsight);
  transactions : list Transaction
}.

(** [collection.where(field, "==", value).get()]: the matching documents in
    the order of the collection. *)
Definition where_eq (field : UserData -> string) (value : string)
  (docs : list (string * UserData)) : list (string * UserData) :=
  filter (fun d => String.eqb (field (snd d)) value) docs.

(** One [transaction.update(ref, fields)] of the code. *)
Inductive Write : Type :=
| UpdateUserBalance (userId : string) (newBalance : Z)
| UpdateCardBalances (userId cardId : string) (newCredit newStatement : Z)
| UpdateLoanRemaining (userId loanId : string) (newRemaining : Z)
| UpdateLoanStatus (userId loanId : string) (newStatus : LoanStatus).

Definition setCardBalances (cb sb : Z) (c : Card) : Card :=
  {| cardNumber := cardNumber c; cardType := cardType c; creditLimit := creditLimit c;
     creditBalance := cb; card_paymentDueDate := card_paymentDueDate c;
     statementBalance := sb; minimumPayment := minimumPayment c;
     card_transactions := card_transactions c |}.

Definition setCardDueDate (d : Z) (c : Card) : Card :=
  {| cardNumber := cardNumber c; cardType := cardType c; creditLimit := creditLimit c;
     creditBalance := creditBalance c; card_paymentDueDate := d;
     statementBalance := statementBalance c; minimumPayment := minimumPayment c;
     card_transactions := card_transactions c |}.

Definition setLoan (rb : Z) (st : LoanStatus) (due : Z) (l : Loan) : Loan :=
  {| loan_id := loan_id l; loan_uid := loan_uid l; loanAmount := loanAmount l;
     termMonths := termMonths l; monthlyPayment := monthlyPayment l;
     remainingBalance := rb; status := st; loan_startDate := loan_startDate l;
     loan_paymentDueDate := due |}.

Definition setUsers (us : list (string * UserData)) (s : Store) : Store :=
  {| users := us; cardDocs := cardDocs s; loanDocs := loanDocs s;
     insightDocs := insightDocs s; transactions := transactions s |}.

Definition setCardDocs (cs : list (string * string * Card)) (s : Store) : Store :=
  {| users := users s; cardDocs := cs; loanDocs := loanDocs s;
     insightDocs := insightDocs s; transactions := transactions s |}.

Definition setLoanDocs (ls : list (string * string * Loan)) (s : Store) : Store :=
  {| users := users s; cardDocs := cardDocs s; loanDocs := ls;
     insightDocs := insightDocs s; transactions := transactions s |}.

Definition setInsightDocs (ds : list (string * string * CachedInsight)) (s : Store) : Store :=
  {| users := users s; cardDocs := cardDocs s; loanDocs := loanDocs s;
     insightDocs := ds; transactions := transactions s |}.

(** [collection("transactions").add(doc)] *)
Definition addTransaction (t : Transaction) (s : Store) : Store :=
  {| users := users s; cardDocs := cardDocs s; loanDocs := loanDocs s;
     insightDocs := insightDocs s; transactions := (transactions s ++ [t])%list |}.

Definition applyWrite (w : Write) (s : Store) : option Store :=
  match w with
  | UpdateUserBalance u b =>
      option_map (fun us => setUsers us s) (updateDoc String.eqb u (setBalance b) (users s))
  | UpdateCardBalances u c cb sb =>
      option_map (fun cs => setCardDocs cs s)
        (updateDoc pathEqb (u, c) (setCardBalances cb sb) (cardDocs s))
  | UpdateLoanRemaining u l rb =>
      option_map (fun ls => setLoanDocs ls s)
        (updateDoc pathEqb (u, l)
           (fun x => setLoan rb (status x) (loan_paymentDueDate x) x) (loanDocs s))
  | UpdateLoanStatus u l st =>
      option_map (fun ls => setLoanDocs ls s)
        (updateDoc pathEqb (u, l)
           (fun x => setLoan (remainingBalance x) st (loan_paymentDueDate x) x) (loanDocs s))
  end.

(** The commit of a transaction: every write lands, or none does. *)
Fixpoint commit (ws : list Write) (s : Store) : option Store :=
  match ws with
  | [] => Some s
  | w :: rest =>
      match applyWrite w s with
      | Some s' => commit rest s'
      | None => None
      end
  end.

(** The callback handed to [db.runTransaction]: it reads the store as the
    transaction sees it and either throws or hands back its result together
    with the writes it issued, in order. *)
Definition TxnBody (A : Type) : Type := Store -> Outcome (A * list Write).

(** [db.runTransaction(body)]: the attempt that commits runs [body] on the
    store as it is then; a throw or a failed write leaves the store as it
    was. *)
Definition runTransaction {A : Type} (body : TxnBody A) (s : Store) : Outcome A * Store :=
  match body s with
  | Throw m => (Throw m, s)
  | Ok (a, ws) =>
      match commit ws s with
      | Some s' => (Ok a, s')
      | None => (Throw "No document to update", s)
      end
  end.

Definition getUser (userId : string) (s : Store) : option UserData :=
  getDoc String.eqb userId (users s).

Definition getCard (userId cardId : string) (s : Store) : option Card :=
  getDoc pathEqb (userId, cardId) (cardDocs s).

Definition getLoan (userId loanId : string) (s : Store) : option Loan :=
  getDoc pathEqb (userId, loanId) (loanDocs s).

(** Document ids are unique within a collection. *)
Definition wellFormed (s : Store) : Prop := NoDup (map fst (users s)).

End Firestore.

(* ------------------------------------------------------------------ *)
(** ** JavaScript dates (ECMAScript, "Date Objects") *)

Module JsDate.

Definition msPerDay : Z := 86400000.

Definition Day (t : Z) : Z := t / msPerDay.
Definition TimeWithinDay (t : Z) : Z := t mod msPerDay.

Definition DaysInYear (y : Z) : Z :=
  if negb (y mod 4 =? 0) then 365
  else if negb (y mod 100 =? 0) then 366
  else if negb (y mod 400 =? 0) then 365
  else 366.

Definition DayFromYear (y : Z) : Z :=
  365 * (y - 1970) + (y - 1969) / 4 - (y - 1901) / 100 + (y - 1601) / 400.

(** The year of a day number: the largest [y] with [DayFromYear y <= d],
    found from the mean length of a year and one step of adjustment. *)
Definition YearFromDay (d : Z) : Z :=
  let y := 1970 + (d * 400) / 146097 in
  if DayFromYear (y + 1) <=? d then y + 1
  else if d <? DayFromYear y then y - 1
  else y.

Definition YearFromTime (t : Z) : Z := YearFromDay (Day t).

Definition InLeapYear (t : Z) : Z :=
  if DaysInYear (YearFromTime t) =? 366 then 1 else 0.

Definition DayWithinYear (t : Z) : Z := Day t - DayFromYear (YearFromTime t).

Definition MonthFromTime (t : Z) : Z :=
  let d := DayWithinYear t in
  let l := InLeapYear t in
  if d <? 31 then 0
  else if d <? 59 + l then 1
  else if d <? 90 + l then 2
  else if d <? 120 + l then 3
  else if d <? 151 + l then 4
  else if d <? 181 + l then 5
  else if d <? 212 + l then 6
  else if d <? 243 + l then 7
  else if d <? 273 + l then 8
  else if d <? 304 + l then 9
  else if d <? 334 + l then 10
  else 11.

Definition DateFromTime (t : Z) : Z :=
  let d := DayWithinYear t in
  let l := InLeapYear t in
  match MonthFromTime t with
  | 0 => d + 1
  | 1 => d - 30
  | 2 => d - 58 - l
  | 3 => d - 89 - l
  | 4 => d - 119 - l
  | 5 => d - 150 - l
  | 6 => d - 180 - l
  | 7 => d - 211 - l
  | 8 => d - 242 - l
  | 9 => d - 272 - l
  | 10 => d - 303 - l
  | _ => d - 333 - l
  end.

(** The day within its year on which month [m] (0 to 11) starts. *)
Definition monthStart (m leap : Z) : Z :=
  match m with
  | 0 => 0
  | 1 => 31
  | 2 => 59 + leap
  | 3 => 90 + leap
  | 4 => 120 + leap
  | 5 => 151 + leap
  | 6 => 181 + leap
  | 7 => 212 + leap
  | 8 => 243 + leap
  | 9 => 273 + leap
  | 10 => 304 + leap
  | _ => 334 + leap
  end.

(** [MakeDay(year, month, date)]: the day number of the first of the month,
    plus [date - 1]; [date] may lie outside the month. *)
Definition MakeDay (year month date : Z) : Z :=
  let ym := year + month / 12 in
  let mn := month mod 12 in
  let leap := if DaysInYear ym =? 366 then 1 else 0 in
  DayFromYear ym + monthStart mn leap + date - 1.

Definition MakeDate (day time : Z) : Z := day * msPerDay + time.

(** [TimeClip]: [None] is the time value NaN of an invalid date. *)
Definition TimeClip (t : Z) : option Z :=
  if 8640000000000000 <? Z.abs t then None else Some t.

Section Zone.

(** [LocalTZA(t, isUTC)]: the offset of the client's time zone, in
    milliseconds, at the UTC time [t] ([isUTC = true]) or at the local time
    [t] ([isUTC = false]). *)
Variable LocalTZA : Z -> bool -> Z.

Definition LocalTime (t : Z) : Z := t + LocalTZA t true.
Definition UTC (t : Z) : Z := t - LocalTZA t false.

(** [Date.prototype.getDate] on a valid date. *)
Definition getDate (tv : Z) : Z := DateFromTime (LocalTime tv).

(** [Date.prototype.setDate(date)] on a valid date: the new time value. *)
Definition setDate (tv : Z) (date : Z) : option Z :=
  let t := LocalTime tv in
  let newDate := MakeDate (MakeDay (YearFromTime t) (MonthFromTime t) date) (TimeWithinDay t) in
  TimeClip (UTC newDate).

Definition monthName (m : Z) : string :=
  nth (Z.to_nat m)
    ["January"; "February"; "March"; "April"; "May"; "June"; "July"; "August";
     "September"; "October"; "November"; "December"] "".

Definition showInt (z : Z) : string :=
  (if z <? 0 then "-" else "") ++ JsString.digits (Z.to_N (Z.abs z)).

(** [toLocaleDateString('en-US', {year:'numeric', month:'long', day:'numeric'})] *)
Definition formatDate (tv : Z) : string :=
  let t := LocalTime tv in
  monthName (MonthFromTime t) ++ " " ++ showInt (DateFromTime t) ++ ", "
  ++ showInt (YearFromTime t).

End Zone.

(** The time value "[d] plus [n] days" on the client's calendar: the same
    wall-clock time, [n] days later. *)
Definition plusDays (LocalTZA : Z -> bool -> Z) (d n : Z) : Z :=
  UTC LocalTZA (LocalTime LocalTZA d + n * msPerDay).

End JsDate.

(* ------------------------------------------------------------------ *)
(** ** The account operations ([App.tsx]) *)

Module App.
Import Firestore JsString JsDate.

Record OpResult : Type := { success : bool; message : string }.

Definition failure (m : string) : OpResult := {| success := false; message := m |}.

Definition quote : string := String (ascii_of_nat 34) EmptyString.

(** The five queries of [transferMoney], awaited together, and
    [results.flatMap(snap => snap.docs)[0]]. *)
Definition findRecipient (recipientIdentifier : string) (s : Store)
  : option (string * UserData) :=
  let usersRef := users s in
  let q1 := where_eq name recipientIdentifier usersRef in
  let q2 := where_eq savingsAccountNumber recipientIdentifier usersRef in
  let q3 := where_eq email recipientIdentifier usersRef in
  let q4 := where_eq phone recipientIdentifier usersRef in
  let q5 := where_eq username (toLowerCase recipientIdentifier) usersRef in
  let results := [q1; q2; q3; q4; q5] in
  hd_error (flat_map (fun snap => snap) results).

(** The callback of [db.runTransaction] in [transferMoney]. [recipient] is
    the object built from the query result before the transaction starts;
    the sender's document is read through the transaction. *)
Definition transferTxn (senderId : string) (recipient : string * UserData) (amount : Z)
  : TxnBody unit :=
  fun s =>
    let senderDoc := getUser senderId s in
    let senderBalance := match senderDoc with Some d => balance d | None => 0 end in
    if (match senderDoc with Some _ => false | None => true end
        || (senderBalance <? amount))%bool
    then Throw "Insufficient funds."
    else Ok (tt, [UpdateUserBalance senderId (senderBalance - amount);
                  UpdateUserBalance (fst recipient) (balance (snd recipient) + amount)]).

Definition transferRecords (timestamp : Z) (cu : User) (recipient : string * UserData)
  (amount : Z) : Transaction * Transaction :=
  ({| tx_id := None; tx_uid := uid cu; tx_type := debit; tx_amount := amount;
      tx_description := "Payment to " ++ name (snd recipient);
      tx_timestamp := timestamp; tx_partyName := name (snd recipient);
      tx_category := "Transfers"; tx_cardId := None |},
   {| tx_id := None; tx_uid := fst recipient; tx_type := credit; tx_amount := amount;
      tx_description := "Payment from " ++ name (data cu);
      tx_timestamp := timestamp; tx_partyName := name (data cu);
      tx_category := "Transfers"; tx_cardId := None |}).

Definition keepUser : option User -> option User := fun prev => prev.

(** [transferMoney]. [others] is what other sessions do to the store
    between the recipient lookup and the transaction ([fun s => s] when the
    call runs alone); [now] is the clock read for the time stamp. The third
    component of the result is the updater handed to [setCurrentUser]. *)
Definition transferMoney (others : Store -> Store) (now : Z) (currentUser : option User)
  (recipientIdentifier : string) (amount : Z) (s : Store)
  : OpResult * Store * (option User -> option User) :=
  match currentUser with
  | None => (failure "Error: You are not logged in.", s, keepUser)
  | Some cu =>
      if amount <=? 0 then (failure "Error: Payment amount must be positive.", s, keepUser)
      else if balance (data cu) <? amount then (failure "Error: Insufficient funds.", s, keepUser)
      else
        match findRecipient recipientIdentifier s with
        | None =>
            (failure ("Error: Contact or account " ++ quote ++ recipientIdentifier
                      ++ quote ++ " not found."), s, keepUser)
        | Some recipient =>
            if String.eqb (fst recipient) (uid cu)
            then (failure "Error: Cannot send money to yourself.", s, keepUser)
            else
              match runTransaction (transferTxn (uid cu) recipient amount) (others s) with
              | (Throw m, s1) => (failure m, s1, keepUser)
              | (Ok _, s1) =>
                  let timestamp := now in
                  let (debitTx, creditTx) := transferRecords timestamp cu recipient amount in
                  let s2 := addTransaction debitTx s1 in
                  let s3 := addTransaction creditTx s2 in
                  ({| success := true;
                      message := "Success! You sent " ++ formatCurrency amount ++ " to "
                                 ++ name (snd recipient) ++ "." |},
                   s3,
                   option_map (withBalance (fun b => b - amount)))
              end
        end
  end.

Inductive AccountType : Type := cardAccount | loanAccount.

Inductive PaymentType : Type := minimum | statement | full | custom.

(** [currentUser.cards.find(c => c.cardNumber.slice(-4) === accountId)] *)
Definition findCard (accountId : string) (cu : User) : option Card :=
  find (fun c => String.eqb (sliceLast 4 (cardNumber c)) accountId) (cards cu).

(** [currentUser.loans.find(l => l.id === accountId)] *)
Definition findLoan (accountId : string) (cu : User) : option Loan :=
  find (fun l => String.eqb (loan_id l) accountId) (loans cu).

(** [customAmount || 0] *)
Definition orZero (customAmount : option Z) : Z :=
  match customAmount with Some a => a | None => 0 end.

(** The callback of [db.runTransaction] in [makeAccountPayment]. The user
    document is read through the transaction; the card or loan is the one
    held in [currentUser]. The result is the final [message]. *)
Definition paymentTxn (cu : User) (accountId : string) (accountType : AccountType)
  (paymentType : PaymentType) (customAmount : option Z) : TxnBody string :=
  fun s =>
    match getUser (uid cu) s with
    | None => Throw "User not found."
    | Some userData =>
        match accountType with
        | cardAccount =>
            match findCard accountId cu with
            | None => Throw ("Card ending in " ++ accountId ++ " not found.")
            | Some card =>
                let paymentAmount :=
                  match paymentType with
                  | minimum => minimumPayment card
                  | statement => statementBalance card
                  | full => creditBalance card
                  | custom => orZero customAmount
                  end in
                if paymentAmount <=? 0 then Throw "A valid payment amount is required."
                else if balance userData <? paymentAmount then Throw "Insufficient funds."
                else
                  Ok ("Successfully paid " ++ formatCurrency paymentAmount
                      ++ " towards your card ending in " ++ accountId ++ ".",
                      [UpdateUserBalance (uid cu) (balance userData - paymentAmount);
                       UpdateCardBalances (uid cu) (cardNumber card)
                         (Z.max 0 (creditBalance card - paymentAmount))
                         (Z.max 0 (statementBalance card - paymentAmount))])
            end
        | loanAccount =>
            match findLoan accountId cu with
            | None => Throw ("Loan with ID " ++ accountId ++ " not found.")
            | Some loan =>
                let paymentAmount :=
                  match paymentType with
                  | minimum => monthlyPayment loan
                  | full => remainingBalance loan
                  | custom => orZero customAmount
                  | statement => monthlyPayment loan
                  end in
                if paymentAmount <=? 0 then Throw "A valid payment amount is required."
                else
                  let paymentAmount :=
                    if remainingBalance loan <? paymentAmount
                    then remainingBalance loan else paymentAmount in
                  if balance userData <? paymentAmount then Throw "Insufficient funds."
                  else
                    let newRemainingBalance := remainingBalance loan - paymentAmount in
                    let writes :=
                      [UpdateUserBalance (uid cu) (balance userData - paymentAmount);
                       UpdateLoanRemaining (uid cu) (loan_id loan) newRemainingBalance] in
                    if newRemainingBalance <=? 0
                    then Ok ("Successfully paid off your loan (" ++ accountId
                             ++ "). Congratulations!",
                             (writes ++ [UpdateLoanStatus (uid cu) (loan_id loan) PaidOff])%list)
                    else Ok ("Successfully paid " ++ formatCurrency paymentAmount
                             ++ " towards your loan (" ++ accountId ++ ").",
                             writes)
            end
        end
    end.

(** [makeAccountPayment] *)
Definition makeAccountPayment (currentUser : option User) (accountId : string)
  (accountType : AccountType) (paymentType : PaymentType) (customAmount : option Z)
  (s : Store) : OpResult * Store :=
  match currentUser with
  | None => (failure "Error: You are not logged in.", s)
  | Some cu =>
      match runTransaction (paymentTxn cu accountId accountType paymentType customAmount) s with
      | (Ok msg, s') => ({| success := true; message := msg |}, s')
      | (Throw m, s') => (failure m, s')
      end
  end.

Record ExtensionResult : Type := {
  ext_success : bool;
  ext_message : string;
  newDueDate : option Z
}.

Definition refused (m : string) : ExtensionResult :=
  {| ext_success := false; ext_message := m; newDueDate := None |}.

Definition Qlt_bool (x y : Q) : bool := negb (Qle_bool y x).

(** [requestPaymentExtension]. [random] is the value [Math.random()]
    returns; no clock is read. A thrown outcome is the rejected promise of
    an [update] on a missing document or the [RangeError] of [toISOString]
    on an invalid date. *)
Definition requestPaymentExtension (LocalTZA : Z -> bool -> Z) (random : Q)
  (currentUser : option User) (accountId : string) (type : AccountType) (s : Store)
  : Outcome ExtensionResult * Store :=
  match currentUser with
  | None => (Ok (refused "Error: You are not logged in."), s)
  | Some cu =>
      if Qlt_bool random (1 # 10)
      then (Ok (refused "We're sorry, but we were unable to process a payment extension for this account."), s)
      else
        let target :=
          match type with
          | cardAccount =>
              match findCard accountId cu with
              | None => inl ("Error: Card ending in " ++ accountId ++ " not found.")
              | Some card =>
                  inr (fun d (st : Store) =>
                         option_map (fun cs => setCardDocs cs st)
                           (updateDoc pathEqb (uid cu, cardNumber card)
                              (setCardDueDate d) (cardDocs st)),
                       card_paymentDueDate card)
              end
          | loanAccount =>
              match findLoan accountId cu with
              | None => inl ("Error: Loan with ID " ++ accountId ++ " not found.")
              | Some loan =>
                  inr (fun d (st : Store) =>
                         option_map (fun ls => setLoanDocs ls st)
                           (updateDoc pathEqb (uid cu, loan_id loan)
                              (fun l => setLoan (remainingBalance l) (status l) d l)
                              (loanDocs st)),
                       loan_paymentDueDate loan)
              end
          end in
        match target with
        | inl m => (Ok (refused m), s)
        | inr (docRefUpdate, paymentDueDate) =>
            match TimeClip paymentDueDate with
            | None => (Throw "Invalid time value", s)
            | Some originalDueDate =>
                match setDate LocalTZA originalDueDate (getDate LocalTZA originalDueDate + 14) with
                | None => (Throw "Invalid time value", s)
                | Some newDueDate =>
                    match docRefUpdate newDueDate s with
                    | None => (Throw "No document to update", s)
                    | Some s' =>
                        (Ok {| ext_success := true;
                               ext_message :=
                                 "Success! Your payment due date has been extended to "
                                 ++ formatDate LocalTZA newDueDate ++ ".";
                               newDueDate := Some newDueDate |}, s')
                    end
                end
            end
        end
  end.

Record Passkey : Type := { passkey_id : string; created : Z }.

(** What [navigator.credentials.get] does with the challenge: it resolves
    with an assertion, resolves with [null], or rejects with an error of the
    given name. *)
Inductive Ceremony : Type :=
| Asserted
| NoAssertion
| Rejected (errorName : string).

(** [verifyCurrentUserWithPasskey]: the answer of the gate and the toast it
    shows, if any. Every error is caught; the function does not throw. *)
Definition verifyCurrentUserWithPasskey (currentUser : option User)
  (isPasskeySupported : bool) (passkeys : list Passkey) (ceremony : Ceremony)
  : bool * option string :=
  if (match currentUser with Some _ => false | None => true end
      || negb isPasskeySupported
      || Nat.eqb (List.length passkeys) 0)%bool
  then (false, None)
  else
    match ceremony with
    | Asserted => (true, None)
    | NoAssertion => (false, None)
    | Rejected errorName =>
        if (negb (String.eqb errorName "NotAllowedError")
            && negb (String.eqb errorName "AbortError"))%bool
        then (false, Some "Passkey verification failed.")
        else (false, None)
    end.

(** The state of the [App] component the insights functions read and
    write: React state, the store, and the record of the requests sent to the
    model for a batch analysis. *)
Record AppState : Type := {
  currentUser : option User;
  clientTransactions : list Transaction;
  insightsData : option CachedInsight;
  isInsightsLoading : bool;
  db : Store;
  analysisRequests : list (list Transaction)
}.

(** [record[key]] on an object used as a map *)
Definition recordGet {D : Type} (key : string) (entries : list (string * D)) : option D :=
  getDoc String.eqb key entries.

Definition isDebit (tx : Transaction) : bool :=
  match tx_type tx with debit => true | credit => false end.

Section Insights.

Variable LocalTZA : Z -> bool -> Z.

(** [ai.models.generateContent] followed by [JSON.parse]: the parsed answer
    of the model to the prompt built from the transactions on the given
    day, or the error either of them raises. *)
Variable generateContent : list Transaction -> Z -> Outcome (list (string * InsightsData)).

(** [getComprehensiveInsights] ([services/geminiService.ts]); [requests] is
    the record of the calls made to the model so far. *)
Definition getComprehensiveInsights (today : Z) (txs : list Transaction)
  (requests : list (list Transaction))
  : option (list (string * InsightsData)) * list (list Transaction) :=
  if (Z.of_nat (List.length (filter isDebit txs)) <? 3) then (None, requests)
  else
    let requests' := (requests ++ [txs])%list in
    match generateContent txs today with
    | Ok parsed => (Some parsed, requests')
    | Throw _ => (None, requests')
    end.

Definition settle (shown : option CachedInsight) (store : Store)
  (requests : list (list Transaction)) (a : AppState) : AppState :=
  {| currentUser := currentUser a; clientTransactions := clientTransactions a;
     insightsData := shown; isInsightsLoading := false; db := store;
     analysisRequests := requests |}.

(** [loadOrGenerateInsights]; [now] is the clock read for the sixty-day
    window and [stamp] the one read for [lastUpdated]. *)
Definition loadOrGenerateInsights (now stamp : Z) (a : AppState)
  : option CachedInsight * AppState :=
  match (if isInsightsLoading a then None else currentUser a) with
  | None => (None, a)
  | Some cu =>
        let insightsRef := (uid cu, "latest") in
        match getDoc pathEqb insightsRef (insightDocs (db a)) with
        | Some cachedData =>
            (Some cachedData, settle (Some cachedData) (db a) (analysisRequests a) a)
        | None =>
            let allUserTransactions :=
              (filter (fun tx => String.eqb (tx_uid tx) (uid cu)) (clientTransactions a)
               ++ flat_map card_transactions (cards cu))%list in
            let sixtyDaysAgo := setDate LocalTZA now (getDate LocalTZA now - 60) in
            let recentTransactions :=
              filter (fun tx => match sixtyDaysAgo with
                                | Some t0 => t0 <=? tx_timestamp tx
                                | None => false
                                end) allUserTransactions in
            match getComprehensiveInsights now recentTransactions (analysisRequests a) with
            | (Some newInsightsData, requests) =>
                let newCachedInsights :=
                  {| insight_data := newInsightsData; lastUpdated := stamp |} in
                (Some newCachedInsights,
                 settle (Some newCachedInsights)
                   (setInsightDocs (setDoc pathEqb insightsRef newCachedInsights
                                      (insightDocs (db a))) (db a))
                   requests a)
            | (None, requests) => (None, settle None (db a) requests a)
            end
        end
  end.

End Insights.

End App.

(* ------------------------------------------------------------------ *)
(** ** The conversation loop ([ChatModal.tsx]) *)

Module ChatModal.
Import JsString JsDate.

(** JSON values, for the objects handed back to the model. *)
#[warnings="-register-all"]
Inductive JsVal : Type :=
| JUndefined
| JBool (b : bool)
| JNum (z : Z)
| JRat (q : Q)
| JStr (s : string)
| JArr (items : list JsVal)
| JObj (fields : list (string * JsVal)).

(** The arguments of a tool call, typed as the function declarations of
    [geminiService.ts] type them; every property may be absent. *)
Record Args : Type := {
  recipientName : option string;
  recipientAccountNumber : option string;
  recipientEmail : option string;
  recipientPhone : option string;
  amount : option Z;
  cardLast4 : option string;
  limit : option Z;
  accountId : option string;
  accountType : option string;
  paymentType : option string;
  applicationDetails : option (list (string * JsVal))
}.

Definition noArgs : Args :=
  {| recipientName := None; recipientAccountNumber := None; recipientEmail := None;
     recipientPhone := None; amount := None; cardLast4 := None; limit := None;
     accountId := None; accountType := None; paymentType := None;
     applicationDetails := None |}.

Record FunctionCall : Type := { call_name : option string; call_args : option Args }.

Record FunctionResponse : Type := { fr_name : option string; response : JsVal }.

(** What [chat.sendMessageStream] is given: the prompt, or the response
    parts of the tool calls. *)
Inductive MessageContent : Type :=
| PromptText (prompt : string)
| ResponseParts (parts : list FunctionResponse).

Record Chunk : Type := {
  functionCalls : option (list FunctionCall);
  chunk_text : option string
}.

(** One step of the asynchronous iteration over the response stream: a
    chunk, or the error that ends it. *)
Inductive StreamItem : Type :=
| Yield (c : Chunk)
| Fail (errorMessage : string).

Inductive Sender : Type := user | ai | system.

Record Message : Type := { id : nat; sender : Sender; text : string }.

(** A call of an operation of the bank context, with its arguments. *)
Inductive Invocation : Type :=
| InvTransferMoney (recipientIdentifier : option string) (amount : option Z)
| InvMakeAccountPayment (accountId accountType paymentType : option string)
    (amount : option Z)
| InvRequestPaymentExtension (accountId accountType : option string)
| InvAddCardToUser (details : list (string * JsVal))
| InvAddLoanToUser (details : list (string * JsVal))
| InvLoadOrGenerateInsights.

(** The events of a turn, in order: what a recording double of the chat
    session and of the context observes (the content sent, each chunk
    received, each answer of the gate, each operation called), and the point
    at which the loop over the collected calls takes up a call. *)
Inductive Event : Type :=
| EvSendMessageStream (content : MessageContent)
| EvChunk (c : Chunk)
| EvTakeUp (call : FunctionCall)
| EvVerifyPasskey (answer : bool)
| EvInvoke (i : Invocation).

(** The part of [BankContext] the modal uses, and the chat session. The
    functions of [handleSend] close over the context of the render in which
    they were created: [currentUser], [transactions] and [insightsData] are
    the values of that render for the whole turn; the operations act on the
    state [A] of the application. *)
Record BankContext (A : Type) : Type := {
  currentUser : option User;
  transactions : list Transaction;
  insightsData : option CachedInsight;
  transferMoney : option string -> option Z -> A -> Outcome App.OpResult * A;
  makeAccountPayment :
    option string -> option string -> option string -> option Z -> A
    -> Outcome App.OpResult * A;
  requestPaymentExtension :
    option string -> option string -> A -> Outcome App.ExtensionResult * A;
  addCardToUser : list (string * JsVal) -> A -> Outcome (App.OpResult * option Card) * A;
  addLoanToUser : list (string * JsVal) -> A -> Outcome (App.OpResult * option Loan) * A;
  verifyCurrentUserWithPasskey : A -> bool * A;
  loadOrGenerateInsights : A -> option CachedInsight * A;
  sendMessageStream : MessageContent -> A -> Outcome (list StreamItem) * A
}.
Arguments currentUser {A} b.
Arguments transactions {A} b.
Arguments insightsData {A} b.
Arguments transferMoney {A} b _ _ a.
Arguments makeAccountPayment {A} b _ _ _ _ a.
Arguments requestPaymentExtension {A} b _ _ a.
Arguments addCardToUser {A} b _ a.
Arguments addLoanToUser {A} b _ a.
Arguments verifyCurrentUserWithPasskey {A} b a.
Arguments loadOrGenerateInsights {A} b a.
Arguments sendMessageStream {A} b _ a.

(** The state of the modal: the application state behind the context, the
    React state of the component, and the events recorded so far. *)
Record Modal (A : Type) : Type := {
  app : A;
  chat : bool;
  messages : list Message;
  messageId : nat;
  inputValue : string;
  isLoading : bool;
  trace : list Event
}.
Arguments app {A} m.
Arguments chat {A} m.
Arguments messages {A} m.
Arguments messageId {A} m.
Arguments inputValue {A} m.
Arguments isLoading {A} m.
Arguments trace {A} m.

Record HandlerResult : Type := {
  h_success : JsVal;
  h_message : string;
  resultForModel : JsVal
}.

Definition getField (k : string) (fields : list (string * JsVal)) : JsVal :=
  match find (fun f => String.eqb (fst f) k) fields with
  | Some f => snd f
  | None => JUndefined
  end.

Definition successOf (v : JsVal) : JsVal :=
  match v with JObj fields => getField "success" fields | _ => JUndefined end.

(** [{ ...obj, key: v }] *)
Definition withField (k : string) (v : JsVal) (fields : list (string * JsVal))
  : list (string * JsVal) :=
  if existsb (fun f => String.eqb (fst f) k) fields
  then map (fun f => if String.eqb (fst f) k then (k, v) else f) fields
  else (fields ++ [(k, v)])%list.

(** [a || b] on optional strings: the empty string is falsy. *)
Definition orElse (a b : option string) : option string :=
  match a with
  | Some s => if String.eqb s "" then b else a
  | None => b
  end.

(** [list.slice(0, limit)] *)
Definition sliceTo {X : Type} (limit : Z) (l : list X) : list X :=
  if limit <? 0 then firstn (Z.to_nat (Z.of_nat (List.length l) + limit)) l
  else firstn (Z.to_nat limit) l.

(** [q.toFixed(1)]: the sign, then the magnitude rounded to one decimal,
    a tie going up. *)
Definition toFixed1 (q : Q) : string :=
  let n := Z.to_N (Qfloor (Qabs q * 10 + (1 # 2))%Q) in
  (if App.Qlt_bool q 0 then "-" else "") ++ digits (n / 10)%N ++ "." ++ digits (n mod 10)%N.

Definition txToJson (tx : Transaction) : JsVal :=
  JObj [("id", match tx_id tx with Some i => JStr i | None => JUndefined end);
        ("uid", JStr (tx_uid tx));
        ("type", JStr (match tx_type tx with credit => "credit" | debit => "debit" end));
        ("amount", JNum (tx_amount tx));
        ("description", JStr (tx_description tx));
        ("timestamp", JNum (tx_timestamp tx));
        ("partyName", JStr (tx_partyName tx));
        ("category", JStr (tx_category tx));
        ("cardId", match tx_cardId tx with Some c => JStr c | None => JUndefined end)].

Definition cardTypeName (c : Card) : string :=
  match cardType c with Visa => "Visa" | Mastercard => "Mastercard" end.

Definition cardToJson (c : Card) : list (string * JsVal) :=
  [("cardNumber", JStr (cardNumber c));
   ("cardType", JStr (cardTypeName c));
   ("creditLimit", JNum (creditLimit c));
   ("creditBalance", JNum (creditBalance c));
   ("paymentDueDate", JNum (card_paymentDueDate c));
   ("statementBalance", JNum (statementBalance c));
   ("minimumPayment", JNum (minimumPayment c));
   ("transactions", JArr (map txToJson (card_transactions c)))].

Definition loanToJson (l : Loan) : list (string * JsVal) :=
  [("id", JStr (loan_id l));
   ("uid", JStr (loan_uid l));
   ("loanAmount", JNum (loanAmount l));
   ("termMonths", JNum (termMonths l));
   ("monthlyPayment", JNum (monthlyPayment l));
   ("remainingBalance", JNum (remainingBalance l));
   ("status", JStr (match status l with Active => "Active" | PaidOff => "Paid Off" end));
   ("startDate", JNum (loan_startDate l));
   ("paymentDueDate", JNum (loan_paymentDueDate l))].

Definition resultToJson (r : App.OpResult) : list (string * JsVal) :=
  [("success", JBool (App.success r)); ("message", JStr (App.message r))].

Definition itemToJson (i : SpendingBreakdownItem) : JsVal :=
  JObj [("name", JStr (item_name i)); ("value", JNum (value i))].

Definition insightsToJson (d : InsightsData) : JsVal :=
  JObj [("spendingBreakdown", JArr (map itemToJson (spendingBreakdown d)));
        ("overallSpendingChange", JRat (overallSpendingChange d));
        ("topCategoryChanges",
         JArr (map (fun c => JObj [("category", JStr (category c));
                                   ("changePercent", JRat (changePercent c))])
                 (topCategoryChanges d)));
        ("cashFlowForecast", JStr (cashFlowForecast d));
        ("savingOpportunities",
         JArr (map (fun o => JObj [("suggestion", JStr (suggestion o));
                                   ("potentialSavings", JNum (potentialSavings o))])
                 (savingOpportunities d)));
        ("subscriptions",
         JArr (map (fun b => JObj [("name", JStr (sub_name b));
                                   ("amount", JNum (sub_amount b))])
                 (subscriptions d)))].

Definition newline : string := String (ascii_of_nat 10) EmptyString.

Definition sensitiveActions : list string :=
  ["initiatePayment"; "makeAccountPayment"; "applyForCreditCard"; "applyForLoan";
   "requestPaymentExtension"].

(** [sensitiveActions.includes(call.name)] *)
Definition isSensitive (call : FunctionCall) : bool :=
  match call_name call with
  | Some n => existsb (String.eqb n) sensitiveActions
  | None => false
  end.

(** The tool result synthesized for a call the user did not confirm. *)
Definition cancelledResponse (call : FunctionCall) : FunctionResponse :=
  {| fr_name := call_name call;
     response := JObj [("success", JBool false);
                       ("message", JStr "User cancelled the action with their passkey.")] |}.

Definition isWhitespace (c : ascii) : bool :=
  let n := nat_of_ascii c in
  (Nat.eqb n 32 || (Nat.leb 9 n && Nat.leb n 13))%bool.

(** [!prompt.trim()] *)
Fixpoint isBlank (s : string) : bool :=
  match s with
  | EmptyString => true
  | String c r => (isWhitespace c && isBlank r)%bool
  end.

(** Computations of the modal: state passing, with the thrown outcome of a
    rejected promise. *)
Definition M (A X : Type) : Type := Modal A -> Outcome X * Modal A.

Definition ret {A X : Type} (x : X) : M A X := fun w => (Ok x, w).

Definition bind {A X Y : Type} (m : M A X) (k : X -> M A Y) : M A Y :=
  fun w =>
    match m w with
    | (Ok x, w') => k x w'
    | (Throw e, w') => (Throw e, w')
    end.

Declare Scope modal_scope.
Delimit Scope modal_scope with modal.
Notation "x <- m ;; k" := (bind m (fun x => k))
  (at level 61, m at next level, right associativity) : modal_scope.
Notation "m ;;; k" := (bind m (fun _ => k))
  (at level 61, right associativity) : modal_scope.

Section Loop.

Context {A : Type}.
Variable ctx : BankContext A.

(** [t(key, params)] and [language] of [useTranslation]. *)
Variable t : string -> list (string * string) -> string.
Variable language : string.
Variable LocalTZA : Z -> bool -> Z.

Definition formatDate (timestamp : Z) : string := JsDate.formatDate LocalTZA timestamp.

Definition record (e : Event) : M A unit :=
  fun w =>
    (Ok tt, {| app := app w; chat := chat w; messages := messages w;
               messageId := messageId w; inputValue := inputValue w;
               isLoading := isLoading w; trace := (trace w ++ [e])%list |}).

(** Running an operation of the context on the application state. *)
Definition onApp {X : Type} (op : A -> X * A) : M A X :=
  fun w =>
    let (x, a) := op (app w) in
    (Ok x, {| app := a; chat := chat w; messages := messages w;
              messageId := messageId w; inputValue := inputValue w;
              isLoading := isLoading w; trace := trace w |}).

Definition await {X : Type} (op : A -> Outcome X * A) : M A X :=
  fun w =>
    match onApp op w with
    | (Ok (Ok x), w') => (Ok x, w')
    | (Ok (Throw e), w') => (Throw e, w')
    | (Throw e, w') => (Throw e, w')
    end.

Definition invoke {X : Type} (i : Invocation) (op : A -> Outcome X * A) : M A X :=
  (record (EvInvoke i) ;;; await op)%modal.

(** [messageId.current++] *)
Definition nextMessageId : M A nat :=
  fun w =>
    (Ok (messageId w),
     {| app := app w; chat := chat w; messages := messages w;
        messageId := S (messageId w); inputValue := inputValue w;
        isLoading := isLoading w; trace := trace w |}).

(** [setMessages(f)] *)
Definition setMessages (f : list Message -> list Message) : M A unit :=
  fun w =>
    (Ok tt, {| app := app w; chat := chat w; messages := f (messages w);
               messageId := messageId w; inputValue := inputValue w;
               isLoading := isLoading w; trace := trace w |}).

Definition appendMessage (s : Sender) (body : string) : M A unit :=
  (i <- nextMessageId ;;
   setMessages (fun prev => (prev ++ [{| id := i; sender := s; text := body |}])%list))%modal.

(** [findCard] of [handleFunctionCall] *)
Definition findCard (cu : User) (last4 : option string) : option Card :=
  match orElse last4 None with
  | None => hd_error (cards cu)
  | Some l4 => find (fun c => String.eqb (sliceLast 4 (cardNumber c)) l4) (cards cu)
  end.

Definition limitOr5 (l : option Z) : Z :=
  match l with
  | Some z => if z =? 0 then 5 else z
  | None => 5
  end.

Definition done (msg : string) (forModel : JsVal) : M A HandlerResult :=
  ret {| h_success := successOf forModel; h_message := msg; resultForModel := forModel |}.

Definition notFound (msg : string) : JsVal :=
  JObj [("success", JBool false); ("message", JStr msg)].

Definition sumValues (items : list SpendingBreakdownItem) : Z :=
  fold_left (fun sum item => sum + value item) items 0.

Definition breakdownLines (items : list SpendingBreakdownItem) : string :=
  String.concat newline
    (map (fun item => "- " ++ item_name item ++ ": " ++ formatCurrency (value item)) items).

(** [handleFunctionCall] *)
Definition handleFunctionCall (call : FunctionCall) : M A HandlerResult :=
  match orElse (call_name call) None with
  | None =>
      let message := "Tool call received without a function name." in
      ret {| h_success := JBool false; h_message := message;
             resultForModel := JObj [("success", JBool false); ("error", JStr message)] |}
  | Some fname =>
      match currentUser ctx with
      | None =>
          ret {| h_success := JBool false; h_message := "User not logged in.";
                 resultForModel := notFound "User not logged in." |}
      | Some cu =>
          let args := match call_args call with Some a => a | None => noArgs end in
          (if String.eqb fname "initiatePayment" then
             let recipientIdentifier :=
               orElse (recipientAccountNumber args)
                 (orElse (recipientEmail args)
                    (orElse (recipientPhone args) (recipientName args))) in
             (result <- invoke (InvTransferMoney recipientIdentifier (amount args))
                          (transferMoney ctx recipientIdentifier (amount args)) ;;
              done (App.message result) (JObj (resultToJson result)))%modal
           else if String.eqb fname "getCardStatementDetails" then
             match findCard cu (cardLast4 args) with
             | Some card =>
                 done ("Your " ++ cardTypeName card ++ " ending in "
                       ++ sliceLast 4 (cardNumber card) ++ " has a statement balance of "
                       ++ formatCurrency (statementBalance card)
                       ++ ". The minimum payment is " ++ formatCurrency (minimumPayment card)
                       ++ ", due on " ++ formatDate (card_paymentDueDate card) ++ ".")
                   (JObj (withField "transactions" JUndefined (cardToJson card)))
             | None => done "Card not found." (notFound "Card not found.")
             end
           else if String.eqb fname "getCardTransactions" then
             let limit := limitOr5 (limit args) in
             match findCard cu (cardLast4 args) with
             | Some card =>
                 let recentTxs := sliceTo limit (card_transactions card) in
                 let txSummary :=
                   String.concat newline
                     (map (fun tx => "- " ++ tx_description tx ++ ": "
                                     ++ formatCurrency (tx_amount tx) ++ " on "
                                     ++ formatDate (tx_timestamp tx)) recentTxs) in
                 done ("Here are the latest " ++ showInt limit
                       ++ " transactions for your card ending in "
                       ++ sliceLast 4 (cardNumber card) ++ ":" ++ newline ++ txSummary)
                   (JObj [("transactions", JArr (map txToJson recentTxs))])
             | None => done "Card not found." (notFound "Card not found.")
             end
           else if String.eqb fname "getAccountBalance" then
             let savingsBalance := balance (data cu) in
             let totalCardBalance :=
               fold_left (fun sum card => sum + creditBalance card) (cards cu) 0 in
             let totalLoanBalance :=
               fold_left (fun sum loan => sum + remainingBalance loan) (loans cu) 0 in
             done ("Here's your balance summary:" ++ newline
                   ++ "- Savings: " ++ formatCurrency savingsBalance ++ newline
                   ++ "- Total Card Debt: " ++ formatCurrency totalCardBalance ++ newline
                   ++ "- Total Loan Debt: " ++ formatCurrency totalLoanBalance)
               (JObj [("success", JBool true); ("savingsBalance", JNum savingsBalance);
                      ("totalCardBalance", JNum totalCardBalance);
                      ("totalLoanBalance", JNum totalLoanBalance)])
           else if String.eqb fname "getAccountTransactions" then
             let limit := limitOr5 (limit args) in
             let userTransactions := sliceTo limit (transactions ctx) in
             if (0 <? Z.of_nat (List.length userTransactions)) then
               let txSummary :=
                 String.concat newline
                   (map (fun tx => "- "
                                   ++ match tx_type tx with credit => "+" | debit => "-" end
                                   ++ formatCurrency (tx_amount tx) ++ " for " ++ App.quote
                                   ++ tx_description tx ++ App.quote ++ " on "
                                   ++ formatDate (tx_timestamp tx)) userTransactions) in
               done ("Here are your last "
                     ++ showInt (Z.of_nat (List.length userTransactions))
                     ++ " savings account transactions:" ++ newline ++ txSummary)
                 (JObj [("success", JBool true);
                        ("transactions", JArr (map txToJson userTransactions))])
             else
               done "You have no transactions in your savings account."
                 (JObj [("success", JBool true); ("transactions", JArr [])])
           else if String.eqb fname "makeAccountPayment" then
             (result <- invoke (InvMakeAccountPayment (accountId args) (accountType args)
                                  (paymentType args) (amount args))
                          (makeAccountPayment ctx (accountId args) (accountType args)
                             (paymentType args) (amount args)) ;;
              done (App.message result) (JObj (resultToJson result)))%modal
           else if String.eqb fname "requestPaymentExtension" then
             (result <- invoke (InvRequestPaymentExtension (accountId args) (accountType args))
                          (requestPaymentExtension ctx (accountId args) (accountType args)) ;;
              done (App.ext_message result)
                (JObj [("success", JBool (App.ext_success result));
                       ("message", JStr (App.ext_message result));
                       ("newDueDate", match App.newDueDate result with
                                      | Some d => JNum d
                                      | None => JUndefined
                                      end)]))%modal
           else if String.eqb fname "applyForCreditCard" then
             let details :=
               withField "fullName" (JStr (name (data cu)))
                 (match applicationDetails args with Some d => d | None => [] end) in
             (result <- invoke (InvAddCardToUser details) (addCardToUser ctx details) ;;
              done (App.message (fst result))
                (JObj (resultToJson (fst result)
                       ++ [("newCard", match snd result with
                                       | Some c => JObj (cardToJson c)
                                       | None => JUndefined
                                       end)])%list))%modal
           else if String.eqb fname "applyForLoan" then
             let loanDetails :=
               withField "fullName" (JStr (name (data cu)))
                 (match applicationDetails args with Some d => d | None => [] end) in
             (result <- invoke (InvAddLoanToUser loanDetails) (addLoanToUser ctx loanDetails) ;;
              done (App.message (fst result))
                (JObj (resultToJson (fst result)
                       ++ [("newLoan", match snd result with
                                       | Some l => JObj (loanToJson l)
                                       | None => JUndefined
                                       end)])%list))%modal
           else if String.eqb fname "getSpendingAnalysis" then
             (cachedInsights <- invoke InvLoadOrGenerateInsights
                                  (fun a => let (r, a') := loadOrGenerateInsights ctx a in
                                            (Ok r, a')) ;;
              let analysisResultObject :=
                match cachedInsights with
                | Some c => App.recordGet language (insight_data c)
                | None => None
                end in
              match analysisResultObject with
              | Some o =>
                  match spendingBreakdown o with
                  | [] =>
                      done "You have no spending data to analyze for this period."
                        (JObj [("total", JNum 0); ("breakdown", JArr [])])
                  | analysisResult =>
                      let total := sumValues analysisResult in
                      done ("Based on my analysis, you've spent a total of "
                            ++ formatCurrency total ++ " recently. Here's the breakdown:"
                            ++ newline ++ breakdownLines analysisResult)
                        (JObj [("total", JNum total);
                               ("breakdown", JArr (map itemToJson analysisResult))])
                  end
              | None =>
                  done "You have no spending data to analyze for this period."
                    (JObj [("total", JNum 0); ("breakdown", JArr [])])
              end)%modal
           else if String.eqb fname "getExistingSpendingInsights" then
             match
               match insightsData ctx with
               | Some c => App.recordGet language (insight_data c)
               | None => None
               end
             with
             | Some insights =>
                 let totalSpending := sumValues (spendingBreakdown insights) in
                 done ("Here are your latest spending insights:" ++ newline
                       ++ "You've spent a total of " ++ formatCurrency totalSpending
                       ++ " recently. The top categories are "
                       ++ String.concat ", "
                            (map item_name (firstn 2 (spendingBreakdown insights)))
                       ++ ". Your overall spending has changed by "
                       ++ toFixed1 (overallSpendingChange insights)
                       ++ "% compared to the last period. Would you like more details?")
                   (JObj [("success", JBool true); ("insights", insightsToJson insights)])
             | None =>
                 done "I'm generating your first spending analysis. This might take a moment..."
                   (JObj [("success", JBool false);
                          ("message", JStr "No cached insights found. Please use the 'getSpendingAnalysis' tool to generate them now.")])
             end
           else
             done "An unknown function was called."
               (JObj [("success", JBool false); ("message", JStr "Function not found")]))
      end
  end.

(** The body of [for await (const chunk of responseStream)], with the
    local variables [accumulatedText], [aiMessageId] and
    [collectedFunctionCalls] of [streamAndHandle]. *)
Fixpoint consume (stream : list StreamItem) (accumulatedText : string)
  (aiMessageId : option nat) (collectedFunctionCalls : list FunctionCall)
  : M A (list FunctionCall) :=
  match stream with
  | [] => ret collectedFunctionCalls
  | Fail e :: _ => fun w => (Throw e, w)
  | Yield chunk :: rest =>
      (record (EvChunk chunk) ;;;
       let collected :=
         match functionCalls chunk with
         | Some calls => (collectedFunctionCalls ++ calls)%list
         | None => collectedFunctionCalls
         end in
       match orElse (chunk_text chunk) None with
       | Some chunkText =>
           i <- match aiMessageId with
                | Some i => ret i
                | None =>
                    i <- nextMessageId ;;
                    setMessages (fun prev =>
                      (prev ++ [{| id := i; sender := ai; text := "" |}])%list) ;;;
                    ret i
                end ;;
           let accumulated := accumulatedText ++ chunkText in
           setMessages (map (fun msg =>
             if Nat.eqb (id msg) i
             then {| id := id msg; sender := sender msg; text := accumulated |}
             else msg)) ;;;
           consume rest accumulated (Some i) collected
       | None => consume rest accumulatedText aiMessageId collected
       end)%modal
  end.

(** [streamAndHandle] *)
Definition streamAndHandle (messageContent : MessageContent) : M A (list FunctionCall) :=
  (record (EvSendMessageStream messageContent) ;;;
   responseStream <- await (sendMessageStream ctx messageContent) ;;
   consume responseStream "" None [])%modal.

(** The body of [for (const call of functionCalls)] for one call: the
    response part it pushes. *)
Definition processCall (call : FunctionCall) : M A FunctionResponse :=
  (record (EvTakeUp call) ;;;
   isVerified <-
     (if isSensitive call then
        appendMessage system
          (t "passkeyConfirmationRequired"
             [("action", match call_name call with Some n => n | None => "" end)]) ;;;
        isVerified <- onApp (verifyCurrentUserWithPasskey ctx) ;;
        record (EvVerifyPasskey isVerified) ;;;
        ret isVerified
      else ret true) ;;
   if negb isVerified then
     appendMessage system (t "actionCancelled" []) ;;;
     ret (cancelledResponse call)
   else
     r <- handleFunctionCall call ;;
     appendMessage system (h_message r) ;;;
     ret {| fr_name := call_name call; response := resultForModel r |})%modal.

(** The loop over the collected calls; [functionResponseParts] is the list
    pushed to so far. *)
Fixpoint processCalls (functionCalls : list FunctionCall)
  (functionResponseParts : list FunctionResponse) : M A (list FunctionResponse) :=
  match functionCalls with
  | [] => ret functionResponseParts
  | call :: rest =>
      (part <- processCall call ;;
       processCalls rest (functionResponseParts ++ [part])%list)%modal
  end.

(** The [try] block of [handleSend]. *)
Definition turn (prompt : string) : M A unit :=
  (functionCalls <- streamAndHandle (PromptText prompt) ;;
   match functionCalls with
   | [] => ret tt
   | _ :: _ =>
       functionResponseParts <- processCalls functionCalls [] ;;
       streamAndHandle (ResponseParts functionResponseParts) ;;;
       ret tt
   end)%modal.

Definition setLoading (b : bool) (clearInput : bool) (w : Modal A) : Modal A :=
  {| app := app w; chat := chat w; messages := messages w; messageId := messageId w;
     inputValue := if clearInput then "" else inputValue w;
     isLoading := b; trace := trace w |}.

(** [handleSend]: the guard, the user's message, the [try] block, the
    [catch] that shows the generic error and the [finally] that clears
    [isLoading]. *)
Definition handleSend (prompt : string) (w : Modal A) : Modal A :=
  if (isBlank prompt || isLoading w
      || match currentUser ctx with Some _ => false | None => true end
      || negb (chat w))%bool
  then w
  else
    match (appendMessage user prompt ;;; ret tt)%modal w with
    | (_, w1) =>
        let w2 := setLoading true true w1 in
        match turn prompt w2 with
        | (Ok _, w3) => setLoading false false w3
        | (Throw _, w3) =>
            match appendMessage system (t "chatError" []) w3 with
            | (_, w4) => setLoading false false w4
            end
        end
    end.

End Loop.

End ChatModal.

(* ------------------------------------------------------------------ *)
(** ** Applications for credit ([App.tsx]: [addCardToUser], [addLoanToUser])
       and the refresh of the analysis ([refreshInsights]) *)

Module Accounts.
Import Firestore JsString JsDate App.

Section Zone.

Variable LocalTZA : Z -> bool -> Z.

(** [Date.prototype.getMonth] on a valid date. *)
Definition getMonth (tv : Z) : Z := MonthFromTime (LocalTime LocalTZA tv).

(** [Date.prototype.setMonth(month)] on a valid date: the new time value. *)
Definition setMonth (tv : Z) (month : Z) : option Z :=
  let t := LocalTime LocalTZA tv in
  let newDate := MakeDate (MakeDay (YearFromTime t) month (DateFromTime t)) (TimeWithinDay t) in
  TimeClip (UTC LocalTZA newDate).

End Zone.

(** The fields of [CardApplicationDetails] and [LoanApplicationDetails] the
    two functions read. *)
Record CardApplicationDetails : Type := {
  card_fullName : string;
  requestedCardType : CardType
}.

Record LoanApplicationDetails : Type := {
  fullName : string;
  requestedAmount : Z;
  loanTerm : Z
}.

Record CardResult : Type := {
  card_success : bool;
  card_message : string;
  newCard : option Card
}.

Record LoanResult : Type := {
  loan_success : bool;
  loan_message : string;
  newLoan : option Loan
}.

Definition cardTypeName (t : CardType) : string :=
  match t with Visa => "Visa" | Mastercard => "Mastercard" end.

Definition addCard (c : Card) (u : User) : User :=
  {| uid := uid u; data := data u; cards := (cards u ++ [c])%list; loans := loans u |}.

(** [addCardToUser]. [random] is the value [Math.random()] returns for the
    decision; [generateMockCard] is the generator of [constants.ts], whose
    result depends on the card type asked for and on its own random draws.
    The third component of the result is the updater handed to
    [setCurrentUser]. *)
Definition addCardToUser (random : Q) (generateMockCard : CardType -> Card)
  (currentUser : option User) (details : CardApplicationDetails) (s : Store)
  : CardResult * Store * (option User -> option User) :=
  match currentUser with
  | None =>
      ({| card_success := false; card_message := "Error: You are not logged in.";
          newCard := None |}, s, keepUser)
  | Some cu =>
      if Qlt_bool random (2 # 10)
      then ({| card_success := false;
               card_message := "We're sorry, " ++ card_fullName details
                 ++ ", but we were unable to approve your credit card application at this time.";
               newCard := None |}, s, keepUser)
      else
        let newCard := generateMockCard (requestedCardType details) in
        let s' := setCardDocs (setDoc pathEqb (uid cu, cardNumber newCard) newCard (cardDocs s)) s in
        ({| card_success := true;
            card_message := "Congratulations, " ++ card_fullName details ++ "! Your new "
              ++ cardTypeName (cardType newCard) ++ " card has been approved.";
            newCard := Some newCard |},
         s',
         option_map (addCard newCard))
  end.

(** The callback of [db.runTransaction] in [addLoanToUser]: the balance is
    read through the transaction. *)
Definition loanTxn (userId : string) (loanAmount : Z) : TxnBody unit :=
  fun s =>
    match getUser userId s with
    | None => Throw "User not found!"
    | Some d =>
        let newBalance := balance d + loanAmount in
        Ok (tt, [UpdateUserBalance userId newBalance])
    end.

(** The clock as [addLoanToUser] reads it, in the order of the reads:
    [Date.now()] for the id, [new Date()] for the start date, and the two
    [new Date()] of the due date (the date that is moved, and the date whose
    month is taken). *)
Record Readings : Type := {
  atId : Z;
  atStart : Z;
  atDue : Z;
  atMonth : Z
}.

Definition addLoan (amount : Z) (l : Loan) (u : User) : User :=
  {| uid := uid u; data := setBalance (balance (data u) + amount) (data u);
     cards := cards u; loans := (loans u ++ [l])%list |}.

(** [addLoanToUser]. [random] is the value [Math.random()] returns for the
    decision; [payment] is the monthly payment the annuity formula gives at
    the interest rate drawn, as rounded by [toFixed(2)]. A thrown outcome is
    the rejection of the promise: the [RangeError] of [toISOString] on an
    invalid date, or what the transaction throws; nothing catches it. *)
Definition addLoanToUser (LocalTZA : Z -> bool -> Z) (random : Q) (payment : Z)
  (clock : Readings) (currentUser : option User) (details : LoanApplicationDetails)
  (s : Store) : Outcome LoanResult * Store * (option User -> option User) :=
  match currentUser with
  | None =>
      (Ok {| loan_success := false; loan_message := "Error: You are not logged in.";
             newLoan := None |}, s, keepUser)
  | Some cu =>
      if Qlt_bool random (3 # 10)
      then (Ok {| loan_success := false;
                  loan_message := "We're sorry, " ++ fullName details
                    ++ ", but we were unable to approve your loan application for "
                    ++ formatCurrency (requestedAmount details) ++ " at this time.";
                  newLoan := None |}, s, keepUser)
      else
        let loanAmount := requestedAmount details in
        match setMonth LocalTZA (atDue clock) (getMonth LocalTZA (atMonth clock) + 1) with
        | None => (Throw "Invalid time value", s, keepUser)
        | Some due =>
            let newLoan :=
              {| loan_id := "loan-" ++ uid cu ++ "-" ++ showInt (atId clock);
                 loan_uid := uid cu; loanAmount := loanAmount;
                 termMonths := loanTerm details; monthlyPayment := payment;
                 remainingBalance := loanAmount; status := Active;
                 loan_startDate := atStart clock; loan_paymentDueDate := due |} in
            match runTransaction (loanTxn (uid cu) loanAmount) s with
            | (Throw m, s1) => (Throw m, s1, keepUser)
            | (Ok _, s1) =>
                let s2 := setLoanDocs (setDoc pathEqb (uid cu, loan_id newLoan) newLoan
                                         (loanDocs s1)) s1 in
                (Ok {| loan_success := true;
                       loan_message := "Congratulations! Your loan for "
                         ++ formatCurrency loanAmount ++ " has been approved.";
                       newLoan := Some newLoan |},
                 s2,
                 option_map (addLoan loanAmount newLoan))
            end
        end
  end.

Section Insights.

Variable LocalTZA : Z -> bool -> Z.
Variable generateContent : list Transaction -> Z -> Outcome (list (string * InsightsData)).

Definition clearShown (store : Store) (a : AppState) : AppState :=
  {| currentUser := currentUser a; clientTransactions := clientTransactions a;
     insightsData := None; isInsightsLoading := isInsightsLoading a; db := store;
     analysisRequests := analysisRequests a |}.

(** [refreshInsights]: the documents of [users/{uid}/insights] are deleted in
    one batch, then [loadOrGenerateInsights] runs. The first component is the
    toast shown, if any. *)
Definition refreshInsights (now stamp : Z) (a : AppState) : option string * AppState :=
  match (if isInsightsLoading a then None else currentUser a) with
  | None => (None, a)
  | Some cu =>
      let remaining :=
        filter (fun d => negb (String.eqb (fst (fst d)) (uid cu))) (insightDocs (db a)) in
      let a1 := clearShown (setInsightDocs remaining (db a)) a in
      let (_, a2) := loadOrGenerateInsights LocalTZA generateContent now stamp a1 in
      (Some "Insights are being refreshed.", a2)
  end.

End Insights.

End Accounts.

(* ------------------------------------------------------------------ *)
(** ** Credential ids ([App.tsx]: [base64url]) *)

Module Base64url.

(** A JavaScript string is the list of its characters here; a binary string
    holds one character per byte. *)
Definition alphabet : list ascii :=
  list_ascii_of_string "ABCDEFGHIJKLMNOPQRSTUVWXYZabcdefghijklmnopqrstuvwxyz0123456789+/".

Definition charOf (n : N) : ascii := nth (N.to_nat n) alphabet "="%char.

Fixpoint indexOf (c : ascii) (l : list ascii) (i : N) : option N :=
  match l with
  | [] => None
  | c' :: rest => if Ascii.eqb c' c then Some i else indexOf c rest (i + 1)%N
  end.

Definition sextetOf (c : ascii) : option N := indexOf c alphabet 0%N.

(** The 24 bits of three bytes. *)
Definition group (a b c : ascii) : N :=
  (N_of_ascii a * 65536 + N_of_ascii b * 256 + N_of_ascii c)%N.

(** The character of the [k]-th sextet of [n], counted from the right. *)
Definition sextet (k : N) (n : N) : ascii := charOf ((n / 64 ^ k) mod 64)%N.

(** [btoa] (HTML, "forgiving-base64 encode"; RFC 4648, section 4) on a
    binary string. *)
Fixpoint btoa (data : list ascii) : list ascii :=
  match data with
  | [] => []
  | [a] =>
      let n := group a zero zero in
      [sextet 3 n; sextet 2 n; "="%char; "="%char]
  | [a; b] =>
      let n := group a b zero in
      [sextet 3 n; sextet 2 n; sextet 1 n; "="%char]
  | a :: b :: c :: rest =>
      let n := group a b c in
      sextet 3 n :: sextet 2 n :: sextet 1 n :: sextet 0 n :: btoa rest
  end.

(** TAB, LF, FF, CR and SPACE. *)
Definition isAsciiWhitespace (c : ascii) : bool :=
  existsb (N.eqb (N_of_ascii c)) [9; 10; 12; 13; 32]%N.

(** On the reversed string: one or two trailing [=] are removed. *)
Definition dropEquals (r : list ascii) : list ascii :=
  match r with
  | c1 :: r1 =>
      if Ascii.eqb c1 "=" then
        match r1 with
        | c2 :: r2 => if Ascii.eqb c2 "=" then r2 else r1
        | [] => r1
        end
      else r
  | [] => r
  end.

Definition stripPadding (data : list ascii) : list ascii :=
  if (List.length data mod 4 =? 0)%nat then rev (dropEquals (rev data)) else data.

Fixpoint sextets (data : list ascii) : option (list N) :=
  match data with
  | [] => Some []
  | c :: rest =>
      match sextetOf c, sextets rest with
      | Some n, Some ns => Some (n :: ns)
      | _, _ => None
      end
  end.

(** The bytes of a run of sextets: three of every four; of three left over,
    the last two bits are dropped, of two left over, the last four. *)
Fixpoint bytesOf (l : list N) : list ascii :=
  match l with
  | s3 :: s2 :: s1 :: s0 :: rest =>
      let n := (((s3 * 64 + s2) * 64 + s1) * 64 + s0)%N in
      ascii_of_N (n / 65536) :: ascii_of_N ((n / 256) mod 256) :: ascii_of_N (n mod 256)
      :: bytesOf rest
  | [s3; s2; s1] =>
      let n := ((((s3 * 64 + s2) * 64 + s1)) / 4)%N in
      [ascii_of_N (n / 256); ascii_of_N (n mod 256)]
  | [s3; s2] =>
      let n := ((s3 * 64 + s2) / 16)%N in
      [ascii_of_N n]
  | _ => []
  end.

(** [atob] (HTML, "forgiving-base64 decode"): [None] is the
    [InvalidCharacterError] it throws. *)
Definition atob (data : list ascii) : option (list ascii) :=
  let data := filter (fun c => negb (isAsciiWhitespace c)) data in
  let data := stripPadding data in
  if (List.length data mod 4 =? 1)%nat then None
  else option_map bytesOf (sextets data).

(** [s.replace(/c/g, d)] for a single character [c]. *)
Definition replaceAll (c d : ascii) (s : list ascii) : list ascii :=
  map (fun x => if Ascii.eqb x c then d else x) s.

(** [s.replace(/c/g, '')] *)
Definition removeAll (c : ascii) (s : list ascii) : list ascii :=
  filter (fun x => negb (Ascii.eqb x c)) s.

(** [base64url.encode] *)
Definition encode (buffer : list Byte.byte) : string :=
  string_of_list_ascii
    (removeAll "="
       (replaceAll "/" "_"
          (replaceAll "+" "-" (btoa (map ascii_of_byte buffer))))).

(** [base64url.decode] *)
Definition decode (str : string) : Outcome (list Byte.byte) :=
  let str := replaceAll "_" "/" (replaceAll "-" "+" (list_ascii_of_string str)) in
  let pad := (List.length str mod 4)%nat in
  let padded :=
    if negb (Nat.eqb pad 0) then
      if Nat.eqb pad 1
      then Throw "InvalidLengthError: Input base64url string is the wrong length to determine padding"
      else Ok (str ++ repeat "="%char (4 - pad))%list
    else Ok str in
  match padded with
  | Throw e => Throw e
  | Ok str =>
      match atob str with
      | None => Throw "InvalidCharacterError"
      | Some binary_string => Ok (map byte_of_ascii binary_string)
      end
  end.

End Base64url.

(* ------------------------------------------------------------------ *)
(** ** Sessions ([App.tsx]: [loadUserAndData], [refreshUserData], [login],
       [registerUser], [updateUserKycStatus], [registerPasskey],
       [loginWithPasskey], [removePasskey]) *)

Module Session.
Import Firestore JsString App.

(** The store together with the sub-collections [users/{uid}/passkeys]: a
    passkey document is stored under the pair of the user id and the
    credential id, and holds [created]. *)
Record Backend : Type := {
  store : Store;
  passkeyDocs : list (string * string * Z)
}.

Definition setStore (s : Store) (b : Backend) : Backend :=
  {| store := s; passkeyDocs := passkeyDocs b |}.

Definition setPasskeyDocs (ds : list (string * string * Z)) (b : Backend) : Backend :=
  {| store := store b; passkeyDocs := ds |}.

(** [ref.delete()]: no document is left under the id. *)
Definition deleteDoc {K D : Type} (eqb : K -> K -> bool) (k : K) (docs : list (K * D))
  : list (K * D) :=
  filter (fun d => negb (eqb (fst d) k)) docs.

(** [collection(`users/${uid}/...`).get()]: the documents of a user's
    sub-collection. *)
Definition ofUser {D : Type} (userId : string) (docs : list (string * string * D))
  : list (string * string * D) :=
  filter (fun d => String.eqb (fst (fst d)) userId) docs.

Inductive ToastType : Type := toastSuccess | toastError.

Record Toast : Type := { toast_message : string; toast_type : ToastType }.

(** The calls made to Firebase Authentication. *)
Inductive AuthCall : Type :=
| SignOut
| SignInWithEmailAndPassword (email password : string)
| CreateUserWithEmailAndPassword (email password : string).

(** The React state of [App] the session functions read and write, the
    toasts shown so far and the calls made to Firebase Authentication so
    far, oldest first. *)
Record Client : Type := {
  currentUser : option User;
  transactions : list Transaction;
  passkeys : list Passkey;
  kycUserId : option string;
  isLoading : bool;
  isRefreshing : bool;
  toasts : list Toast;
  authCalls : list AuthCall
}.

Definition setCurrentUser (u : option User) (c : Client) : Client :=
  {| currentUser := u; transactions := transactions c; passkeys := passkeys c;
     kycUserId := kycUserId c; isLoading := isLoading c; isRefreshing := isRefreshing c;
     toasts := toasts c; authCalls := authCalls c |}.

Definition setTransactions (ts : list Transaction) (c : Client) : Client :=
  {| currentUser := currentUser c; transactions := ts; passkeys := passkeys c;
     kycUserId := kycUserId c; isLoading := isLoading c; isRefreshing := isRefreshing c;
     toasts := toasts c; authCalls := authCalls c |}.

Definition setPasskeys (ps : list Passkey) (c : Client) : Client :=
  {| currentUser := currentUser c; transactions := transactions c; passkeys := ps;
     kycUserId := kycUserId c; isLoading := isLoading c; isRefreshing := isRefreshing c;
     toasts := toasts c; authCalls := authCalls c |}.

Definition setKycUserId (k : option string) (c : Client) : Client :=
  {| currentUser := currentUser c; transactions := transactions c; passkeys := passkeys c;
     kycUserId := k; isLoading := isLoading c; isRefreshing := isRefreshing c;
     toasts := toasts c; authCalls := authCalls c |}.

Definition setIsLoading (v : bool) (c : Client) : Client :=
  {| currentUser := currentUser c; transactions := transactions c; passkeys := passkeys c;
     kycUserId := kycUserId c; isLoading := v; isRefreshing := isRefreshing c;
     toasts := toasts c; authCalls := authCalls c |}.

Definition setIsRefreshing (v : bool) (c : Client) : Client :=
  {| currentUser := currentUser c; transactions := transactions c; passkeys := passkeys c;
     kycUserId := kycUserId c; isLoading := isLoading c; isRefreshing := v;
     toasts := toasts c; authCalls := authCalls c |}.

(** [showToast(message, type)] *)
Definition showToast (m : string) (ty : ToastType) (c : Client) : Client :=
  {| currentUser := currentUser c; transactions := transactions c; passkeys := passkeys c;
     kycUserId := kycUserId c; isLoading := isLoading c; isRefreshing := isRefreshing c;
     toasts := (toasts c ++ [{| toast_message := m; toast_type := ty |}])%list;
     authCalls := authCalls c |}.

Definition callAuth (call : AuthCall) (c : Client) : Client :=
  {| currentUser := currentUser c; transactions := transactions c; passkeys := passkeys c;
     kycUserId := kycUserId c; isLoading := isLoading c; isRefreshing := isRefreshing c;
     toasts := toasts c; authCalls := (authCalls c ++ [call])%list |}.

(** The [username] field of a user document, for the functions that have a
    parameter of that name. *)
Definition usernameOf (d : UserData) : string := username d.

(** [orderBy("timestamp", "desc")]: newest first; documents with the same
    time stamp stay in the order of the collection. *)
Fixpoint insertDesc (t : Transaction) (sorted : list Transaction) : list Transaction :=
  match sorted with
  | [] => [t]
  | x :: rest =>
      if tx_timestamp x <=? tx_timestamp t then t :: sorted
      else x :: insertDesc t rest
  end.

Definition orderByTimestampDesc (l : list Transaction) : list Transaction :=
  fold_right insertDesc [] l.

(** [loadUserAndData] *)
Definition loadUserAndData (userId : string) (b : Backend) (c : Client) : Client :=
  match getUser userId (store b) with
  | Some userData =>
      let cardsQuery := ofUser userId (cardDocs (store b)) in
      let loansQuery := ofUser userId (loanDocs (store b)) in
      let passkeysQuery := ofUser userId (passkeyDocs b) in
      let transactionsQuery :=
        firstn 50
          (orderByTimestampDesc
             (filter (fun t => String.eqb (tx_uid t) userId)
                (Firestore.transactions (store b)))) in
      let cards := map snd cardsQuery in
      let loans := map snd loansQuery in
      let passkeys :=
        map (fun d => {| passkey_id := snd (fst d); created := snd d |}) passkeysQuery in
      let transactions := transactionsQuery in
      setTransactions transactions
        (setPasskeys passkeys
           (setCurrentUser
              (Some {| uid := userId; data := userData; cards := cards; loans := loans |}) c))
  | None => callAuth SignOut c
  end.

(** [refreshUserData] *)
Definition refreshUserData (b : Backend) (c : Client) : Client :=
  match currentUser c with
  | None => c
  | Some cu =>
      if isRefreshing c then c
      else
        let c1 := setIsRefreshing true c in
        let c2 := loadUserAndData (uid cu) b c1 in
        let c3 := showToast "Your data has been refreshed." toastSuccess c2 in
        setIsRefreshing false c3
  end.

(** [login]. [signIn] is the outcome of [auth.signInWithEmailAndPassword],
    should the call be made. *)
Definition login (signIn : Outcome unit) (username password : string)
  (b : Backend) (c : Client) : bool * Client :=
  let querySnapshot :=
    where_eq usernameOf (toLowerCase username) (users (store b)) in
  match querySnapshot with
  | [] => (false, c)
  | (docId, userDoc) :: _ =>
      if negb (kycVerified userDoc)
      then (false,
            setKycUserId (Some docId)
              (showToast "Please complete identity verification first." toastError c))
      else
        let email := email userDoc in
        let c1 := callAuth (SignInWithEmailAndPassword email password) c in
        match signIn with
        | Ok _ => (true, c1)
        | Throw _ => (false, c1)
        end
  end.

(** What [navigator.credentials.create] does: it resolves with a credential
    (given by the bytes of its [rawId]), resolves with nothing usable, or
    rejects with an error of the given name. *)
Inductive Creation : Type :=
| Created (rawId : list Byte.byte)
| NoCredential
| CreationRejected (errorName : string).

(** [registerPasskey]; [now] is the clock read for [created]. *)
Definition registerPasskey (isPasskeySupported : bool) (ceremony : Creation) (now : Z)
  (userParam : option User) (b : Backend) (c : Client) : bool * Backend * Client :=
  let userForPasskey :=
    match userParam with Some u => Some u | None => currentUser c end in
  match userForPasskey with
  | None => (false, b, c)
  | Some userForPasskey =>
      if negb isPasskeySupported then (false, b, c)
      else
        match ceremony with
        | Created rawId =>
            let newPasskeyId := Base64url.encode rawId in
            let b1 :=
              setPasskeyDocs
                (setDoc pathEqb (uid userForPasskey, newPasskeyId) now (passkeyDocs b)) b in
            let c1 :=
              match userParam with
              | None =>
                  setPasskeys
                    (passkeys c ++ [{| passkey_id := newPasskeyId; created := now |}])%list c
              | Some _ => c
              end in
            (true, b1, showToast "Passkey created successfully!" toastSuccess c1)
        | NoCredential => (false, b, c)
        | CreationRejected errorName =>
            if negb (String.eqb errorName "NotAllowedError")
            then (false, b, showToast "Failed to create passkey." toastError c)
            else (false, b, c)
        end
  end.

(** [registerUser]. [createUser] is the outcome of
    [auth.createUserWithEmailAndPassword], should the call be made: the uid
    of the account created, no user, or the error thrown; [accountNumber]
    and [newCard] are what [generateAccountNumber] and [generateMockCard]
    return. Amounts are in cents: the opening balance is 1000.00. *)
Definition registerUser (createUser : Outcome (option string)) (accountNumber : string)
  (newCard : Card) (isPasskeySupported : bool) (ceremony : Creation) (now : Z)
  (name username email phone password : string) (createPasskey : bool)
  (b : Backend) (c : Client) : option string * Backend * Client :=
  let usernameSnap :=
    where_eq usernameOf (toLowerCase username) (users (store b)) in
  match usernameSnap with
  | _ :: _ => (None, b, c)
  | [] =>
      let c1 := callAuth (CreateUserWithEmailAndPassword email password) c in
      let failed (m : string) :=
        (None, b, showToast ("Registration failed. " ++ m) toastError c1) in
      match createUser with
      | Throw m => failed m
      | Ok None => failed "User creation failed."
      | Ok (Some firebaseUid) =>
          let newUser :=
            Build_UserData name (toLowerCase username) 100000 accountNumber email phone
              false in
          let s1 := setUsers (setDoc String.eqb firebaseUid newUser (users (store b))) (store b) in
          let s2 :=
            setCardDocs (setDoc pathEqb (firebaseUid, cardNumber newCard) newCard (cardDocs s1))
              s1 in
          let b2 := setStore s2 b in
          let (b3, c2) :=
            if createPasskey
            then
              let fullNewUser :=
                {| uid := firebaseUid; data := newUser; cards := [newCard]; loans := [] |} in
              let '(_, b', c') :=
                registerPasskey isPasskeySupported ceremony now (Some fullNewUser) b2 c1 in
              (b', c')
            else (b2, c1) in
          (Some firebaseUid, b3, callAuth SignOut c2)
      end
  end.

Definition setKycVerified (v : bool) (d : UserData) : UserData :=
  {| name := name d; username := username d; balance := balance d;
     savingsAccountNumber := savingsAccountNumber d; email := email d; phone := phone d;
     kycVerified := v |}.

(** [updateUserKycStatus]: an [update] of the user document. *)
Definition updateUserKycStatus (userId : string) (isVerified : bool) (b : Backend)
  : Outcome unit * Backend :=
  match updateDoc String.eqb userId (setKycVerified isVerified) (users (store b)) with
  | Some us => (Ok tt, setStore (setUsers us (store b)) b)
  | None => (Throw "No document to update", b)
  end.

(** What [navigator.credentials.get] does without a list of credentials: it
    resolves with an assertion (the bytes of the credential's [rawId], and
    the user handle the authenticator kept for it, decoded as text, if it
    kept one), resolves with nothing, or rejects with an error of the given
    name. *)
Inductive Discovery : Type :=
| Discovered (rawId : list Byte.byte) (userHandle : option string)
| NothingDiscovered
| DiscoveryRejected (errorName : string).

(** [loginWithPasskey] *)
Definition loginWithPasskey (isPasskeySupported : bool) (ceremony : Discovery)
  (b : Backend) (c : Client) : bool * Client :=
  if negb isPasskeySupported then (false, c)
  else
    let c1 := setIsLoading true c in
    let notRecognized := (false, showToast "Passkey not recognized." toastError c1) in
    let (answer, c2) :=
      match ceremony with
      | Discovered rawId (Some username) =>
          let querySnapshot :=
            where_eq usernameOf (toLowerCase username)
              (users (store b)) in
          match querySnapshot with
          | [] => notRecognized
          | (userId, _) :: _ =>
              let credentialId := Base64url.encode rawId in
              match getDoc pathEqb (userId, credentialId) (passkeyDocs b) with
              | Some _ => (true, loadUserAndData userId b c1)
              | None => notRecognized
              end
          end
      | Discovered _ None => notRecognized
      | NothingDiscovered => notRecognized
      | DiscoveryRejected errorName =>
          if (negb (String.eqb errorName "NotAllowedError")
              && negb (String.eqb errorName "AbortError"))%bool
          then (false, showToast "Passkey login failed." toastError c1)
          else (false, c1)
      end in
    (answer, setIsLoading false c2).

(** [removePasskey] *)
Definition removePasskey (passkeyId : string) (b : Backend) (c : Client) : Backend * Client :=
  match currentUser c with
  | None => (b, c)
  | Some cu =>
      let b1 := setPasskeyDocs (deleteDoc pathEqb (uid cu, passkeyId) (passkeyDocs b)) b in
      let c1 :=
        setPasskeys (filter (fun p => negb (String.eqb (passkey_id p) passkeyId)) (passkeys c))
          c in
      (b1, showToast "Passkey removed." toastSuccess c1)
  end.

End Session.

(* ------------------------------------------------------------------ *)
(** ** Writes that fail after a commit ([App.tsx]) *)

Module Faults.
Import Firestore JsString JsDate App Accounts.

(** [transferMoney] with the two [transactionsRef.add] calls able to fail.
    [addDebit] and [addCredit] are the outcomes of the two calls, made in
    this order after the transaction has committed: [Ok] stores the record,
    [Throw] is the rejected promise, which the [catch] around the
    transaction answers with [success: false] and the error's message. The
    rest is [App.transferMoney]. *)
Definition transferMoney (others : Store -> Store) (now : Z)
  (addDebit addCredit : Outcome unit) (currentUser : option User)
  (recipientIdentifier : string) (amount : Z) (s : Store)
  : OpResult * Store * (option User -> option User) :=
  match currentUser with
  | None => (failure "Error: You are not logged in.", s, keepUser)
  | Some cu =>
      if amount <=? 0 then (failure "Error: Payment amount must be positive.", s, keepUser)
      else if balance (data cu) <? amount then (failure "Error: Insufficient funds.", s, keepUser)
      else
        match findRecipient recipientIdentifier s with
        | None =>
            (failure ("Error: Contact or account " ++ quote ++ recipientIdentifier
                      ++ quote ++ " not found."), s, keepUser)
        | Some recipient =>
            if String.eqb (fst recipient) (uid cu)
            then (failure "Error: Cannot send money to yourself.", s, keepUser)
            else
              match runTransaction (transferTxn (uid cu) recipient amount) (others s) with
              | (Throw m, s1) => (failure m, s1, keepUser)
              | (Ok _, s1) =>
                  let timestamp := now in
                  let (debitTx, creditTx) := transferRecords timestamp cu recipient amount in
                  match addDebit with
                  | Throw m => (failure m, s1, keepUser)
                  | Ok _ =>
                      let s2 := addTransaction debitTx s1 in
                      match addCredit with
                      | Throw m => (failure m, s2, keepUser)
                      | Ok _ =>
                          let s3 := addTransaction creditTx s2 in
                          ({| success := true;
                              message := "Success! You sent " ++ formatCurrency amount
                                         ++ " to " ++ name (snd recipient) ++ "." |},
                           s3,
                           option_map (withBalance (fun b => b - amount)))
                      end
                  end
              end
        end
  end.

(** [addLoanToUser] with the [set] of the loan document able to fail.
    [setLoanDoc] is the outcome of [loans.doc(id).set(newLoan)], awaited
    after the transaction has committed: [Ok] stores the document, [Throw] is
    the rejected promise, which nothing catches. The rest is
    [Accounts.addLoanToUser]. *)
Definition addLoanToUser (LocalTZA : Z -> bool -> Z) (random : Q) (payment : Z)
  (clock : Readings) (setLoanDoc : Outcome unit) (currentUser : option User)
  (details : LoanApplicationDetails) (s : Store)
  : Outcome LoanResult * Store * (option User -> option User) :=
  match currentUser with
  | None =>
      (Ok {| loan_success := false; loan_message := "Error: You are not logged in.";
             newLoan := None |}, s, keepUser)
  | Some cu =>
      if Qlt_bool random (3 # 10)
      then (Ok {| loan_success := false;
                  loan_message := "We're sorry, " ++ fullName details
                    ++ ", but we were unable to approve your loan application for "
                    ++ formatCurrency (requestedAmount details) ++ " at this time.";
                  newLoan := None |}, s, keepUser)
      else
        let loanAmount := requestedAmount details in
        match setMonth LocalTZA (atDue clock) (getMonth LocalTZA (atMonth clock) + 1) with
        | None => (Throw "Invalid time value", s, keepUser)
        | Some due =>
            let newLoan :=
              {| loan_id := "loan-" ++ uid cu ++ "-" ++ showInt (atId clock);
                 loan_uid := uid cu; loanAmount := loanAmount;
                 termMonths := loanTerm details; monthlyPayment := payment;
                 remainingBalance := loanAmount; status := Active;
                 loan_startDate := atStart clock; loan_paymentDueDate := due |} in
            match runTransaction (loanTxn (uid cu) loanAmount) s with
            | (Throw m, s1) => (Throw m, s1, keepUser)
            | (Ok _, s1) =>
                match setLoanDoc with
                | Throw m => (Throw m, s1, keepUser)
                | Ok _ =>
                    let s2 := setLoanDocs (setDoc pathEqb (uid cu, loan_id newLoan) newLoan
                                             (loanDocs s1)) s1 in
                    (Ok {| loan_success := true;
                           loan_message := "Congratulations! Your loan for "
                             ++ formatCurrency loanAmount ++ " has been approved.";
                           newLoan := Some newLoan |},
                     s2,
                     option_map (addLoan loanAmount newLoan))
                end
            end
        end
  end.

End Faults.
(* ------------------------------------------------------------------ *)
(** ** Properties of the store *)

Module FirestoreFacts.
Import Firestore.

Section Collection.
Context {K D : Type} (eqb : K -> K -> bool).
Hypothesis eqb_eq : forall a b, eqb a b = true <-> a = b.

Lemma eqb_refl_true : forall a, eqb a a = true.
Proof. intro a. apply eqb_eq. reflexivity. Qed.

Lemma eqb_neq_false : forall a b, a <> b -> eqb a b = false.
Proof.
  intros a b Hne. destruct (eqb a b) eqn:E; [|reflexivity].
  apply eqb_eq in E. contradiction.
Qed.

Lemma updateDoc_same :
  forall (k : K) (f : D -> D) docs docs',
    updateDoc eqb k f docs = Some docs' ->
    exists d, getDoc eqb k docs = Some d /\ getDoc eqb k docs' = Some (f d).
Proof.
  intros k f docs. induction docs as [|[k0 d0] rest IH]; intros docs' H; simpl in *.
  - discriminate.
  - destruct (eqb k0 k) eqn:E.
    + injection H as <-. exists d0. simpl. rewrite E. auto.
    + destruct (updateDoc eqb k f rest) as [rest'|] eqn:U; [|discriminate].
      injection H as <-. destruct (IH rest' eq_refl) as [d [G1 G2]].
      exists d. simpl. rewrite E. auto.
Qed.

Lemma updateDoc_other :
  forall (k k' : K) (f : D -> D) docs docs',
    updateDoc eqb k f docs = Some docs' -> k' <> k ->
    getDoc eqb k' docs' = getDoc eqb k' docs.
Proof.
  intros k k' f docs. induction docs as [|[k0 d0] rest IH]; intros docs' H Hne; simpl in *.
  - discriminate.
  - destruct (eqb k0 k) eqn:E.
    + injection H as <-. simpl. apply eqb_eq in E. subst k0.
      rewrite (eqb_neq_false k k') by congruence. reflexivity.
    + destruct (updateDoc eqb k f rest) as [rest'|] eqn:U; [|discriminate].
      injection H as <-. simpl. destruct (eqb k0 k'); [reflexivity|].
      apply IH; auto.
Qed.

Lemma updateDoc_defined :
  forall (k : K) (f : D -> D) docs d,
    getDoc eqb k docs = Some d -> exists docs', updateDoc eqb k f docs = Some docs'.
Proof.
  intros k f docs. induction docs as [|[k0 d0] rest IH]; intros d H; simpl in *.
  - discriminate.
  - destruct (eqb k0 k).
    + eauto.
    + destruct (IH d H) as [rest' ->]. simpl. eauto.
Qed.

Lemma getDoc_In :
  forall (k : K) (d : D) docs,
    NoDup (map fst docs) -> In (k, d) docs -> getDoc eqb k docs = Some d.
Proof.
  intros k d docs. induction docs as [|[k0 d0] rest IH]; intros Hnd Hin; simpl in *.
  - contradiction.
  - inversion Hnd as [|? ? Hnotin Hnd']; subst.
    destruct Hin as [Heq|Hin].
    + injection Heq as -> ->. rewrite eqb_refl_true. reflexivity.
    + destruct (eqb k0 k) eqn:E.
      * apply eqb_eq in E. subst k0. exfalso. apply Hnotin.
        change k with (fst (k, d)). apply in_map. exact Hin.
      * apply IH; assumption.
Qed.

End Collection.

Lemma pathEqb_eq : forall p q, pathEqb p q = true <-> p = q.
Proof.
  intros [a b] [c d]. unfold pathEqb. simpl. rewrite andb_true_iff, !String.eqb_eq.
  split; [intros [-> ->]; reflexivity | intros H; injection H; auto].
Qed.


Lemma hd_error_In : forall (X : Type) (l : list X) x, hd_error l = Some x -> In x l.
Proof. intros X [|y l] x H; [discriminate|]. injection H as ->. left. reflexivity. Qed.

Lemma balance_setBalance : forall b d, balance (setBalance b d) = b.
Proof. reflexivity. Qed.

End FirestoreFacts.

(* ------------------------------------------------------------------ *)
(** ** Properties of transferMoney *)

Module TransferFacts.
Import Firestore FirestoreFacts App.

Lemma findRecipient_In :
  forall rid s r, findRecipient rid s = Some r -> In r (users s).
Proof.
  intros rid s r H. unfold findRecipient in H. simpl in H.
  apply hd_error_In in H. unfold where_eq in H.
  repeat (apply in_app_or in H; destruct H as [H|H]);
    try (apply filter_In in H; tauto).
  contradiction.
Qed.

Lemma findRecipient_getUser :
  forall rid s rcpId rcp,
    wellFormed s -> findRecipient rid s = Some (rcpId, rcp) -> getUser rcpId s = Some rcp.
Proof.
  intros rid s rcpId rcp Hwf H. unfold getUser.
  apply (getDoc_In String.eqb String.eqb_eq); [exact Hwf|].
  eapply findRecipient_In; eauto.
Qed.

(** The two balance writes of a transfer, committed on a store. *)
Lemma transfer_writes_commit :
  forall senderId rcpId b1 b2 s s',
    rcpId <> senderId ->
    commit [UpdateUserBalance senderId b1; UpdateUserBalance rcpId b2] s = Some s' ->
    option_map balance (getUser senderId s') = Some b1 /\
    option_map balance (getUser rcpId s') = Some b2 /\
    (forall u, u <> senderId -> u <> rcpId -> getUser u s' = getUser u s) /\
    transactions s' = transactions s.
Proof.
  intros senderId rcpId b1 b2 s s' Hne H. simpl in H.
  destruct (updateDoc String.eqb senderId (setBalance b1) (users s)) as [us1|] eqn:U1;
    simpl in H; [|discriminate].
  destruct (updateDoc String.eqb rcpId (setBalance b2) us1) as [us2|] eqn:U2;
    simpl in H; [|discriminate].
  injection H as <-. unfold getUser. simpl.
  destruct (updateDoc_same _ _ _ _ _ U1) as [d1 [_ G1]].
  destruct (updateDoc_same _ _ _ _ _ U2) as [d2 [_ G2]].
  repeat split.
  - rewrite (updateDoc_other _ String.eqb_eq _ _ _ _ _ U2) by congruence.
    rewrite G1. reflexivity.
  - rewrite G2. reflexivity.
  - intros u H1 H2.
    rewrite (updateDoc_other _ String.eqb_eq _ _ _ _ _ U2) by assumption.
    apply (updateDoc_other _ String.eqb_eq _ _ _ _ _ U1). assumption.
Qed.

(** C2. A successful transfer that runs alone takes [amount] off the
    sender's stored balance, adds [amount] to the recipient's, leaves every
    other user document as it was, and appends exactly two transaction
    records: a debit of the sender and a credit of the recipient, with the
    same amount and the same time stamp. *)
Theorem transfer_conserves_balances :
  forall now currentUser rid amount s r s' upd,
    wellFormed s ->
    transferMoney (fun x => x) now currentUser rid amount s = (r, s', upd) ->
    success r = true ->
    exists cu sender rcpId rcp debitTx creditTx,
      currentUser = Some cu /\
      getUser (uid cu) s = Some sender /\
      findRecipient rid s = Some (rcpId, rcp) /\
      getUser rcpId s = Some rcp /\
      rcpId <> uid cu /\
      option_map balance (getUser (uid cu) s') = Some (balance sender - amount) /\
      option_map balance (getUser rcpId s') = Some (balance rcp + amount) /\
      (forall u, u <> uid cu -> u <> rcpId -> getUser u s' = getUser u s) /\
      transactions s' = (transactions s ++ [debitTx; creditTx])%list /\
      tx_type debitTx = debit /\ tx_uid debitTx = uid cu /\ tx_amount debitTx = amount /\
      tx_type creditTx = credit /\ tx_uid creditTx = rcpId /\ tx_amount creditTx = amount /\
      tx_timestamp debitTx = tx_timestamp creditTx.
Proof.
  intros now currentUser rid amount s r s' upd Hwf H Hok.
  unfold transferMoney in H.
  destruct currentUser as [cu|]; [|injection H as <- _ _; discriminate].
  destruct (amount <=? 0); [injection H as <- _ _; discriminate|].
  destruct (balance (data cu) <? amount); [injection H as <- _ _; discriminate|].
  destruct (findRecipient rid s) as [[rcpId rcp]|] eqn:Hfind;
    [|injection H as <- _ _; discriminate].
  simpl fst in H. simpl snd in H.
  destruct (String.eqb rcpId (uid cu)) eqn:Hself; [injection H as <- _ _; discriminate|].
  apply String.eqb_neq in Hself.
  unfold runTransaction, transferTxn in H. simpl fst in H. simpl snd in H.
  destruct (getUser (uid cu) s) as [sender|] eqn:Hsender;
    [|simpl in H; injection H as <- _ _; discriminate].
  destruct (balance sender <? amount) eqn:Hfunds;
    [simpl in H; injection H as <- _ _; discriminate|].
  cbv beta iota in H. cbn [orb] in H.
  match type of H with
  | context [commit ?ws s] => destruct (commit ws s) as [s1|] eqn:Hcommit
  end; [|injection H as <- _ _; discriminate].
  injection H as _ <- _.
  destruct (transfer_writes_commit _ _ _ _ _ _ Hself Hcommit) as [B1 [B2 [B3 B4]]].
  exists cu, sender, rcpId, rcp,
    (fst (transferRecords now cu (rcpId, rcp) amount)),
    (snd (transferRecords now cu (rcpId, rcp) amount)).
  repeat match goal with |- _ /\ _ => split end;
    try reflexivity; try assumption.
  - eapply findRecipient_getUser; eauto.
  - unfold addTransaction. simpl. rewrite B4. rewrite <- app_assoc. reflexivity.
Qed.

(** A store with two customers, used to run the operations on. *)
Definition customer (n u acct : string) (b : Z) : UserData :=
  {| name := n; username := u; balance := b; savingsAccountNumber := acct;
     email := u ++ "@nova.test"; phone := "555-" ++ acct; kycVerified := true |}.

Definition demoStore : Store :=
  {| users := [("u1", customer "Alice" "alice" "1111" 100000);
               ("u2", customer "Bob" "bob" "2222" 5000)];
     cardDocs := []; loanDocs := []; insightDocs := []; transactions := [] |}.

Definition alice : User :=
  {| uid := "u1"; data := customer "Alice" "alice" "1111" 100000; cards := []; loans := [] |}.

Lemma demoStore_wellFormed : wellFormed demoStore.
Proof.
  unfold wellFormed. simpl. repeat constructor; simpl; intuition discriminate.
Qed.

(** Alice (1000.00) sends 200.00 to Bob (50.00) by account number. *)
Lemma transfer_conserves_balances_witness :
  wellFormed demoStore /\
  exists r s' upd,
    transferMoney (fun x => x) 77 (Some alice) "2222" 20000 demoStore = (r, s', upd) /\
    success r = true /\
    option_map balance (getUser "u1" s') = Some 80000 /\
    option_map balance (getUser "u2" s') = Some 25000 /\
    List.length (transactions s') = 2%nat.
Proof.
  split; [exact demoStore_wellFormed|].
  destruct (transferMoney (fun x => x) 77 (Some alice) "2222" 20000 demoStore)
    as [[r s'] upd] eqn:E.
  assert (Hok : success r = true) by (vm_compute in E; injection E as <- _ _; reflexivity).
  exists r, s', upd. split; [reflexivity|]. split; [exact Hok|].
  destruct (transfer_conserves_balances 77 (Some alice) "2222" 20000 demoStore r s' upd
              demoStore_wellFormed E Hok)
    as (cu & sender & rcpId & rcp & dtx & ctx & Hcu & Hs & Hf & _ & _ & B1 & B2 & _ & T & _).
  injection Hcu as <-.
  vm_compute in Hs. injection Hs as <-.
  vm_compute in Hf. injection Hf as <- <-.
  repeat split.
  - exact B1.
  - exact B2.
  - rewrite T. reflexivity.
Defined.





(** The writes of the transaction callback: the sender's new balance comes
    from the document read through the transaction, the recipient's from the
    object built before the transaction started. *)
Lemma transferTxn_writes :
  forall senderId recipient amount s ws,
    transferTxn senderId recipient amount s = Ok (tt, ws) ->
    exists sender,
      getUser senderId s = Some sender /\
      ws = [UpdateUserBalance senderId (balance sender - amount);
            UpdateUserBalance (fst recipient) (balance (snd recipient) + amount)].
Proof.
  intros senderId recipient amount s ws H. unfold transferTxn in H.
  destruct (getUser senderId s) as [sender|]; [|discriminate].
  destruct (balance sender <? amount); [discriminate|].
  injection H as <-. exists sender. split; reflexivity.
Qed.

(** Another session credits [amt] to a user. *)
Definition creditedElsewhere (userId : string) (amt : Z) (s : Store) : Store :=
  match getUser userId s with
  | Some d =>
      match commit [UpdateUserBalance userId (balance d + amt)] s with
      | Some s' => s'
      | None => s
      end
  | None => s
  end.

(** C4 fails on the code. Alice sends 200.00 to Bob; between the lookup of
    Bob and the transaction another session credits Bob 20.00. The
    transaction finds Bob's balance at 70.00 and the transfer succeeds, yet
    Bob's balance is written as 250.00 (50.00 + 200.00, from the copy read
    before the transaction), not 270.00: the concurrent credit is lost. *)
Lemma transfer_writes_recipient_from_stale_copy :
  let others := creditedElsewhere "u2" 2000 in
  option_map balance (getUser "u2" (others demoStore)) = Some 7000 /\
  exists r s' upd,
    transferMoney others 77 (Some alice) "2222" 20000 demoStore = (r, s', upd) /\
    success r = true /\
    option_map balance (getUser "u2" s') = Some 25000 /\
    option_map balance (getUser "u1" s') = Some 80000.
Proof.
  split; [reflexivity|].
  eexists. eexists. eexists. split; [vm_compute; reflexivity|].
  repeat split.
Qed.

End TransferFacts.

(* ------------------------------------------------------------------ *)
(** ** Properties of makeAccountPayment *)

Module PaymentFacts.
Import Firestore FirestoreFacts App.

Lemma makeAccountPayment_success :
  forall currentUser accountId accountType paymentType customAmount s r s',
    makeAccountPayment currentUser accountId accountType paymentType customAmount s = (r, s') ->
    success r = true ->
    exists cu msg ws,
      currentUser = Some cu /\
      paymentTxn cu accountId accountType paymentType customAmount s = Ok (msg, ws) /\
      commit ws s = Some s'.
Proof.
  intros currentUser accountId accountType paymentType customAmount s r s' H Hok.
  unfold makeAccountPayment in H.
  destruct currentUser as [cu|]; [|injection H as <- _; discriminate].
  unfold runTransaction in H.
  destruct (paymentTxn cu accountId accountType paymentType customAmount s)
    as [[msg ws]|e] eqn:Hbody; [|injection H as <- _; discriminate].
  destruct (commit ws s) as [s1|] eqn:Hcommit; [|injection H as <- _; discriminate].
  injection H as _ <-. exists cu, msg, ws. auto.
Qed.

(** The two writes of a card payment, committed on a store. *)
Lemma card_writes_commit :
  forall u c b cb sb s s',
    commit [UpdateUserBalance u b; UpdateCardBalances u c cb sb] s = Some s' ->
    option_map balance (getUser u s') = Some b /\
    exists before,
      getCard u c s = Some before /\
      getCard u c s' = Some (setCardBalances cb sb before).
Proof.
  intros u c b cb sb s s' H. simpl in H.
  destruct (updateDoc String.eqb u (setBalance b) (users s)) as [us1|] eqn:U1;
    simpl in H; [|discriminate].
  destruct (updateDoc pathEqb (u, c) (setCardBalances cb sb) (cardDocs s)) as [cs1|] eqn:U2;
    simpl in H; [|discriminate].
  injection H as <-. unfold getUser, getCard. simpl.
  destruct (updateDoc_same _ _ _ _ _ U1) as [d1 [_ G1]].
  destruct (updateDoc_same _ _ _ _ _ U2) as [c1 [G2 G3]].
  split; [rewrite G1; reflexivity|]. exists c1. auto.
Qed.

(** The writes of a loan payment, committed on a store. *)
Lemma loan_writes_commit :
  forall u l b rb (paidOff : bool) s s',
    commit ([UpdateUserBalance u b; UpdateLoanRemaining u l rb]
            ++ (if paidOff then [UpdateLoanStatus u l PaidOff] else []))%list s = Some s' ->
    option_map balance (getUser u s') = Some b /\
    exists before,
      getLoan u l s = Some before /\
      getLoan u l s' =
        Some (setLoan rb (if paidOff then PaidOff else status before)
                (loan_paymentDueDate before) before).
Proof.
  intros u l b rb paidOff s s' H. simpl in H.
  destruct (updateDoc String.eqb u (setBalance b) (users s)) as [us1|] eqn:U1;
    simpl in H; [|discriminate].
  match type of H with
  | context [updateDoc pathEqb (u, l) ?f (loanDocs s)] =>
      destruct (updateDoc pathEqb (u, l) f (loanDocs s)) as [ls1|] eqn:U2
  end; simpl in H; [|discriminate].
  destruct (updateDoc_same _ _ _ _ _ U1) as [d1 [_ G1]].
  destruct (updateDoc_same _ _ _ _ _ U2) as [l1 [G2 G3]].
  destruct paidOff; simpl in H.
  - match type of H with
    | context [updateDoc pathEqb (u, l) ?f ls1] =>
        destruct (updateDoc pathEqb (u, l) f ls1) as [ls2|] eqn:U3
    end; simpl in H; [|discriminate].
    injection H as <-. unfold getUser, getLoan. simpl.
    destruct (updateDoc_same _ _ _ _ _ U3) as [l2 [G4 G5]].
    split; [rewrite G1; reflexivity|]. exists l1. split; [exact G2|].
    rewrite G5. rewrite G3 in G4. injection G4 as <-. reflexivity.
  - injection H as <-. unfold getUser, getLoan. simpl.
    split; [rewrite G1; reflexivity|]. exists l1. split; [exact G2|].
    rewrite G3. reflexivity.
Qed.

(** What a payment type asks for on a loan, before the clamp. *)
Definition loanRequested (loan : Loan) (paymentType : PaymentType)
  (customAmount : option Z) : Z :=
  match paymentType with
  | minimum => monthlyPayment loan
  | full => remainingBalance loan
  | custom => orZero customAmount
  | statement => monthlyPayment loan
  end.

(** The effect of a successful loan payment, measured on the loan as
    [currentUser] holds it: the amount paid is the requested amount clamped
    down to the held remaining balance; it is taken off the cash balance read
    in the transaction; the remaining balance stored is the held one less the
    amount paid, which is not negative; and when that is 0 the status Paid
    Off is stored through a write of the same transaction commit as the
    balance writes. *)
Lemma loan_payment_effect :
  forall currentUser accountId paymentType customAmount s r s',
    makeAccountPayment currentUser accountId loanAccount paymentType customAmount s = (r, s') ->
    success r = true ->
    exists cu loan userData paid msg ws stored,
      currentUser = Some cu /\
      findLoan accountId cu = Some loan /\
      getUser (uid cu) s = Some userData /\
      paid = Z.min (loanRequested loan paymentType customAmount) (remainingBalance loan) /\
      (paymentType = custom -> remainingBalance loan < orZero customAmount ->
       paid = remainingBalance loan) /\
      paymentTxn cu accountId loanAccount paymentType customAmount s = Ok (msg, ws) /\
      commit ws s = Some s' /\
      In (UpdateLoanRemaining (uid cu) (loan_id loan) (remainingBalance loan - paid)) ws /\
      option_map balance (getUser (uid cu) s') = Some (balance userData - paid) /\
      getLoan (uid cu) (loan_id loan) s' = Some stored /\
      remainingBalance stored = remainingBalance loan - paid /\
      0 <= remainingBalance stored /\
      (remainingBalance stored = 0 ->
       status stored = PaidOff /\
       In (UpdateLoanStatus (uid cu) (loan_id loan) PaidOff) ws).
Proof.
  intros currentUser accountId paymentType customAmount s r s' H Hok.
  destruct (makeAccountPayment_success _ _ _ _ _ _ _ _ H Hok)
    as (cu & msg & ws & Hcu & Hbody & Hcommit).
  pose proof Hbody as Hbody0.
  unfold paymentTxn in Hbody.
  destruct (getUser (uid cu) s) as [userData|] eqn:Huser; [|discriminate].
  destruct (findLoan accountId cu) as [loan|] eqn:Hloan; [|discriminate].
  fold (loanRequested loan paymentType customAmount) in Hbody.
  set (req := loanRequested loan paymentType customAmount) in *.
  destruct (req <=? 0) eqn:Hpos; [discriminate|].
  apply Z.leb_gt in Hpos.
  set (paid := if remainingBalance loan <? req then remainingBalance loan else req) in *.
  assert (Hpaid : paid = Z.min req (remainingBalance loan)).
  { unfold paid. destruct (remainingBalance loan <? req) eqn:C.
    - apply Z.ltb_lt in C. lia.
    - apply Z.ltb_ge in C. lia. }
  destruct (balance userData <? paid) eqn:Hfunds; [discriminate|].
  cbv zeta in Hbody.
  assert (Hws : ws = ([UpdateUserBalance (uid cu) (balance userData - paid);
                        UpdateLoanRemaining (uid cu) (loan_id loan)
                          (remainingBalance loan - paid)]
                      ++ (if remainingBalance loan - paid <=? 0
                          then [UpdateLoanStatus (uid cu) (loan_id loan) PaidOff]
                          else []))%list).
  { destruct (remainingBalance loan - paid <=? 0); injection Hbody as _ <-;
      [reflexivity | rewrite app_nil_r; reflexivity]. }
  rewrite Hws in Hcommit.
  destruct (loan_writes_commit _ _ _ _ _ _ _ Hcommit) as [B [before [G1 G2]]].
  exists cu, loan, userData, paid, msg, ws.
  eexists. repeat match goal with |- _ /\ _ => split end;
    try eassumption; try reflexivity.
  - intros -> Hgt. rewrite Hpaid. unfold req, loanRequested. lia.
  - rewrite <- Hws in Hcommit. exact Hcommit.
  - rewrite Hws. simpl. auto.
  - simpl. lia.
  - simpl. intros Hzero. rewrite Hws.
    assert (E : (remainingBalance loan - paid <=? 0) = true) by (apply Z.leb_le; lia).
    rewrite E. split; [reflexivity|]. simpl. auto.
Qed.

(** What a payment type asks for on a card. *)
Definition cardRequested (card : Card) (paymentType : PaymentType)
  (customAmount : option Z) : Z :=
  match paymentType with
  | minimum => minimumPayment card
  | statement => statementBalance card
  | full => creditBalance card
  | custom => orZero customAmount
  end.

(** The effect of a successful card payment on the store. *)
Lemma card_payment_effect :
  forall currentUser accountId paymentType customAmount s r s',
    makeAccountPayment currentUser accountId cardAccount paymentType customAmount s = (r, s') ->
    success r = true ->
    exists cu card userData before,
      currentUser = Some cu /\
      findCard accountId cu = Some card /\
      getUser (uid cu) s = Some userData /\
      0 < cardRequested card paymentType customAmount <= balance userData /\
      option_map balance (getUser (uid cu) s') =
        Some (balance userData - cardRequested card paymentType customAmount) /\
      getCard (uid cu) (cardNumber card) s = Some before /\
      getCard (uid cu) (cardNumber card) s' =
        Some (setCardBalances
                (Z.max 0 (creditBalance card - cardRequested card paymentType customAmount))
                (Z.max 0 (statementBalance card - cardRequested card paymentType customAmount))
                before).
Proof.
  intros currentUser accountId paymentType customAmount s r s' H Hok.
  destruct (makeAccountPayment_success _ _ _ _ _ _ _ _ H Hok)
    as (cu & msg & ws & Hcu & Hbody & Hcommit).
  unfold paymentTxn in Hbody.
  destruct (getUser (uid cu) s) as [userData|] eqn:Huser; [|discriminate].
  destruct (findCard accountId cu) as [card|] eqn:Hcard; [|discriminate].
  fold (cardRequested card paymentType customAmount) in Hbody.
  set (req := cardRequested card paymentType customAmount) in *.
  destruct (req <=? 0) eqn:Hpos; [discriminate|].
  destruct (balance userData <? req) eqn:Hfunds; [discriminate|].
  apply Z.leb_gt in Hpos. apply Z.ltb_ge in Hfunds.
  injection Hbody as _ <-.
  destruct (card_writes_commit _ _ _ _ _ _ _ Hcommit) as [B [before [G1 G2]]].
  exists cu, card, userData, before. repeat split; auto.
Qed.

(** C6. After a successful card payment of any type and amount the stored
    credit balance and statement balance are not negative; after a
    successful "full" payment the stored credit balance is exactly 0, and so
    is the stored statement balance of a card whose statement balance did
    not exceed its credit balance (the invariant of the data model). *)
Theorem card_payment_floors_at_zero :
  forall currentUser accountId paymentType customAmount s r s',
    makeAccountPayment currentUser accountId cardAccount paymentType customAmount s = (r, s') ->
    success r = true ->
    exists cu card stored,
      currentUser = Some cu /\
      findCard accountId cu = Some card /\
      getCard (uid cu) (cardNumber card) s' = Some stored /\
      0 <= creditBalance stored /\
      0 <= statementBalance stored /\
      (paymentType = full ->
       creditBalance stored = 0 /\
       (statementBalance card <= creditBalance card -> statementBalance stored = 0)).
Proof.
  intros currentUser accountId paymentType customAmount s r s' H Hok.
  destruct (card_payment_effect _ _ _ _ _ _ _ H Hok)
    as (cu & card & userData & before & Hcu & Hcard & Huser & Hreq & Hbal & G1 & G2).
  exists cu, card. eexists. repeat split; try eassumption; simpl; try lia.
  - subst paymentType. simpl. lia.
  - subst paymentType. simpl. lia.
Qed.

(** A successful custom card payment above the credit balance of the card
    as [currentUser] holds it takes the whole custom amount off the cash
    balance, while the stored credit balance is 0 (and the stored statement
    balance too, for a card held within the invariant of the data model):
    the cash debited is strictly more than the held debt, without clamp or
    refund. *)
Lemma card_overpayment_on_held_copy :
  forall currentUser accountId amount s r s',
    makeAccountPayment currentUser accountId cardAccount custom (Some amount) s = (r, s') ->
    success r = true ->
    exists cu card userData stored,
      currentUser = Some cu /\
      findCard accountId cu = Some card /\
      getUser (uid cu) s = Some userData /\
      getCard (uid cu) (cardNumber card) s' = Some stored /\
      (creditBalance card < amount ->
       option_map balance (getUser (uid cu) s') = Some (balance userData - amount) /\
       creditBalance stored = 0 /\
       (statementBalance card <= creditBalance card -> statementBalance stored = 0) /\
       creditBalance card - creditBalance stored < amount).
Proof.
  intros currentUser accountId amount s r s' H Hok.
  destruct (card_payment_effect _ _ _ _ _ _ _ H Hok)
    as (cu & card & userData & before & Hcu & Hcard & Huser & Hreq & Hbal & G1 & G2).
  simpl in Hreq, Hbal, G2.
  exists cu, card, userData. eexists. repeat split; try eassumption; simpl; lia.
Qed.

(** C5 fails on the code. The callback of the transaction clamps a custom
    loan payment against [remainingBalance] of the loan held in
    [currentUser], an object [makeAccountPayment] never refreshes, not
    against the remaining balance of the loan's document. Where the document
    owes less than the held copy says (after an earlier payment of the
    session), a custom amount of at least the held balance succeeds, takes
    the whole held balance off the cash balance, which is more than the loan
    owes, and stores the loan at 0 and Paid Off. *)
Theorem loan_payment_clamped_against_stale_copy :
  forall cu accountId amount s r s' held before,
    makeAccountPayment (Some cu) accountId loanAccount custom (Some amount) s = (r, s') ->
    success r = true ->
    findLoan accountId cu = Some held ->
    getLoan (uid cu) (loan_id held) s = Some before ->
    remainingBalance before < remainingBalance held ->
    remainingBalance held <= amount ->
    exists userData paid stored,
      getUser (uid cu) s = Some userData /\
      paid = remainingBalance held /\
      remainingBalance before < paid /\
      option_map balance (getUser (uid cu) s') = Some (balance userData - paid) /\
      getLoan (uid cu) (loan_id held) s' = Some stored /\
      remainingBalance stored = 0 /\
      status stored = PaidOff.
Proof.
  intros cu accountId amount s r s' held before H Hok Hheld Hbefore Hstale Hamount.
  destruct (loan_payment_effect _ _ _ _ _ _ _ H Hok)
    as (cu' & loan & userData & paid & msg & ws & stored & Hcu & Hl & Hu & Hp & _ & _ & _
        & _ & B & G & R & _ & P).
  injection Hcu as <-. rewrite Hheld in Hl. injection Hl as <-.
  assert (Hpaid : paid = remainingBalance held) by (subst paid; simpl; lia).
  exists userData, paid, stored.
  split; [exact Hu|]. split; [exact Hpaid|]. split; [lia|]. split; [exact B|].
  split; [exact G|].
  assert (R0 : remainingBalance stored = 0) by lia.
  split; [exact R0|]. exact (proj1 (P R0)).
Qed.

(** C10 fails on the code. The new credit balance of a card payment is
    computed from [creditBalance] of the card held in [currentUser], not from
    the card's document. Where the document owes less than the held copy
    says, a custom amount above the card's stored credit balance and below
    the held one succeeds and takes the whole amount off the cash balance,
    and the stored credit balance is not 0: it is the held balance less the
    amount. *)
Theorem card_overpayment_measured_on_stale_copy :
  forall cu accountId amount s r s' held before,
    makeAccountPayment (Some cu) accountId cardAccount custom (Some amount) s = (r, s') ->
    success r = true ->
    findCard accountId cu = Some held ->
    getCard (uid cu) (cardNumber held) s = Some before ->
    creditBalance before < amount ->
    amount < creditBalance held ->
    exists userData stored,
      getUser (uid cu) s = Some userData /\
      option_map balance (getUser (uid cu) s') = Some (balance userData - amount) /\
      getCard (uid cu) (cardNumber held) s' = Some stored /\
      creditBalance stored = creditBalance held - amount /\
      0 < creditBalance stored /\
      statementBalance stored = Z.max 0 (statementBalance held - amount).
Proof.
  intros cu accountId amount s r s' held before H Hok Hheld Hbefore Hover Hbelow.
  destruct (card_payment_effect _ _ _ _ _ _ _ H Hok)
    as (cu' & card & userData & before' & Hcu & Hcard & Huser & Hreq & Hbal & G1 & G2).
  injection Hcu as <-. rewrite Hheld in Hcard. injection Hcard as <-.
  simpl in Hreq, Hbal, G2.
  exists userData. eexists.
  split; [exact Huser|]. split; [exact Hbal|]. split; [exact G2|].
  simpl. repeat split; lia.
Qed.

(** Payments keep the invariant: the balances written for a card whose
    statement balance does not exceed its credit balance are again in that
    order. *)
Lemma card_payment_keeps_statement_below_credit :
  forall card paid,
    statementBalance card <= creditBalance card ->
    Z.max 0 (statementBalance card - paid) <= Z.max 0 (creditBalance card - paid).
Proof. intros card paid H. lia. Qed.

(** A customer with one card (owing 500.00, statement 450.00) and one loan
    (100.00 remaining). *)
Definition demoCard : Card :=
  {| cardNumber := "4000123412341234"; cardType := Visa; creditLimit := 500000;
     creditBalance := 50000; card_paymentDueDate := 1737799200000;
     statementBalance := 45000; minimumPayment := 2500; card_transactions := [] |}.

Definition demoLoan : Loan :=
  {| loan_id := "loan-u1-1"; loan_uid := "u1"; loanAmount := 500000; termMonths := 24;
     monthlyPayment := 22000; remainingBalance := 10000; status := Active;
     loan_startDate := 1700000000000; loan_paymentDueDate := 1738368000000 |}.

Definition carol : User :=
  {| uid := "u1"; data := TransferFacts.customer "Carol" "carol" "1111" 100000;
     cards := [demoCard]; loans := [demoLoan] |}.

Definition carolStore : Store :=
  {| users := [("u1", TransferFacts.customer "Carol" "carol" "1111" 100000)];
     cardDocs := [(("u1", "4000123412341234"), demoCard)];
     loanDocs := [(("u1", "loan-u1-1"), demoLoan)];
     insightDocs := []; transactions := [] |}.

(** A full payment of the card: both balances end at 0. *)
Lemma card_payment_floors_at_zero_witness :
  exists r s',
    makeAccountPayment (Some carol) "1234" cardAccount full None carolStore = (r, s') /\
    success r = true /\
    option_map creditBalance (getCard "u1" "4000123412341234" s') = Some 0 /\
    option_map statementBalance (getCard "u1" "4000123412341234" s') = Some 0.
Proof.
  destruct (makeAccountPayment (Some carol) "1234" cardAccount full None carolStore)
    as [r s'] eqn:E.
  assert (Hok : success r = true) by (vm_compute in E; injection E as <- _; reflexivity).
  exists r, s'. split; [reflexivity|]. split; [exact Hok|].
  destruct (card_payment_floors_at_zero _ _ _ _ _ _ _ E Hok)
    as (cu & card & stored & Hcu & Hc & G & _ & _ & F).
  injection Hcu as <-.
  change (findCard "1234" carol) with (Some demoCard) in Hc. injection Hc as <-.
  change (getCard "u1" "4000123412341234" s' = Some stored) in G.
  destruct (F eq_refl) as [F1 F2].
  rewrite G. simpl. rewrite F1, F2; [split; reflexivity|].
  simpl. lia.
Defined.

(** Carol pays 60.00 towards the loan with 100.00 remaining, so that the
    document owes 40.00 while her client still holds 100.00; she then pays a
    custom 150.00. The payment takes 100.00, not 40.00: 160.00 have left the
    cash balance for a loan that owed 100.00. *)
Lemma loan_payment_clamped_against_stale_copy_witness :
  exists r1 s1 r2 s2,
    makeAccountPayment (Some carol) "loan-u1-1" loanAccount custom (Some 6000) carolStore
      = (r1, s1) /\
    success r1 = true /\
    option_map remainingBalance (getLoan "u1" "loan-u1-1" s1) = Some 4000 /\
    option_map balance (getUser "u1" s1) = Some 94000 /\
    makeAccountPayment (Some carol) "loan-u1-1" loanAccount custom (Some 15000) s1
      = (r2, s2) /\
    success r2 = true /\
    option_map balance (getUser "u1" s2) = Some 84000 /\
    option_map remainingBalance (getLoan "u1" "loan-u1-1" s2) = Some 0 /\
    option_map status (getLoan "u1" "loan-u1-1" s2) = Some PaidOff.
Proof.
  destruct (makeAccountPayment (Some carol) "loan-u1-1" loanAccount custom (Some 6000)
              carolStore) as [r1 s1] eqn:E1.
  assert (H1 : success r1 = true /\
               getLoan "u1" "loan-u1-1" s1
                 = Some (setLoan 4000 Active (loan_paymentDueDate demoLoan) demoLoan) /\
               getUser "u1" s1 = Some (setBalance 94000 (data carol)) /\
               success (fst (makeAccountPayment (Some carol) "loan-u1-1" loanAccount custom
                               (Some 15000) s1)) = true).
  { vm_compute in E1. injection E1 as <- <-. repeat split. }
  destruct H1 as (Hok1 & Hl1 & Hu1 & Hok2).
  destruct (makeAccountPayment (Some carol) "loan-u1-1" loanAccount custom (Some 15000) s1)
    as [r2 s2] eqn:E2.
  cbn [fst] in Hok2.
  exists r1, s1, r2, s2.
  split; [reflexivity|]. split; [exact Hok1|].
  split; [rewrite Hl1; reflexivity|]. split; [rewrite Hu1; reflexivity|].
  split; [exact E2|]. split; [exact Hok2|].
  destruct (loan_payment_clamped_against_stale_copy carol "loan-u1-1" 15000 s1 r2 s2
              demoLoan _ E2 Hok2 eq_refl Hl1 ltac:(simpl; lia) ltac:(simpl; lia))
    as (userData & paid & stored & Hu & Hp & _ & B & G & R & St).
  change (uid carol) with "u1" in *. rewrite Hu1 in Hu. injection Hu as <-.
  subst paid. change (loan_id demoLoan) with "loan-u1-1" in G.
  split; [exact B|]. rewrite G. simpl. rewrite R, St. split; reflexivity.
Defined.

(** Carol pays 400.00 towards the card owing 500.00, so that the document
    owes 100.00 while her client still holds 500.00; she then pays a custom
    300.00, more than the card owes. The payment takes 300.00 and the stored
    credit balance is 200.00, not 0: the debt has gone up. *)
Lemma card_overpayment_measured_on_stale_copy_witness :
  exists r1 s1 r2 s2,
    makeAccountPayment (Some carol) "1234" cardAccount custom (Some 40000) carolStore
      = (r1, s1) /\
    success r1 = true /\
    option_map creditBalance (getCard "u1" "4000123412341234" s1) = Some 10000 /\
    option_map balance (getUser "u1" s1) = Some 60000 /\
    makeAccountPayment (Some carol) "1234" cardAccount custom (Some 30000) s1 = (r2, s2) /\
    success r2 = true /\
    option_map balance (getUser "u1" s2) = Some 30000 /\
    option_map creditBalance (getCard "u1" "4000123412341234" s2) = Some 20000.
Proof.
  destruct (makeAccountPayment (Some carol) "1234" cardAccount custom (Some 40000)
              carolStore) as [r1 s1] eqn:E1.
  assert (H1 : success r1 = true /\
               getCard "u1" "4000123412341234" s1
                 = Some (setCardBalances 10000 5000 demoCard) /\
               getUser "u1" s1 = Some (setBalance 60000 (data carol)) /\
               success (fst (makeAccountPayment (Some carol) "1234" cardAccount custom
                               (Some 30000) s1)) = true).
  { vm_compute in E1. injection E1 as <- <-. repeat split. }
  destruct H1 as (Hok1 & Hc1 & Hu1 & Hok2).
  destruct (makeAccountPayment (Some carol) "1234" cardAccount custom (Some 30000) s1)
    as [r2 s2] eqn:E2.
  cbn [fst] in Hok2.
  exists r1, s1, r2, s2.
  split; [reflexivity|]. split; [exact Hok1|].
  split; [rewrite Hc1; reflexivity|]. split; [rewrite Hu1; reflexivity|].
  split; [exact E2|]. split; [exact Hok2|].
  destruct (card_overpayment_measured_on_stale_copy carol "1234" 30000 s1 r2 s2
              demoCard _ E2 Hok2 eq_refl Hc1 ltac:(simpl; lia) ltac:(simpl; lia))
    as (userData & stored & Hu & B & G & C & _ & _).
  change (uid carol) with "u1" in *. rewrite Hu1 in Hu. injection Hu as <-.
  change (cardNumber demoCard) with "4000123412341234" in G.
  split; [exact B|]. rewrite G. simpl. rewrite C. reflexivity.
Defined.

End PaymentFacts.

(* ------------------------------------------------------------------ *)
(** ** Properties of the calendar and of requestPaymentExtension *)

Module DateFacts.
Import JsDate.

(** The month is one of the twelve, and the day of the month counts the
    days since the month started. *)
Lemma DateFromTime_monthStart :
  forall t,
    0 <= MonthFromTime t <= 11 /\
    DateFromTime t = DayWithinYear t - monthStart (MonthFromTime t) (InLeapYear t) + 1.
Proof.
  intro t. unfold DateFromTime, MonthFromTime.
  set (d := DayWithinYear t). set (l := InLeapYear t).
  repeat match goal with
         | |- context [if ?c then _ else _] => destruct c
         end; cbv [monthStart]; lia.
Qed.

(** Setting the day of the month to the current one plus [k] moves the day
    number by [k], across the ends of months and years. *)
Lemma MakeDay_shift :
  forall t k,
    MakeDay (YearFromTime t) (MonthFromTime t) (DateFromTime t + k) = Day t + k.
Proof.
  intros t k. destruct (DateFromTime_monthStart t) as [Hm Hd].
  unfold MakeDay. rewrite Z.div_small by lia. rewrite Z.mod_small by lia.
  rewrite Z.add_0_r. fold (InLeapYear t). rewrite Hd. unfold DayWithinYear. lia.
Qed.

Lemma MakeDate_shift :
  forall t k, MakeDate (Day t + k) (TimeWithinDay t) = t + k * msPerDay.
Proof.
  intros t k. unfold MakeDate, Day, TimeWithinDay.
  pose proof (Z.div_mod t msPerDay) as H.
  assert (msPerDay <> 0) by (unfold msPerDay; lia). specialize (H H0). lia.
Qed.

(** [d.setDate(d.getDate() + k)] is the time value [k] days later on the
    client's calendar. *)
Lemma setDate_getDate_shift :
  forall LocalTZA tv k,
    setDate LocalTZA tv (getDate LocalTZA tv + k) = TimeClip (plusDays LocalTZA tv k).
Proof.
  intros LocalTZA tv k. unfold setDate, getDate, plusDays.
  rewrite MakeDay_shift, MakeDate_shift. reflexivity.
Qed.

(** Where the offset of the zone is the same at both ends, [n] days on the
    calendar are [n] times 24 hours. *)
Lemma plusDays_same_offset :
  forall LocalTZA d n,
    LocalTZA (LocalTime LocalTZA d + n * msPerDay) false = LocalTZA d true ->
    plusDays LocalTZA d n = d + n * msPerDay.
Proof.
  intros LocalTZA d n H. unfold plusDays, UTC. rewrite H. unfold LocalTime. lia.
Qed.

Lemma TimeClip_Some : forall t v, TimeClip t = Some v -> v = t.
Proof.
  intros t v H. unfold TimeClip in H.
  destruct (8640000000000000 <? Z.abs t); [discriminate|]. injection H as <-. reflexivity.
Qed.

End DateFacts.

Module ExtensionFacts.
Import Firestore FirestoreFacts JsDate DateFacts App.

(** The calendar on known days, in a zone without offset. *)
Example formatDate_known_days :
  map (formatDate (fun _ _ => 0))
    [0; -1; 951782400000; 4107542400000; 1735603200000; 1737799200000]
  = ["January 1, 1970"; "December 31, 1969"; "February 29, 2000"; "March 1, 2100";
     "December 31, 2024"; "January 25, 2025"].
Proof. vm_compute. reflexivity. Qed.

(** The due date of the account the call resolves, as the client holds it. *)
Definition heldDueDate (accountId : string) (type : AccountType) (cu : User) : option Z :=
  match type with
  | cardAccount => option_map card_paymentDueDate (findCard accountId cu)
  | loanAccount => option_map loan_paymentDueDate (findLoan accountId cu)
  end.

(** The due date of that account's document in the store. *)
Definition storedDueDate (accountId : string) (type : AccountType) (cu : User) (s : Store)
  : option Z :=
  match type with
  | cardAccount =>
      match findCard accountId cu with
      | Some card => option_map card_paymentDueDate (getCard (uid cu) (cardNumber card) s)
      | None => None
      end
  | loanAccount =>
      match findLoan accountId cu with
      | Some loan => option_map loan_paymentDueDate (getLoan (uid cu) (loan_id loan) s)
      | None => None
      end
  end.

(** The effect of a successful extension, measured on the account as
    [currentUser] holds it: with [D] the held due date of the card or loan,
    the due date returned and stored is [D] plus 14 days on the client's
    calendar, which is [D] plus 14 times 24 hours wherever the zone keeps its
    offset. The operation reads no clock: the result depends on [D] alone,
    not on the time of the call. *)
Lemma extension_shifts_held_due_date :
  forall LocalTZA random currentUser accountId type s r s',
    requestPaymentExtension LocalTZA random currentUser accountId type s = (Ok r, s') ->
    ext_success r = true ->
    exists cu D,
      currentUser = Some cu /\
      heldDueDate accountId type cu = Some D /\
      newDueDate r = Some (plusDays LocalTZA D 14) /\
      storedDueDate accountId type cu s' = Some (plusDays LocalTZA D 14) /\
      (LocalTZA (LocalTime LocalTZA D + 14 * msPerDay) false = LocalTZA D true ->
       plusDays LocalTZA D 14 = D + 14 * msPerDay).
Proof.
  intros LocalTZA random currentUser accountId type s r s' H Hok.
  unfold requestPaymentExtension in H.
  destruct currentUser as [cu|]; [|injection H as <- _; discriminate].
  destruct (Qlt_bool random (1 # 10)); [injection H as <- _; discriminate|].
  exists cu.
  destruct type.
  - unfold heldDueDate, storedDueDate.
    destruct (findCard accountId cu) as [card|]; [|injection H as <- _; discriminate].
    exists (card_paymentDueDate card).
    destruct (TimeClip (card_paymentDueDate card)) as [d0|] eqn:Hclip; [|discriminate].
    apply TimeClip_Some in Hclip. subst d0.
    rewrite setDate_getDate_shift in H.
    destruct (TimeClip (plusDays LocalTZA (card_paymentDueDate card) 14)) as [nd|] eqn:Hnew;
      [|discriminate].
    apply TimeClip_Some in Hnew. subst nd.
    match type of H with
    | context [updateDoc pathEqb ?k ?f (cardDocs s)] =>
        destruct (updateDoc pathEqb k f (cardDocs s)) as [cs|] eqn:U
    end; simpl in H; [|discriminate].
    injection H as <- <-.
    destruct (updateDoc_same _ _ _ _ _ U) as [before [_ G]].
    repeat split.
    + unfold getCard. simpl. rewrite G. reflexivity.
    + apply plusDays_same_offset.
  - unfold heldDueDate, storedDueDate.
    destruct (findLoan accountId cu) as [loan|]; [|injection H as <- _; discriminate].
    exists (loan_paymentDueDate loan).
    destruct (TimeClip (loan_paymentDueDate loan)) as [d0|] eqn:Hclip; [|discriminate].
    apply TimeClip_Some in Hclip. subst d0.
    rewrite setDate_getDate_shift in H.
    destruct (TimeClip (plusDays LocalTZA (loan_paymentDueDate loan) 14)) as [nd|] eqn:Hnew;
      [|discriminate].
    apply TimeClip_Some in Hnew. subst nd.
    match type of H with
    | context [updateDoc pathEqb ?k ?f (loanDocs s)] =>
        destruct (updateDoc pathEqb k f (loanDocs s)) as [ls|] eqn:U
    end; simpl in H; [|discriminate].
    injection H as <- <-.
    destruct (updateDoc_same _ _ _ _ _ U) as [before [_ G]].
    repeat split.
    + unfold getLoan. simpl. rewrite G. reflexivity.
    + apply plusDays_same_offset.
Qed.

(** C7 fails on the code. The 14 days are counted from the due date of the
    account as [currentUser] holds it, an object [requestPaymentExtension]
    never refreshes, not from the due date of the account's document. Where
    the document already carries the held date plus 14 days (an earlier
    extension of the session), a successful extension stores and returns that
    same date again: the due date [D] before the call is still the due date
    after it, not [D] plus 14 days. *)
Theorem extension_counts_from_stale_copy :
  forall LocalTZA random cu accountId type s r s' held D,
    requestPaymentExtension LocalTZA random (Some cu) accountId type s = (Ok r, s') ->
    ext_success r = true ->
    heldDueDate accountId type cu = Some held ->
    storedDueDate accountId type cu s = Some D ->
    D = plusDays LocalTZA held 14 ->
    storedDueDate accountId type cu s' = Some D /\
    newDueDate r = Some D /\
    (LocalTZA (LocalTime LocalTZA D + 14 * msPerDay) false = LocalTZA D true ->
     plusDays LocalTZA D 14 = D + 14 * msPerDay /\
     storedDueDate accountId type cu s' <> Some (plusDays LocalTZA D 14)).
Proof.
  intros LocalTZA random cu accountId type s r s' held D H Hok Hheld Hstored HD.
  destruct (extension_shifts_held_due_date _ _ _ _ _ _ _ _ H Hok)
    as (cu' & D0 & Hcu & Hd & Hn & Hs & _).
  injection Hcu as <-. rewrite Hheld in Hd. injection Hd as <-.
  rewrite <- HD in Hn, Hs.
  split; [exact Hs|]. split; [exact Hn|].
  intro Hzone. pose proof (plusDays_same_offset _ _ _ Hzone) as Hshift.
  split; [exact Hshift|].
  rewrite Hs, Hshift. intro Heq. injection Heq as Heq. unfold msPerDay in Heq. lia.
Qed.

(** Carol's card is due on 25 January 2025, 10:00 UTC. A first extension
    moves the stored due date to 8 February; her client still holds 25
    January. A second extension succeeds and the stored due date stays at
    8 February, where the claim requires 22 February. *)
Lemma extension_counts_from_stale_copy_witness :
  exists r1 s1 r2 s2,
    requestPaymentExtension (fun _ _ => 0) (1 # 2) (Some PaymentFacts.carol) "1234"
      cardAccount PaymentFacts.carolStore = (Ok r1, s1) /\
    ext_success r1 = true /\
    storedDueDate "1234" cardAccount PaymentFacts.carol PaymentFacts.carolStore
      = Some 1737799200000 /\
    storedDueDate "1234" cardAccount PaymentFacts.carol s1 = Some 1739008800000 /\
    requestPaymentExtension (fun _ _ => 0) (3 # 4) (Some PaymentFacts.carol) "1234"
      cardAccount s1 = (Ok r2, s2) /\
    ext_success r2 = true /\
    storedDueDate "1234" cardAccount PaymentFacts.carol s2 = Some 1739008800000 /\
    plusDays (fun _ _ => 0) 1739008800000 14 = 1740218400000.
Proof.
  destruct (requestPaymentExtension (fun _ _ => 0) (1 # 2) (Some PaymentFacts.carol) "1234"
              cardAccount PaymentFacts.carolStore) as [o1 s1] eqn:E1.
  assert (H1 : exists r1,
             o1 = Ok r1 /\ ext_success r1 = true /\
             storedDueDate "1234" cardAccount PaymentFacts.carol s1 = Some 1739008800000 /\
             exists r2,
               fst (requestPaymentExtension (fun _ _ => 0) (3 # 4) (Some PaymentFacts.carol)
                      "1234" cardAccount s1) = Ok r2 /\
               ext_success r2 = true).
  { vm_compute in E1. injection E1 as <- <-. eexists. split; [reflexivity|].
    split; [reflexivity|]. split; [reflexivity|]. eexists. split; reflexivity. }
  destruct H1 as (r1 & -> & Hok1 & Hs1 & r2 & E2 & Hok2).
  destruct (requestPaymentExtension (fun _ _ => 0) (3 # 4) (Some PaymentFacts.carol) "1234"
              cardAccount s1) as [o2 s2] eqn:E2'.
  cbn [fst] in E2. subst o2.
  exists r1, s1, r2, s2.
  split; [reflexivity|]. split; [exact Hok1|]. split; [reflexivity|].
  split; [exact Hs1|]. split; [exact E2'|]. split; [exact Hok2|].
  destruct (extension_counts_from_stale_copy (fun _ _ => 0) (3 # 4) PaymentFacts.carol
              "1234" cardAccount s1 r2 s2 1737799200000 1739008800000
              E2' Hok2 eq_refl Hs1 eq_refl) as (Hs2 & _ & Hz).
  split; [exact Hs2|]. exact (proj1 (Hz eq_refl)).
Defined.

End ExtensionFacts.

(* ------------------------------------------------------------------ *)
(** ** Properties of loadOrGenerateInsights *)

Module InsightsFacts.
Import Firestore FirestoreFacts App.

Lemma filter_filter_length :
  forall (X : Type) (p q : X -> bool) (l : list X),
    (List.length (filter p (filter q l)) <= List.length (filter p l))%nat.
Proof.
  intros X p q l. induction l as [|x l IH]; simpl; [lia|].
  destruct (q x); simpl; destruct (p x); simpl; lia.
Qed.

(** The savings transactions of the user followed by the transactions of
    the user's cards. *)
Definition combinedHistory (cu : User) (a : AppState) : list Transaction :=
  (filter (fun tx => String.eqb (tx_uid tx) (uid cu)) (clientTransactions a)
   ++ flat_map card_transactions (cards cu))%list.

Definition persistedInsights (cu : User) (s : Store) : option CachedInsight :=
  getDoc pathEqb (uid cu, "latest") (insightDocs s).

Definition someInsights : CachedInsight :=
  {| insight_data :=
       [("en", {| spendingBreakdown := [{| item_name := "Food"; value := 1200 |}];
                  overallSpendingChange := 0; topCategoryChanges := [];
                  cashFlowForecast := "Steady."; savingOpportunities := [];
                  subscriptions := [] |})];
     lastUpdated := 1737799200000 |}.

(** A generation is in progress and the cache is persisted. *)
Definition busyState : AppState :=
  {| currentUser := Some TransferFacts.alice; clientTransactions := [];
     insightsData := None; isInsightsLoading := true;
     db := {| users := users TransferFacts.demoStore; cardDocs := []; loanDocs := [];
              insightDocs := [(("u1", "latest"), someInsights)]; transactions := [] |};
     analysisRequests := [] |}.

Definition noAnswer : list Transaction -> Z -> Outcome (list (string * InsightsData)) :=
  fun _ _ => Throw "unavailable".

(** A call that arrives while a generation is in progress is a no-op that
    returns nothing, whether or not a cache is persisted. *)
Lemma call_in_progress_returns_nothing :
  persistedInsights TransferFacts.alice (db busyState) = Some someInsights /\
  fst (loadOrGenerateInsights (fun _ _ => 0) noAnswer 1737799200000 1737799200000 busyState)
  = None.
Proof. split; reflexivity. Qed.

(** C9. With a user logged in and no generation in progress (a call that
    arrives while one is in progress is the no-op above),
    [loadOrGenerateInsights] returns the persisted cache when there is one,
    without a request to the model; when there is none and the combined
    savings and card history holds fewer than 3 debits, it returns nothing,
    sends no request to the model and leaves the store, hence the cache,
    as it was. *)
Theorem insights_cache_or_nothing :
  forall LocalTZA generateContent now stamp a cu,
    isInsightsLoading a = false ->
    currentUser a = Some cu ->
    (forall cached,
        persistedInsights cu (db a) = Some cached ->
        exists a',
          loadOrGenerateInsights LocalTZA generateContent now stamp a = (Some cached, a') /\
          analysisRequests a' = analysisRequests a /\ db a' = db a) /\
    (persistedInsights cu (db a) = None ->
     (List.length (filter isDebit (combinedHistory cu a)) < 3)%nat ->
     exists a',
       loadOrGenerateInsights LocalTZA generateContent now stamp a = (None, a') /\
       analysisRequests a' = analysisRequests a /\
       db a' = db a /\
       persistedInsights cu (db a') = None /\
       insightsData a' = None).
Proof.
  intros LocalTZA generateContent now stamp a cu Hidle Hcu.
  unfold loadOrGenerateInsights, persistedInsights. rewrite Hidle, Hcu. split.
  - intros cached Hc. rewrite Hc. eexists. split; [reflexivity|]. split; reflexivity.
  - intros Hnone Hfew. rewrite Hnone.
    fold (combinedHistory cu a).
    unfold getComprehensiveInsights.
    match goal with
    | |- context [filter isDebit (filter ?q (combinedHistory cu a))] =>
        pose proof (filter_filter_length _ isDebit q (combinedHistory cu a)) as Hle;
        set (recent := filter isDebit (filter q (combinedHistory cu a))) in *
    end.
    assert (E : (Z.of_nat (List.length recent) <? 3) = true) by (apply Z.ltb_lt; lia).
    rewrite E. eexists. split; [reflexivity|]. simpl. auto.
Qed.

(** A user with two debits on record and nothing persisted. *)
Definition twoDebits : list Transaction :=
  [{| tx_id := Some "t1"; tx_uid := "u1"; tx_type := debit; tx_amount := 1200;
      tx_description := "Coffee"; tx_timestamp := 1737000000000; tx_partyName := "Cafe";
      tx_category := "Food"; tx_cardId := None |};
   {| tx_id := Some "t2"; tx_uid := "u1"; tx_type := debit; tx_amount := 5000;
      tx_description := "Fuel"; tx_timestamp := 1737100000000; tx_partyName := "Shell";
      tx_category := "Transport"; tx_cardId := None |}].

Definition idleState : AppState :=
  {| currentUser := Some TransferFacts.alice; clientTransactions := twoDebits;
     insightsData := None; isInsightsLoading := false;
     db := TransferFacts.demoStore; analysisRequests := [] |}.

Lemma insights_cache_or_nothing_witness :
  isInsightsLoading idleState = false /\
  currentUser idleState = Some TransferFacts.alice /\
  exists a',
    loadOrGenerateInsights (fun _ _ => 0) noAnswer 1737799200000 1737799200000 idleState
      = (None, a') /\
    analysisRequests a' = [].
Proof.
  split; [reflexivity|]. split; [reflexivity|].
  destruct (insights_cache_or_nothing (fun _ _ => 0) noAnswer 1737799200000 1737799200000
              idleState TransferFacts.alice eq_refl eq_refl) as [_ Hnone].
  destruct Hnone as (a' & Hrun & Hreq & _); [reflexivity | simpl; lia |].
  exists a'. split; [exact Hrun | exact Hreq].
Defined.

End InsightsFacts.

(* ------------------------------------------------------------------ *)
(** ** Properties of the gate *)

Module GateFacts.
Import App.

(** The gate answers true only when a user is logged in, passkeys are
    supported, the user has one, and the ceremony yields an assertion. *)
Lemma gate_opens_only_on_assertion :
  forall currentUser isPasskeySupported passkeys ceremony,
    fst (verifyCurrentUserWithPasskey currentUser isPasskeySupported passkeys ceremony) = true ->
    currentUser <> None /\ isPasskeySupported = true /\ passkeys <> [] /\
    ceremony = Asserted.
Proof.
  intros currentUser isPasskeySupported passkeys ceremony H.
  unfold verifyCurrentUserWithPasskey in H.
  destruct currentUser as [cu|]; [|discriminate].
  destruct isPasskeySupported; [|discriminate].
  destruct passkeys as [|pk pks]; [discriminate|]. simpl in H.
  destruct ceremony as [| |errorName]; simpl in H.
  - repeat split; discriminate.
  - discriminate.
  - destruct (negb (String.eqb errorName "NotAllowedError")
              && negb (String.eqb errorName "AbortError"))%bool; discriminate.
Qed.

End GateFacts.

(* ------------------------------------------------------------------ *)
(** ** Properties of the conversation loop *)

Module LoopFacts.
Import ChatModal.

(** The calls a chunk carries. *)
Definition callsOf (c : Chunk) : list FunctionCall :=
  match functionCalls c with Some calls => calls | None => [] end.

(** The chunks a stream delivers before it ends or fails. *)
Fixpoint yielded (stream : list StreamItem) : list Chunk :=
  match stream with
  | Yield c :: rest => c :: yielded rest
  | _ => []
  end.

Fixpoint failure (stream : list StreamItem) : option string :=
  match stream with
  | [] => None
  | Yield _ :: rest => failure rest
  | Fail e :: _ => Some e
  end.


(** The calls [streamAndHandle] hands back: the calls of the chunks in the
    order of the chunks, once the stream has ended; a stream that fails
    hands back nothing. *)
Definition collected (o : Outcome (list StreamItem)) : list FunctionCall :=
  match o with
  | Ok stream =>
      match failure stream with
      | None => flat_map callsOf (yielded stream)
      | Some _ => []
      end
  | Throw _ => []
  end.

(** The events of one call of the loop: a consultation of the gate, a call
    of an operation of the context, or both in this order. *)
Inductive OwnEvents : list Event -> Prop :=
| own_none : OwnEvents []
| own_invoke : forall i, OwnEvents [EvInvoke i]
| own_gate : forall b, OwnEvents [EvVerifyPasskey b]
| own_gate_invoke : forall i, OwnEvents [EvVerifyPasskey true; EvInvoke i].

(** A trace in which the calls are taken up one after the other, in the
    order of the list, each with its own events before the next is taken
    up. *)
Inductive Sequential : list FunctionCall -> list Event -> Prop :=
| seq_nil : Sequential [] []
| seq_cons : forall call calls own rest,
    OwnEvents own -> Sequential calls rest ->
    Sequential (call :: calls) (EvTakeUp call :: own ++ rest)%list.

Section Loop.

Context {A : Type}.
Variable ctx : BankContext A.
Variable t : string -> list (string * string) -> string.
Variable language : string.
Variable LocalTZA : Z -> bool -> Z.

Ltac run :=
  repeat (unfold bind, ret, done, invoke, record, await, onApp, appendMessage,
            nextMessageId, setMessages in *; cbn [fst snd negb app trace chat messages
            messageId inputValue isLoading] in *).


(** While the stream is consumed, chunks are received and messages are
    shown; the application state is left alone, and the calls of the chunks
    are collected in their order. *)
Lemma consume_spec :
  forall stream acc mid collected (w : Modal A) r w',
    consume stream acc mid collected w = (r, w') ->
    trace w' = (trace w ++ map EvChunk (yielded stream))%list /\
    app w' = app w /\
    r = match failure stream with
        | Some e => Throw e
        | None => Ok (collected ++ flat_map callsOf (yielded stream))%list
        end.
Proof.
  induction stream as [|item rest IH]; intros acc mid collected w r w' H.
  - simpl in H. run. injection H as <- <-. simpl. rewrite !app_nil_r. auto.
  - destruct item as [chunk|e].
    + simpl in H. run.
      destruct (orElse (chunk_text chunk) None) as [chunkText|].
      * destruct mid as [i|]; run; apply IH in H; cbn in H;
          destruct H as (Ht & Ha & Hr); simpl;
          (split; [rewrite Ht, <- app_assoc; reflexivity|]);
          (split; [exact Ha|]);
          rewrite Hr; destruct (failure rest); [reflexivity| |reflexivity|];
          unfold callsOf at 2; destruct (functionCalls chunk);
          rewrite <- ?app_assoc, ?app_nil_r; reflexivity.
      * apply IH in H; cbn in H; destruct H as (Ht & Ha & Hr); simpl.
        split; [rewrite Ht, <- app_assoc; reflexivity|].
        split; [exact Ha|].
        rewrite Hr. destruct (failure rest); [reflexivity|].
        unfold callsOf at 2. destruct (functionCalls chunk);
          rewrite <- ?app_assoc, ?app_nil_r; reflexivity.
    + simpl in H. injection H as <- <-. simpl. rewrite app_nil_r. auto.
Qed.

(** [streamAndHandle] sends the content, receives chunks, and hands back
    the calls collected from them; no call is taken up, no gate consulted
    and no operation of the context called meanwhile. *)
Lemma streamAndHandle_spec :
  forall content w r w',
    streamAndHandle ctx content w = (r, w') ->
    exists chunks,
      trace w' = (trace w ++ EvSendMessageStream content :: map EvChunk chunks)%list /\
      app w' = snd (sendMessageStream ctx content (app w)) /\
      (forall calls, r = Ok calls -> calls = flat_map callsOf chunks).
Proof.
  intros content w r w' H. unfold streamAndHandle in H. run.
  destruct (sendMessageStream ctx content (app w)) as [[stream|e] a1] eqn:Es.
  - apply consume_spec in H. cbn in H. destruct H as (Ht & Ha & Hr).
    exists (yielded stream). split; [rewrite Ht, <- app_assoc; reflexivity|].
    split; [exact Ha|].
    intros calls Hc. rewrite Hr in Hc. destruct (failure stream); [discriminate|].
    injection Hc as <-. reflexivity.
  - injection H as <- <-. exists []. simpl. split; [reflexivity|]. split; [reflexivity|].
    intros calls Hc. discriminate.
Qed.


(** A sensitive call the gate denies: two notices are shown, the gate is
    consulted, nothing else happens, and the cancelled response is the
    part. *)
Lemma processCall_denied :
  forall call w,
    isSensitive call = true ->
    fst (verifyCurrentUserWithPasskey ctx (app w)) = false ->
    exists w',
      processCall ctx t language LocalTZA call w = (Ok (cancelledResponse call), w') /\
      trace w' = (trace w ++ [EvTakeUp call; EvVerifyPasskey false])%list /\
      app w' = snd (verifyCurrentUserWithPasskey ctx (app w)) /\
      messages w' =
        (messages w
         ++ [{| id := messageId w; sender := system;
                text := t "passkeyConfirmationRequired"
                          [("action", match call_name call with Some n => n | None => "" end)] |};
             {| id := S (messageId w); sender := system; text := t "actionCancelled" [] |}])%list.
Proof.
  intros call w Hs Hdenied. unfold processCall. rewrite Hs. run.
  destruct (verifyCurrentUserWithPasskey ctx (app w)) as [verified a1].
  simpl in Hdenied. subst verified. run.
  eexists. split; [reflexivity|]. cbn. rewrite <- !app_assoc. auto.
Qed.

(** The loop over a list of calls run in two parts. *)
Lemma processCalls_app :
  forall xs ys parts w,
    processCalls ctx t language LocalTZA (xs ++ ys) parts w =
    match processCalls ctx t language LocalTZA xs parts w with
    | (Ok parts1, w1) => processCalls ctx t language LocalTZA ys parts1 w1
    | (Throw e, w1) => (Throw e, w1)
    end.
Proof.
  induction xs as [|x xs IH]; intros ys parts w.
  - reflexivity.
  - simpl. unfold bind.
    destruct (processCall ctx t language LocalTZA x w) as [[part|e] w1].
    + apply IH.
    + reflexivity.
Qed.

(** C1. A sensitive call for which the gate returns false, wherever it
    stands among the collected calls: between the state in which the loop
    reaches it and the state in which the loop goes on, the call is taken up
    and the gate is consulted, and no operation of the context is called; the
    application state changes by the gate alone; the part pushed for the call
    carries its name and the object with [success] false and the cancellation
    message; and the loop continues with the calls that follow. *)
Theorem denied_sensitive_call_is_not_executed :
  forall before call rest parts w parts1 w1,
    processCalls ctx t language LocalTZA before parts w = (Ok parts1, w1) ->
    isSensitive call = true ->
    fst (verifyCurrentUserWithPasskey ctx (app w1)) = false ->
    exists w2,
      trace w2 = (trace w1 ++ [EvTakeUp call; EvVerifyPasskey false])%list /\
      app w2 = snd (verifyCurrentUserWithPasskey ctx (app w1)) /\
      fr_name (cancelledResponse call) = call_name call /\
      response (cancelledResponse call) =
        JObj [("success", JBool false);
              ("message", JStr "User cancelled the action with their passkey.")] /\
      processCalls ctx t language LocalTZA (before ++ call :: rest) parts w =
      processCalls ctx t language LocalTZA rest (parts1 ++ [cancelledResponse call]) w2.
Proof.
  intros before call rest parts w parts1 w1 Hbefore Hs Hdenied.
  destruct (processCall_denied call w1 Hs Hdenied) as (w2 & Hrun & Ht & Ha & _).
  exists w2. split; [exact Ht|]. split; [exact Ha|].
  split; [reflexivity|]. split; [reflexivity|].
  rewrite processCalls_app, Hbefore. simpl. unfold bind. rewrite Hrun. reflexivity.
Qed.

(** Calls processed one at a time in the order of the list: each call is
    processed from the state its predecessor left, its events (it is taken
    up, then its own gate consultation and operation call) follow those of
    its predecessor, its part is pushed after the parts before it, and the
    loop ends after the last call or at the first call whose processing
    throws. *)
Inductive OneAtATime :
  list FunctionCall -> list FunctionResponse -> Modal A ->
  list Event -> Outcome (list FunctionResponse) -> Modal A -> Prop :=
| all_processed : forall parts w, OneAtATime [] parts w [] (Ok parts) w
| next_processed : forall call rest parts w part w1 own evs r w2,
    processCall ctx t language LocalTZA call w = (Ok part, w1) ->
    OwnEvents own ->
    trace w1 = (trace w ++ EvTakeUp call :: own)%list ->
    fr_name part = call_name call ->
    OneAtATime rest (parts ++ [part])%list w1 evs r w2 ->
    OneAtATime (call :: rest) parts w (EvTakeUp call :: own ++ evs)%list r w2
| processing_thrown : forall call rest parts w e w1 own,
    processCall ctx t language LocalTZA call w = (Throw e, w1) ->
    OwnEvents own ->
    trace w1 = (trace w ++ EvTakeUp call :: own)%list ->
    OneAtATime (call :: rest) parts w (EvTakeUp call :: own)%list (Throw e) w1.



(** Processing one at a time takes the calls up in the order of the list,
    each with its own events before the next; all of them unless the
    processing of one throws, and then the parts carry the names of the
    calls in that order. *)
Lemma OneAtATime_sequential :
  forall calls parts w evs r w',
    OneAtATime calls parts w evs r w' ->
    exists k,
      (k <= List.length calls)%nat /\
      Sequential (firstn k calls) evs /\
      (forall parts', r = Ok parts' ->
         k = List.length calls /\
         map fr_name parts' = (map fr_name parts ++ map call_name calls)%list).
Proof.
  intros calls parts w evs r w' H. induction H.
  - exists 0%nat. split; [simpl; lia|]. split; [constructor|].
    intros parts' Hp. injection Hp as <-. split; [reflexivity|].
    simpl. rewrite app_nil_r. reflexivity.
  - destruct IHOneAtATime as (k & Hk & Hseq & Hres).
    exists (S k). split; [simpl; lia|]. split; [simpl; constructor; assumption|].
    intros parts' Hp. destruct (Hres parts' Hp) as [Hk' Hm].
    split; [simpl; lia|]. rewrite Hm, map_app, <- app_assoc. simpl.
    match goal with Hn : fr_name _ = call_name _ |- _ => rewrite Hn end. reflexivity.
  - exists 1%nat. split; [simpl; lia|]. split.
    + simpl. rewrite <- (app_nil_r own). constructor; [assumption|constructor].
    + intros parts' Hp. discriminate.
Qed.




End Loop.

(** A recording double of the context: the application state counts the
    consultations of the gate, which refuses the first and accepts the
    later ones; every operation succeeds; the model answers the prompt with
    two chunks carrying three calls and answers the responses with text. *)
Definition payBob : FunctionCall :=
  {| call_name := Some "initiatePayment";
     call_args := Some {| recipientName := Some "Bob"; recipientAccountNumber := None;
                          recipientEmail := None; recipientPhone := None;
                          amount := Some 20000; cardLast4 := None; limit := None;
                          accountId := None; accountType := None; paymentType := None;
                          applicationDetails := None |} |}.

Definition askBalance : FunctionCall :=
  {| call_name := Some "getAccountBalance"; call_args := None |}.

Definition payCard : FunctionCall :=
  {| call_name := Some "makeAccountPayment";
     call_args := Some {| recipientName := None; recipientAccountNumber := None;
                          recipientEmail := None; recipientPhone := None;
                          amount := None; cardLast4 := None; limit := None;
                          accountId := Some "1234"; accountType := Some "card";
                          paymentType := Some "minimum"; applicationDetails := None |} |}.

Definition firstChunk : Chunk :=
  {| functionCalls := Some [payBob]; chunk_text := Some "One moment." |}.

Definition secondChunk : Chunk :=
  {| functionCalls := Some [askBalance; payCard]; chunk_text := None |}.

Definition closingChunk : Chunk :=
  {| functionCalls := None; chunk_text := Some "Done." |}.

Definition accepted : App.OpResult := {| App.success := true; App.message := "ok" |}.

Definition double : BankContext nat :=
  {| currentUser := Some PaymentFacts.carol;
     transactions := [];
     insightsData := None;
     transferMoney := fun _ _ a => (Ok accepted, a);
     makeAccountPayment := fun _ _ _ _ a => (Ok accepted, a);
     requestPaymentExtension := fun _ _ a =>
       (Ok {| App.ext_success := true; App.ext_message := "ok"; App.newDueDate := None |}, a);
     addCardToUser := fun _ a => (Ok (accepted, None), a);
     addLoanToUser := fun _ a => (Ok (accepted, None), a);
     verifyCurrentUserWithPasskey := fun a => (negb (Nat.eqb a 0), S a);
     loadOrGenerateInsights := fun a => (None, a);
     sendMessageStream := fun content a =>
       match content with
       | PromptText _ => (Ok [Yield firstChunk; Yield secondChunk], a)
       | ResponseParts _ => (Ok [Yield closingChunk], a)
       end |}.

Definition plain (key : string) (params : list (string * string)) : string := key.

Definition utc (t : Z) (isUTC : bool) : Z := 0.

Definition openModal : Modal nat :=
  {| app := 0%nat; chat := true; messages := []; messageId := 0; inputValue := "pay";
     isLoading := false; trace := [] |}.

(** The whole trace of the turn on the double: the transfer is refused at
    the gate and not called; the balance query needs no gate; the card
    payment passes the gate and is called. *)
Example turn_on_the_double :
  exists parts,
    trace (handleSend double plain "en" utc "pay Bob and my card" openModal) =
      [EvSendMessageStream (PromptText "pay Bob and my card");
       EvChunk firstChunk; EvChunk secondChunk;
       EvTakeUp payBob; EvVerifyPasskey false;
       EvTakeUp askBalance;
       EvTakeUp payCard; EvVerifyPasskey true;
       EvInvoke (InvMakeAccountPayment (Some "1234") (Some "card") (Some "minimum") None);
       EvSendMessageStream (ResponseParts parts);
       EvChunk closingChunk] /\
    map response (firstn 1 parts) = [response (cancelledResponse payBob)].
Proof. eexists. split; vm_compute; reflexivity. Qed.

Lemma denied_sensitive_call_is_not_executed_witness :
  isSensitive payBob = true /\
  fst (verifyCurrentUserWithPasskey double (app openModal)) = false /\
  exists w2,
    trace w2 = [EvTakeUp payBob; EvVerifyPasskey false] /\
    processCalls double plain "en" utc [payBob; askBalance; payCard] [] openModal =
    processCalls double plain "en" utc [askBalance; payCard] [cancelledResponse payBob] w2.
Proof.
  split; [reflexivity|]. split; [reflexivity|].
  destruct (denied_sensitive_call_is_not_executed double plain "en" utc
              [] payBob [askBalance; payCard] [] openModal [] openModal
              eq_refl eq_refl eq_refl) as (w2 & Ht & _ & _ & _ & Hrun).
  exists w2. split; [exact Ht | exact Hrun].
Defined.






End LoopFacts.


(* ------------------------------------------------------------------ *)
(** ** Further properties of transferMoney and makeAccountPayment *)

Module LedgerMore.
Import Firestore FirestoreFacts App.

(** With both records stored, the function is [App.transferMoney]. *)
Lemma transferMoney_without_faults :
  forall others now u1 u2 currentUser rid amount s,
    Faults.transferMoney others now (Ok u1) (Ok u2) currentUser rid amount s
    = transferMoney others now currentUser rid amount s.
Proof.
  intros others now u1 u2 currentUser rid amount s.
  unfold Faults.transferMoney, transferMoney.
  destruct currentUser as [cu|]; [|reflexivity].
  destruct (amount <=? 0); [reflexivity|].
  destruct (balance (data cu) <? amount); [reflexivity|].
  destruct (findRecipient rid s) as [recipient|]; [|reflexivity].
  destruct (String.eqb (fst recipient) (uid cu)); [reflexivity|].
  destruct (runTransaction (transferTxn (uid cu) recipient amount) (others s)) as [[u|m] s1];
    [|reflexivity].
  destruct (transferRecords now cu recipient amount) as [d c]. reflexivity.
Qed.

(** An unsuccessful answer of a transfer does not tell that nothing was
    written. The client's copy of the user is kept; the store is as it was,
    or as the other sessions left it, unless the transaction had committed
    and the storing of a record was rejected after it: then the balances of
    sender and recipient have moved, and of the two records none or only the
    sender's is stored. With both records stored, an unsuccessful transfer
    has written nothing. *)
Theorem failed_transfer_wrote_nothing_or_lost_a_record :
  forall others now addDebit addCredit currentUser rid amount s r s' upd,
    Faults.transferMoney others now addDebit addCredit currentUser rid amount s
      = (r, s', upd) ->
    success r = false ->
    (forall prev, upd prev = prev) /\
    (s' = s \/ s' = others s \/
     exists cu recipient sender committed,
       currentUser = Some cu /\
       findRecipient rid s = Some recipient /\
       getUser (uid cu) (others s) = Some sender /\
       commit [UpdateUserBalance (uid cu) (balance sender - amount);
               UpdateUserBalance (fst recipient) (balance (snd recipient) + amount)]
         (others s) = Some committed /\
       ((exists m, addDebit = Throw m /\ r = failure m /\ s' = committed) \/
        (exists m, addCredit = Throw m /\ r = failure m /\
           s' = addTransaction (fst (transferRecords now cu recipient amount)) committed))) /\
    ((exists u1 u2, addDebit = Ok u1 /\ addCredit = Ok u2) -> s' = s \/ s' = others s).
Proof.
  intros others now addDebit addCredit currentUser rid amount s r s' upd H Hfail.
  unfold Faults.transferMoney in H.
  destruct currentUser as [cu|]; [|injection H as _ <- <-; auto].
  destruct (amount <=? 0); [injection H as _ <- <-; auto|].
  destruct (balance (data cu) <? amount); [injection H as _ <- <-; auto|].
  destruct (findRecipient rid s) as [recipient|] eqn:Hr; [|injection H as _ <- <-; auto].
  destruct (String.eqb (fst recipient) (uid cu)); [injection H as _ <- <-; auto|].
  unfold runTransaction, transferTxn in H.
  destruct (getUser (uid cu) (others s)) as [sender|] eqn:Hs;
    [|injection H as _ <- <-; auto].
  cbn [orb] in H.
  destruct (balance sender <? amount); [injection H as _ <- <-; auto|].
  match type of H with
  | context [commit ?ws (others s)] => destruct (commit ws (others s)) as [s1|] eqn:Hc
  end; [|injection H as _ <- <-; auto].
  destruct (transferRecords now cu recipient amount) as [d c] eqn:Hrec.
  destruct addDebit as [u1|m].
  - destruct addCredit as [u2|m].
    + injection H as <- _ _. discriminate.
    + injection H as <- <- <-. split; [reflexivity|]. split.
      * right. right. exists cu, recipient, sender, s1.
        repeat (split; [reflexivity || assumption|]).
        right. exists m. rewrite Hrec. repeat split.
      * intros (u1' & u2' & _ & Hx). discriminate.
  - injection H as <- <- <-. split; [reflexivity|]. split.
    + right. right. exists cu, recipient, sender, s1.
      repeat (split; [reflexivity || assumption|]).
      left. exists m. repeat split.
    + intros (u1' & u2' & Hx & _). discriminate.
Qed.

(** Alice sends 200.00 to Bob and the storing of the second record is
    rejected: the answer is unsuccessful, yet Alice's balance is down by
    200.00 and Bob's up by 200.00. *)
Lemma failed_transfer_wrote_nothing_or_lost_a_record_witness :
  exists r s' upd,
    Faults.transferMoney (fun x => x) 77 (Ok tt) (Throw "unavailable")
      (Some TransferFacts.alice) "2222" 20000 TransferFacts.demoStore = (r, s', upd) /\
    success r = false /\
    upd (Some TransferFacts.alice) = Some TransferFacts.alice /\
    option_map balance (getUser "u1" s') = Some 80000 /\
    option_map balance (getUser "u2" s') = Some 25000 /\
    List.length (transactions s') = 1%nat.
Proof.
  destruct (Faults.transferMoney (fun x => x) 77 (Ok tt) (Throw "unavailable")
              (Some TransferFacts.alice) "2222" 20000 TransferFacts.demoStore)
    as [[r s'] upd] eqn:E.
  assert (Hf : success r = false /\
               option_map balance (getUser "u1" s') = Some 80000 /\
               option_map balance (getUser "u2" s') = Some 25000 /\
               List.length (transactions s') = 1%nat).
  { vm_compute in E. injection E as <- <- _. repeat split. }
  destruct Hf as (Hf & H1 & H2 & H3).
  exists r, s', upd. split; [reflexivity|]. split; [exact Hf|].
  destruct (failed_transfer_wrote_nothing_or_lost_a_record _ _ _ _ _ _ _ _ _ _ _ E Hf)
    as (Hupd & _ & _).
  split; [apply Hupd|]. split; [exact H1|]. split; [exact H2 | exact H3].
Defined.

(** Whatever other sessions did before the transaction ran, a successful
    transfer has a positive amount, goes to another user, found the sender
    with at least the amount in the transaction, and leaves the sender with
    exactly that balance minus the amount, which is not negative. *)
Theorem transfer_never_overdraws :
  forall others now currentUser rid amount s r s' upd,
    transferMoney others now currentUser rid amount s = (r, s', upd) ->
    success r = true ->
    exists cu sender recipient,
      currentUser = Some cu /\
      findRecipient rid s = Some recipient /\ fst recipient <> uid cu /\
      getUser (uid cu) (others s) = Some sender /\
      0 < amount <= balance sender /\
      option_map balance (getUser (uid cu) s') = Some (balance sender - amount) /\
      0 <= balance sender - amount.
Proof.
  intros others now currentUser rid amount s r s' upd H Hok.
  unfold transferMoney in H.
  destruct currentUser as [cu|]; [|injection H as <- _ _; discriminate].
  destruct (amount <=? 0) eqn:Hpos; [injection H as <- _ _; discriminate|].
  destruct (balance (data cu) <? amount); [injection H as <- _ _; discriminate|].
  destruct (findRecipient rid s) as [recipient|] eqn:Hfind;
    [|injection H as <- _ _; discriminate].
  destruct (String.eqb (fst recipient) (uid cu)) eqn:Hself;
    [injection H as <- _ _; discriminate|].
  apply String.eqb_neq in Hself. apply Z.leb_gt in Hpos.
  unfold runTransaction in H.
  destruct (transferTxn (uid cu) recipient amount (others s)) as [[u ws]|e] eqn:Hbody;
    [|injection H as <- _ _; discriminate].
  destruct (commit ws (others s)) as [s1|] eqn:Hcommit;
    [|injection H as <- _ _; discriminate].
  destruct (transferRecords now cu recipient amount) as [d c].
  injection H as _ <- _.
  destruct u. pose proof Hbody as Hbody0. unfold transferTxn in Hbody.
  destruct (getUser (uid cu) (others s)) as [sender|] eqn:Hsender; [|discriminate].
  destruct (balance sender <? amount) eqn:Hfunds; [discriminate|].
  apply Z.ltb_ge in Hfunds. injection Hbody as <-.
  destruct (TransferFacts.transfer_writes_commit _ _ _ _ _ _ Hself Hcommit) as [B1 _].
  exists cu, sender, recipient. repeat split; auto; try lia.
Qed.

(** Alice (1000.00) sends 200.00 to Bob while another session credits her
    50.00 before the transaction: she is left with 850.00. *)
Lemma transfer_never_overdraws_witness :
  exists r s' upd,
    transferMoney (TransferFacts.creditedElsewhere "u1" 5000) 77
      (Some TransferFacts.alice) "2222" 20000 TransferFacts.demoStore = (r, s', upd) /\
    success r = true /\
    option_map balance (getUser "u1" s') = Some 85000.
Proof.
  destruct (transferMoney (TransferFacts.creditedElsewhere "u1" 5000) 77
              (Some TransferFacts.alice) "2222" 20000 TransferFacts.demoStore)
    as [[r s'] upd] eqn:E.
  assert (Hok : success r = true) by (vm_compute in E; injection E as <- _ _; reflexivity).
  exists r, s', upd. split; [reflexivity|]. split; [exact Hok|].
  destruct (transfer_never_overdraws _ _ _ _ _ _ _ _ _ E Hok)
    as (cu & sender & recipient & Hcu & _ & _ & Hs & _ & B & _).
  injection Hcu as <-.
  change (getUser (uid TransferFacts.alice)
            (TransferFacts.creditedElsewhere "u1" 5000 TransferFacts.demoStore))
    with (Some (TransferFacts.customer "Alice" "alice" "1111" 105000)) in Hs.
  injection Hs as <-. exact B.
Defined.

(** An unsuccessful payment leaves the store as it was. *)
Theorem payment_failure_writes_nothing :
  forall currentUser accountId accountType paymentType customAmount s r s',
    makeAccountPayment currentUser accountId accountType paymentType customAmount s = (r, s') ->
    success r = false ->
    s' = s.
Proof.
  intros currentUser accountId accountType paymentType customAmount s r s' H Hfail.
  unfold makeAccountPayment, runTransaction in H.
  destruct currentUser as [cu|]; [|injection H as _ <-; reflexivity].
  destruct (paymentTxn cu accountId accountType paymentType customAmount s) as [[msg ws]|e].
  - destruct (commit ws s) as [s1|].
    + injection H as <- _. discriminate.
    + injection H as _ <-. reflexivity.
  - injection H as _ <-. reflexivity.
Qed.

(** Carol has 1000.00 in cash; a custom card payment of 2000.00 is refused
    and nothing changes. *)
Lemma payment_failure_writes_nothing_witness :
  exists r s',
    makeAccountPayment (Some PaymentFacts.carol) "1234" cardAccount custom (Some 200000)
      PaymentFacts.carolStore = (r, s') /\
    message r = "Insufficient funds." /\ s' = PaymentFacts.carolStore.
Proof.
  destruct (makeAccountPayment (Some PaymentFacts.carol) "1234" cardAccount custom
              (Some 200000) PaymentFacts.carolStore) as [r s'] eqn:E.
  assert (Hr : r = failure "Insufficient funds.")
    by (vm_compute in E; injection E as <- _; reflexivity).
  exists r, s'. split; [reflexivity|]. split; [rewrite Hr; reflexivity|].
  apply (payment_failure_writes_nothing _ _ _ _ _ _ _ _ E). rewrite Hr. reflexivity.
Defined.

Lemma applyWrite_frame :
  forall w s s',
    applyWrite w s = Some s' ->
    transactions s' = transactions s /\ insightDocs s' = insightDocs s.
Proof.
  intros w s s' H. destruct w; simpl in H;
    match type of H with
    | option_map _ ?x = _ => destruct x; simpl in H; [|discriminate]
    end; injection H as <-; auto.
Qed.

Lemma commit_frame :
  forall ws s s',
    commit ws s = Some s' ->
    transactions s' = transactions s /\ insightDocs s' = insightDocs s.
Proof.
  induction ws as [|w ws IH]; intros s s' H; simpl in H.
  - injection H as <-. auto.
  - destruct (applyWrite w s) as [s1|] eqn:E; [|discriminate].
    destruct (applyWrite_frame _ _ _ E) as [T1 I1].
    destruct (IH _ _ H) as [T2 I2]. split; congruence.
Qed.

(** What the writes of a payment of user [u] leave alone. *)
Definition onlyOf (u : string) (w : Write) : Prop :=
  match w with
  | UpdateUserBalance u' _ => u' = u
  | UpdateCardBalances u' _ _ _ => u' = u
  | UpdateLoanRemaining u' _ _ => u' = u
  | UpdateLoanStatus u' _ _ => u' = u
  end.

Lemma applyWrite_other_users :
  forall u w s s',
    onlyOf u w -> applyWrite w s = Some s' ->
    forall u', u' <> u ->
      getUser u' s' = getUser u' s /\
      (forall k, getCard u' k s' = getCard u' k s) /\
      (forall k, getLoan u' k s' = getLoan u' k s).
Proof.
  intros u w s s' Hw H u' Hne. unfold getUser, getCard, getLoan.
  destruct w; simpl in Hw; subst; simpl in H;
    match type of H with
    | option_map _ ?x = _ => destruct x eqn:U; simpl in H; [|discriminate]
    end; injection H as <-; simpl; repeat split; intros; try reflexivity.
  - apply (updateDoc_other _ String.eqb_eq _ _ _ _ _ U). assumption.
  - apply (updateDoc_other _ pathEqb_eq _ _ _ _ _ U). congruence.
  - apply (updateDoc_other _ pathEqb_eq _ _ _ _ _ U). congruence.
  - apply (updateDoc_other _ pathEqb_eq _ _ _ _ _ U). congruence.
Qed.

Lemma commit_other_users :
  forall u ws s s',
    Forall (onlyOf u) ws -> commit ws s = Some s' ->
    forall u', u' <> u ->
      getUser u' s' = getUser u' s /\
      (forall k, getCard u' k s' = getCard u' k s) /\
      (forall k, getLoan u' k s' = getLoan u' k s).
Proof.
  intros u ws. induction ws as [|w ws IH]; intros s s' Hall H u' Hne; simpl in H.
  - injection H as <-. auto.
  - inversion Hall as [|? ? Hw Hrest]; subst.
    destruct (applyWrite w s) as [s1|] eqn:E; [|discriminate].
    destruct (applyWrite_other_users _ _ _ _ Hw E u' Hne) as (A1 & A2 & A3).
    destruct (IH _ _ Hrest H u' Hne) as (B1 & B2 & B3).
    repeat split; intros; congruence.
Qed.

Lemma paymentTxn_writes_onlyOf :
  forall cu accountId accountType paymentType customAmount s msg ws,
    paymentTxn cu accountId accountType paymentType customAmount s = Ok (msg, ws) ->
    Forall (onlyOf (uid cu)) ws.
Proof.
  intros cu accountId accountType paymentType customAmount s msg ws H.
  unfold paymentTxn in H.
  destruct (getUser (uid cu) s); [|discriminate].
  destruct accountType.
  - destruct (findCard accountId cu); [|discriminate].
    repeat match type of H with
           | (if ?c then _ else _) = _ => destruct c; try discriminate
           end.
    injection H as _ <-. repeat constructor.
  - destruct (findLoan accountId cu); [|discriminate].
    cbv zeta in H.
    repeat match type of H with
           | (if ?c then _ else _) = _ => destruct c eqn:?; try discriminate
           end;
      injection H as _ <-; repeat constructor.
Qed.

(** A successful payment takes the cash from the payer's document alone and
    never leaves it negative; it adds no transaction record, and leaves the
    documents, cards and loans of every other user as they were. *)
Theorem payment_touches_only_the_payer :
  forall currentUser accountId accountType paymentType customAmount s r s',
    makeAccountPayment currentUser accountId accountType paymentType customAmount s = (r, s') ->
    success r = true ->
    exists cu before after,
      currentUser = Some cu /\
      getUser (uid cu) s = Some before /\
      getUser (uid cu) s' = Some after /\
      after = setBalance (balance after) before /\
      0 <= balance after /\
      transactions s' = transactions s /\
      (forall u, u <> uid cu ->
         getUser u s' = getUser u s /\
         (forall k, getCard u k s' = getCard u k s) /\
         (forall k, getLoan u k s' = getLoan u k s)).
Proof.
  intros currentUser accountId accountType paymentType customAmount s r s' H Hok.
  destruct (PaymentFacts.makeAccountPayment_success _ _ _ _ _ _ _ _ H Hok)
    as (cu & msg & ws & Hcu & Hbody & Hcommit).
  pose proof (paymentTxn_writes_onlyOf _ _ _ _ _ _ _ _ Hbody) as Hall.
  destruct (commit_frame _ _ _ Hcommit) as [Ht _].
  pose proof (commit_other_users _ _ _ _ Hall Hcommit) as Hothers.
  assert (Hfirst : exists b rest before,
             ws = UpdateUserBalance (uid cu) b :: rest /\
             getUser (uid cu) s = Some before /\ 0 <= b /\
             Forall (fun w => match w with UpdateUserBalance _ _ => False | _ => True end) rest).
  { unfold paymentTxn in Hbody.
    destruct (getUser (uid cu) s) as [userData|]; [|discriminate].
    destruct accountType.
    - destruct (findCard accountId cu); [|discriminate].
      destruct (_ <=? 0); [discriminate|].
      destruct (balance userData <? _) eqn:F; [discriminate|].
      apply Z.ltb_ge in F. injection Hbody as _ <-.
      eexists. eexists. exists userData. split; [reflexivity|]. split; [reflexivity|].
      split; [lia|]. repeat constructor.
    - destruct (findLoan accountId cu); [|discriminate].
      cbv zeta in Hbody.
      destruct (_ <=? 0); [discriminate|].
      destruct (balance userData <? _) eqn:F; [discriminate|].
      apply Z.ltb_ge in F.
      destruct (_ <=? 0); injection Hbody as _ <-;
        eexists; eexists; exists userData; (split; [reflexivity|]);
        (split; [reflexivity|]); (split; [lia|]); repeat constructor. }
  destruct Hfirst as (b & rest & before & -> & Hbefore & Hb & Hrest).
  simpl in Hcommit.
  destruct (updateDoc String.eqb (uid cu) (setBalance b) (users s)) as [us1|] eqn:U;
    simpl in Hcommit; [|discriminate].
  destruct (updateDoc_same _ _ _ _ _ U) as [d [G1 G2]].
  unfold getUser in Hbefore. rewrite G1 in Hbefore. injection Hbefore as ->.
  assert (Hkeep : forall rest0 s0 s1,
             Forall (fun w => match w with UpdateUserBalance _ _ => False | _ => True end) rest0 ->
             commit rest0 s0 = Some s1 -> users s1 = users s0).
  { induction rest0 as [|w rest0 IH]; intros s0 s1 Hf Hc; simpl in Hc.
    - injection Hc as <-. reflexivity.
    - inversion Hf as [|? ? Hw Hf']; subst.
      destruct (applyWrite w s0) as [s2|] eqn:E; [|discriminate].
      rewrite (IH _ _ Hf' Hc).
      destruct w; try contradiction; simpl in E;
        match type of E with
        | option_map _ ?x = _ => destruct x; simpl in E; [|discriminate]
        end; injection E as <-; reflexivity. }
  pose proof (Hkeep _ _ _ Hrest Hcommit) as Hus. simpl in Hus.
  exists cu, before, (setBalance b before).
  split; [exact Hcu|]. split; [exact G1|].
  split; [unfold getUser; rewrite Hus; exact G2|].
  split; [reflexivity|]. split; [exact Hb|]. split; [exact Ht|]. exact Hothers.
Qed.

Lemma payment_touches_only_the_payer_witness :
  exists r s',
    makeAccountPayment (Some PaymentFacts.carol) "1234" cardAccount minimum None
      PaymentFacts.carolStore = (r, s') /\
    success r = true /\
    option_map balance (getUser "u1" s') = Some 97500 /\
    transactions s' = [].
Proof.
  destruct (makeAccountPayment (Some PaymentFacts.carol) "1234" cardAccount minimum None
              PaymentFacts.carolStore) as [r s'] eqn:E.
  assert (Hok : success r = true) by (vm_compute in E; injection E as <- _; reflexivity).
  exists r, s'. split; [reflexivity|]. split; [exact Hok|].
  destruct (payment_touches_only_the_payer _ _ _ _ _ _ _ _ E Hok)
    as (cu & before & after & Hcu & _ & Ha & _ & _ & Ht & _).
  injection Hcu as <-. split; [|exact Ht].
  vm_compute in E. injection E as _ <-. reflexivity.
Defined.

(** A successful payment on a card held with 0 <= statement <= credit
    stores balances in the same order, and a credit balance no higher than
    the held one. *)
Theorem card_payment_keeps_balances_ordered :
  forall currentUser accountId paymentType customAmount s r s',
    makeAccountPayment currentUser accountId cardAccount paymentType customAmount s = (r, s') ->
    success r = true ->
    exists cu card stored,
      currentUser = Some cu /\
      findCard accountId cu = Some card /\
      getCard (uid cu) (cardNumber card) s' = Some stored /\
      (0 <= statementBalance card <= creditBalance card ->
       0 <= statementBalance stored <= creditBalance stored /\
       creditBalance stored <= creditBalance card).
Proof.
  intros currentUser accountId paymentType customAmount s r s' H Hok.
  destruct (PaymentFacts.card_payment_effect _ _ _ _ _ _ _ H Hok)
    as (cu & card & userData & before & Hcu & Hcard & Huser & Hreq & Hbal & G1 & G2).
  exists cu, card. eexists.
  repeat split; try eassumption; simpl; lia.
Qed.

Lemma card_payment_keeps_balances_ordered_witness :
  exists r s',
    makeAccountPayment (Some PaymentFacts.carol) "1234" cardAccount statement None
      PaymentFacts.carolStore = (r, s') /\
    success r = true /\
    option_map creditBalance (getCard "u1" "4000123412341234" s') = Some 5000 /\
    option_map statementBalance (getCard "u1" "4000123412341234" s') = Some 0.
Proof.
  destruct (makeAccountPayment (Some PaymentFacts.carol) "1234" cardAccount statement None
              PaymentFacts.carolStore) as [r s'] eqn:E.
  assert (Hok : success r = true) by (vm_compute in E; injection E as <- _; reflexivity).
  exists r, s'. split; [reflexivity|]. split; [exact Hok|].
  destruct (card_payment_keeps_balances_ordered _ _ _ _ _ _ _ E Hok)
    as (cu & card & stored & Hcu & Hc & G & Hord).
  injection Hcu as <-.
  change (findCard "1234" PaymentFacts.carol) with (Some PaymentFacts.demoCard) in Hc.
  injection Hc as <-. clear G Hord.
  vm_compute in E. injection E as _ <-. split; reflexivity.
Defined.

Lemma setCardBalances_twice :
  forall cb sb c, setCardBalances cb sb (setCardBalances cb sb c) = setCardBalances cb sb c.
Proof. reflexivity. Qed.

(** The payment does not refresh the client's copy of the card. Repeated
    with the same [currentUser], a successful card payment takes the cash a
    second time and stores the very same card balances again: the debt falls
    once, the cash twice. *)
Theorem repeated_card_payment_charges_twice :
  forall cu accountId paymentType customAmount s r1 s1 r2 s2,
    makeAccountPayment (Some cu) accountId cardAccount paymentType customAmount s = (r1, s1) ->
    success r1 = true ->
    makeAccountPayment (Some cu) accountId cardAccount paymentType customAmount s1 = (r2, s2) ->
    success r2 = true ->
    exists card before,
      findCard accountId cu = Some card /\
      getUser (uid cu) s = Some before /\
      option_map balance (getUser (uid cu) s2) =
        Some (balance before
              - 2 * PaymentFacts.cardRequested card paymentType customAmount) /\
      getCard (uid cu) (cardNumber card) s2 = getCard (uid cu) (cardNumber card) s1.
Proof.
  intros cu accountId paymentType customAmount s r1 s1 r2 s2 H1 Hok1 H2 Hok2.
  destruct (PaymentFacts.card_payment_effect _ _ _ _ _ _ _ H1 Hok1)
    as (cu1 & card & ud & before & Hcu & Hcard & Huser & Hreq & Hbal & G1 & G2).
  injection Hcu as <-.
  destruct (PaymentFacts.card_payment_effect _ _ _ _ _ _ _ H2 Hok2)
    as (cu2 & card2 & ud2 & before2 & Hcu2 & Hcard2 & Huser2 & Hreq2 & Hbal2 & G3 & G4).
  injection Hcu2 as <-. rewrite Hcard in Hcard2. injection Hcard2 as <-.
  rewrite G2 in G3. injection G3 as <-.
  rewrite Huser2 in Hbal. simpl in Hbal. injection Hbal as Hbal.
  exists card, ud. split; [exact Hcard|]. split; [exact Huser|].
  split; [rewrite Hbal2, Hbal; f_equal; lia|].
  rewrite G4, G2. reflexivity.
Qed.

(** Carol pays the minimum (25.00) twice without a refresh: 50.00 has left
    her cash, the card is where the first payment put it. *)
Lemma repeated_card_payment_charges_twice_witness :
  exists r1 s1 r2 s2,
    makeAccountPayment (Some PaymentFacts.carol) "1234" cardAccount minimum None
      PaymentFacts.carolStore = (r1, s1) /\ success r1 = true /\
    makeAccountPayment (Some PaymentFacts.carol) "1234" cardAccount minimum None s1
      = (r2, s2) /\ success r2 = true /\
    option_map balance (getUser "u1" s2) = Some 95000 /\
    getCard "u1" "4000123412341234" s2 = getCard "u1" "4000123412341234" s1.
Proof.
  destruct (makeAccountPayment (Some PaymentFacts.carol) "1234" cardAccount minimum None
              PaymentFacts.carolStore) as [r1 s1] eqn:E1.
  destruct (makeAccountPayment (Some PaymentFacts.carol) "1234" cardAccount minimum None s1)
    as [r2 s2] eqn:E2.
  assert (Hok1 : success r1 = true) by (vm_compute in E1; injection E1 as <- _; reflexivity).
  assert (Hok2 : success r2 = true).
  { pose proof E1 as E1'. vm_compute in E1'. injection E1' as _ <-.
    vm_compute in E2. injection E2 as <- _. reflexivity. }
  exists r1, s1, r2, s2. repeat split; try assumption; try reflexivity;
  destruct (repeated_card_payment_charges_twice _ _ _ _ _ _ _ _ _ E1 Hok1 E2 Hok2)
    as (card & before & Hc & Hu & B & G);
  change (findCard "1234" PaymentFacts.carol) with (Some PaymentFacts.demoCard) in Hc;
  injection Hc as <-;
  change (getUser (uid PaymentFacts.carol) PaymentFacts.carolStore)
    with (Some (data PaymentFacts.carol)) in Hu;
  injection Hu as <-.
  - exact B.
  - exact G.
Defined.

End LedgerMore.


(* ------------------------------------------------------------------ *)
(** ** Further properties of requestPaymentExtension *)

Module ExtensionMore.
Import Firestore FirestoreFacts JsDate DateFacts App.

Lemma updateDoc_again :
  forall (K D : Type) (eqb : K -> K -> bool) (k : K) (f : D -> D) docs docs',
    (forall d, f (f d) = f d) ->
    updateDoc eqb k f docs = Some docs' ->
    updateDoc eqb k f docs' = Some docs'.
Proof.
  intros K D eqb k f docs. induction docs as [|[k0 d0] rest IH]; intros docs' Hf H;
    simpl in H; [discriminate|].
  destruct (eqb k0 k) eqn:E.
  - injection H as <-. simpl. rewrite E, Hf. reflexivity.
  - destruct (updateDoc eqb k f rest) as [rest'|] eqn:U; [|discriminate].
    injection H as <-. simpl. rewrite E, (IH rest' Hf eq_refl). reflexivity.
Qed.

(** A draw below 0.1 refuses the extension of a logged-in user whatever the
    account; and unless the call succeeds (it is refused, finds no account,
    or throws), the store is left as it was. *)
Theorem extension_refusal_writes_nothing :
  forall LocalTZA random currentUser accountId type s o s',
    requestPaymentExtension LocalTZA random currentUser accountId type s = (o, s') ->
    (Qlt_bool random (1 # 10) = true -> currentUser <> None ->
     o = Ok (refused "We're sorry, but we were unable to process a payment extension for this account.")) /\
    ((forall r, o = Ok r -> ext_success r = false) -> s' = s).
Proof.
  intros LocalTZA random currentUser accountId type s o s' H.
  unfold requestPaymentExtension in H.
  destruct currentUser as [cu|].
  - destruct (Qlt_bool random (1 # 10)).
    + injection H as <- <-. auto.
    + split; [discriminate|]. intros Hfail.
      repeat match type of H with
             | context [match ?x with _ => _ end] =>
                 match x with
                 | type => destruct type
                 | findCard _ _ => destruct x
                 | findLoan _ _ => destruct x
                 | TimeClip _ => destruct x
                 | setDate _ _ _ => destruct x
                 | option_map _ _ => destruct x
                 end; cbv beta iota in H
             end;
      try (injection H as _ <-; reflexivity);
      injection H as <- _; specialize (Hfail _ eq_refl); discriminate.
  - injection H as <- <-. split; [intros _ Hn; contradiction|auto].
Qed.

Lemma extension_refusal_writes_nothing_witness :
  exists o s',
    requestPaymentExtension (fun _ _ => 0) (1 # 20) (Some PaymentFacts.carol) "1234"
      cardAccount PaymentFacts.carolStore = (o, s') /\
    (forall r, o = Ok r -> ext_success r = false) /\
    s' = PaymentFacts.carolStore.
Proof.
  destruct (requestPaymentExtension (fun _ _ => 0) (1 # 20) (Some PaymentFacts.carol) "1234"
              cardAccount PaymentFacts.carolStore) as [o s'] eqn:E.
  destruct (extension_refusal_writes_nothing _ _ _ _ _ _ _ _ E) as [Hlow Hsame].
  assert (Ho : forall r, o = Ok r -> ext_success r = false).
  { intros r Hr. rewrite (Hlow eq_refl ltac:(discriminate)) in Hr.
    injection Hr as <-. reflexivity. }
  exists o, s'. split; [reflexivity|]. split; [exact Ho|]. exact (Hsame Ho).
Defined.

(** A successful extension of a card changes the due date of that card's
    document and nothing else in the store. *)
Theorem card_extension_changes_only_the_due_date :
  forall LocalTZA random currentUser accountId s r s',
    requestPaymentExtension LocalTZA random currentUser accountId cardAccount s = (Ok r, s') ->
    ext_success r = true ->
    exists cu card before due,
      currentUser = Some cu /\
      findCard accountId cu = Some card /\
      newDueDate r = Some due /\
      getCard (uid cu) (cardNumber card) s = Some before /\
      getCard (uid cu) (cardNumber card) s' = Some (setCardDueDate due before) /\
      (forall k, k <> (uid cu, cardNumber card) ->
         getDoc pathEqb k (cardDocs s') = getDoc pathEqb k (cardDocs s)) /\
      users s' = users s /\ loanDocs s' = loanDocs s /\
      transactions s' = transactions s /\ insightDocs s' = insightDocs s.
Proof.
  intros LocalTZA random currentUser accountId s r s' H Hok.
  unfold requestPaymentExtension in H.
  destruct currentUser as [cu|]; [|injection H as <- _; discriminate].
  destruct (Qlt_bool random (1 # 10)); [injection H as <- _; discriminate|].
  destruct (findCard accountId cu) as [card|] eqn:Hc; [|injection H as <- _; discriminate].
  destruct (TimeClip (card_paymentDueDate card)) as [d0|]; [|discriminate].
  destruct (setDate LocalTZA d0 (getDate LocalTZA d0 + 14)) as [nd|]; [|discriminate].
  match type of H with
  | context [updateDoc pathEqb ?k ?f (cardDocs s)] =>
      destruct (updateDoc pathEqb k f (cardDocs s)) as [cs|] eqn:U
  end; simpl in H; [|discriminate].
  injection H as <- <-.
  destruct (updateDoc_same _ _ _ _ _ U) as [before [G1 G2]].
  exists cu, card, before, nd. unfold getCard. simpl.
  split; [reflexivity|]. split; [exact Hc|]. split; [reflexivity|].
  split; [exact G1|]. split; [exact G2|].
  split; [|auto].
  intros k Hk. apply (updateDoc_other _ pathEqb_eq _ _ _ _ _ U). exact Hk.
Qed.

Definition utcZone (t : Z) (isUTC : bool) : Z := 0.

Lemma card_extension_changes_only_the_due_date_witness :
  exists r s',
    requestPaymentExtension utcZone (1 # 2) (Some PaymentFacts.carol) "1234" cardAccount
      PaymentFacts.carolStore = (Ok r, s') /\
    ext_success r = true /\
    users s' = users PaymentFacts.carolStore /\
    loanDocs s' = loanDocs PaymentFacts.carolStore.
Proof.
  destruct (requestPaymentExtension utcZone (1 # 2) (Some PaymentFacts.carol) "1234"
              cardAccount PaymentFacts.carolStore) as [o s'] eqn:E.
  assert (Ho : exists r, o = Ok r /\ ext_success r = true).
  { vm_compute in E. injection E as <- _. eexists. split; reflexivity. }
  destruct Ho as [r [-> Hok]].
  exists r, s'. split; [reflexivity|]. split; [exact Hok|].
  destruct (card_extension_changes_only_the_due_date _ _ _ _ _ _ _ E Hok)
    as (cu & card & before & due & _ & _ & _ & _ & _ & _ & Hu & Hl & _).
  split; [exact Hu | exact Hl].
Defined.

(** The extension does not refresh the client's copy of the account. Asked
    again with the same [currentUser], an extension that succeeded returns
    the same new due date and leaves the store exactly as the first call left
    it: the due date moves once, not twice. *)
Theorem repeated_extension_moves_the_date_once :
  forall LocalTZA random random2 cu accountId type s r s1,
    requestPaymentExtension LocalTZA random (Some cu) accountId type s = (Ok r, s1) ->
    ext_success r = true ->
    Qlt_bool random2 (1 # 10) = false ->
    requestPaymentExtension LocalTZA random2 (Some cu) accountId type s1 = (Ok r, s1).
Proof.
  intros LocalTZA random random2 cu accountId type s r s1 H Hok Hdraw.
  unfold requestPaymentExtension in *. rewrite Hdraw.
  destruct (Qlt_bool random (1 # 10)); [injection H as <- _; discriminate|].
  destruct type.
  - destruct (findCard accountId cu) as [card|]; [|injection H as <- _; discriminate].
    destruct (TimeClip (card_paymentDueDate card)) as [d0|]; [|discriminate].
    destruct (setDate LocalTZA d0 (getDate LocalTZA d0 + 14)) as [nd|]; [|discriminate].
    match type of H with
    | context [updateDoc pathEqb ?k ?f (cardDocs s)] =>
        destruct (updateDoc pathEqb k f (cardDocs s)) as [cs|] eqn:U
    end; simpl in H; [|discriminate].
    injection H as <- <-. simpl.
    pose proof U as U2. apply updateDoc_again in U2; [|intro d; reflexivity].
    rewrite U2. reflexivity.
  - destruct (findLoan accountId cu) as [loan|]; [|injection H as <- _; discriminate].
    destruct (TimeClip (loan_paymentDueDate loan)) as [d0|]; [|discriminate].
    destruct (setDate LocalTZA d0 (getDate LocalTZA d0 + 14)) as [nd|]; [|discriminate].
    match type of H with
    | context [updateDoc pathEqb ?k ?f (loanDocs s)] =>
        destruct (updateDoc pathEqb k f (loanDocs s)) as [ls|] eqn:U
    end; simpl in H; [|discriminate].
    injection H as <- <-. simpl.
    pose proof U as U2. apply updateDoc_again in U2; [|intro d; reflexivity].
    rewrite U2. reflexivity.
Qed.

Lemma repeated_extension_moves_the_date_once_witness :
  exists r s1,
    requestPaymentExtension utcZone (1 # 2) (Some PaymentFacts.carol) "1234" cardAccount
      PaymentFacts.carolStore = (Ok r, s1) /\
    ext_success r = true /\
    requestPaymentExtension utcZone (3 # 4) (Some PaymentFacts.carol) "1234" cardAccount s1
      = (Ok r, s1).
Proof.
  destruct (requestPaymentExtension utcZone (1 # 2) (Some PaymentFacts.carol) "1234"
              cardAccount PaymentFacts.carolStore) as [o s1] eqn:E.
  assert (Ho : exists r, o = Ok r /\ ext_success r = true).
  { vm_compute in E. injection E as <- _. eexists. split; reflexivity. }
  destruct Ho as [r [-> Hok]].
  exists r, s1. split; [reflexivity|]. split; [exact Hok|].
  exact (repeated_extension_moves_the_date_once utcZone (1 # 2) (3 # 4) PaymentFacts.carol
           "1234" cardAccount PaymentFacts.carolStore r s1 E Hok eq_refl).
Defined.

End ExtensionMore.


(* ------------------------------------------------------------------ *)
(** ** Further properties of loadOrGenerateInsights *)

Module InsightsMore.
Import Firestore FirestoreFacts JsDate DateFacts App InsightsFacts.

Lemma getDoc_setDoc_same :
  forall (K D : Type) (eqb : K -> K -> bool),
    (forall a b, eqb a b = true <-> a = b) ->
    forall (k : K) (d : D) docs, getDoc eqb k (setDoc eqb k d docs) = Some d.
Proof.
  intros K D eqb Heq k d docs. induction docs as [|[k0 d0] rest IH]; simpl.
  - rewrite (eqb_refl_true eqb Heq). reflexivity.
  - destruct (eqb k0 k) eqn:E; simpl; rewrite E; [reflexivity | exact IH].
Qed.

(** The transactions the analysis is asked about: those of the combined
    history that are not older than sixty days on the client's calendar. *)
Definition recentHistory (LocalTZA : Z -> bool -> Z) (now : Z) (cu : User) (a : AppState)
  : list Transaction :=
  filter (fun tx => plusDays LocalTZA now (-60) <=? tx_timestamp tx) (combinedHistory cu a).

Lemma loadOrGenerateInsights_generates :
  forall LocalTZA generateContent now stamp a cu,
    isInsightsLoading a = false ->
    currentUser a = Some cu ->
    persistedInsights cu (db a) = None ->
    Z.abs (plusDays LocalTZA now (-60)) <= 8640000000000000 ->
    loadOrGenerateInsights LocalTZA generateContent now stamp a =
    match getComprehensiveInsights generateContent now (recentHistory LocalTZA now cu a)
            (analysisRequests a) with
    | (Some newInsightsData, requests) =>
        let newCachedInsights :=
          {| insight_data := newInsightsData; lastUpdated := stamp |} in
        (Some newCachedInsights,
         settle (Some newCachedInsights)
           (setInsightDocs (setDoc pathEqb (uid cu, "latest") newCachedInsights
                              (insightDocs (db a))) (db a))
           requests a)
    | (None, requests) => (None, settle None (db a) requests a)
    end.
Proof.
  intros LocalTZA generateContent now stamp a cu Hidle Hcu Hnone Hrange.
  unfold loadOrGenerateInsights, persistedInsights in *. rewrite Hidle, Hcu, Hnone.
  fold (combinedHistory cu a).
  replace (getDate LocalTZA now - 60) with (getDate LocalTZA now + -60) by lia.
  rewrite setDate_getDate_shift. unfold TimeClip.
  destruct (8640000000000000 <? Z.abs (plusDays LocalTZA now (-60))) eqn:E;
    [apply Z.ltb_lt in E; lia|].
  reflexivity.
Qed.

(** With no cache persisted, at least three debits within the last sixty
    days and an answer from the model: the call asks the model once, about
    exactly the transactions of the last sixty days, persists the answer
    stamped with the time of the call, and returns it; the next call returns
    that persisted cache and asks the model nothing. *)
Theorem insights_generated_once_then_cached :
  forall LocalTZA generateContent now stamp a cu parsed,
    isInsightsLoading a = false ->
    currentUser a = Some cu ->
    persistedInsights cu (db a) = None ->
    Z.abs (plusDays LocalTZA now (-60)) <= 8640000000000000 ->
    (3 <= List.length (filter isDebit (recentHistory LocalTZA now cu a)))%nat ->
    generateContent (recentHistory LocalTZA now cu a) now = Ok parsed ->
    exists a',
      loadOrGenerateInsights LocalTZA generateContent now stamp a =
        (Some {| insight_data := parsed; lastUpdated := stamp |}, a') /\
      analysisRequests a' = (analysisRequests a ++ [recentHistory LocalTZA now cu a])%list /\
      persistedInsights cu (db a') = Some {| insight_data := parsed; lastUpdated := stamp |} /\
      forall now2 stamp2,
      exists a'',
        loadOrGenerateInsights LocalTZA generateContent now2 stamp2 a' =
          (Some {| insight_data := parsed; lastUpdated := stamp |}, a'') /\
        analysisRequests a'' = analysisRequests a'.
Proof.
  intros LocalTZA generateContent now stamp a cu parsed Hidle Hcu Hnone Hrange Hdebits Hgen.
  rewrite (loadOrGenerateInsights_generates _ _ _ _ _ _ Hidle Hcu Hnone Hrange).
  unfold getComprehensiveInsights.
  assert (E : (Z.of_nat (List.length (filter isDebit (recentHistory LocalTZA now cu a))) <? 3)
              = false) by (apply Z.ltb_ge; lia).
  rewrite E, Hgen. cbv zeta.
  eexists. split; [reflexivity|]. split; [reflexivity|].
  assert (Hp : persistedInsights cu
                 (setInsightDocs
                    (setDoc pathEqb (uid cu, "latest")
                       {| insight_data := parsed; lastUpdated := stamp |}
                       (insightDocs (db a))) (db a))
               = Some {| insight_data := parsed; lastUpdated := stamp |}).
  { unfold persistedInsights. simpl. apply getDoc_setDoc_same. exact pathEqb_eq. }
  split; [exact Hp|].
  intros now2 stamp2. unfold loadOrGenerateInsights at 1.
  cbn [isInsightsLoading currentUser db settle insightDocs setInsightDocs].
  rewrite Hcu. unfold persistedInsights in Hp. cbn [insightDocs setInsightDocs] in Hp.
  rewrite Hp. eexists. split; reflexivity.
Qed.

(** With no cache persisted and at least three debits within the last sixty
    days, a failure of the model (or an answer that does not parse) is
    swallowed: the call returns nothing, has asked the model once, persists
    nothing and shows no insights. *)
Theorem insights_model_failure_persists_nothing :
  forall LocalTZA generateContent now stamp a cu e,
    isInsightsLoading a = false ->
    currentUser a = Some cu ->
    persistedInsights cu (db a) = None ->
    Z.abs (plusDays LocalTZA now (-60)) <= 8640000000000000 ->
    (3 <= List.length (filter isDebit (recentHistory LocalTZA now cu a)))%nat ->
    generateContent (recentHistory LocalTZA now cu a) now = Throw e ->
    exists a',
      loadOrGenerateInsights LocalTZA generateContent now stamp a = (None, a') /\
      analysisRequests a' = (analysisRequests a ++ [recentHistory LocalTZA now cu a])%list /\
      db a' = db a /\ insightsData a' = None /\ isInsightsLoading a' = false.
Proof.
  intros LocalTZA generateContent now stamp a cu e Hidle Hcu Hnone Hrange Hdebits Hgen.
  rewrite (loadOrGenerateInsights_generates _ _ _ _ _ _ Hidle Hcu Hnone Hrange).
  unfold getComprehensiveInsights.
  assert (E : (Z.of_nat (List.length (filter isDebit (recentHistory LocalTZA now cu a))) <? 3)
              = false) by (apply Z.ltb_ge; lia).
  rewrite E, Hgen. eexists. split; [reflexivity|]. simpl. auto.
Qed.

(** Three debits, the oldest seventy days before the call. *)
Definition debitAt (t : Z) (what : string) : Transaction :=
  {| tx_id := None; tx_uid := "u1"; tx_type := debit; tx_amount := 1000;
     tx_description := what; tx_timestamp := t; tx_partyName := "Shop";
     tx_category := "Shopping"; tx_cardId := None |}.

Definition callTime : Z := 1737799200000.

Definition fourDebits : list Transaction :=
  [debitAt (callTime - 70 * 86400000) "old"; debitAt (callTime - 10 * 86400000) "a";
   debitAt (callTime - 5 * 86400000) "b"; debitAt (callTime - 86400000) "c"].

Definition spender : AppState :=
  {| currentUser := Some TransferFacts.alice; clientTransactions := fourDebits;
     insightsData := None; isInsightsLoading := false;
     db := TransferFacts.demoStore; analysisRequests := [] |}.

Definition answers (txs : list Transaction) (today : Z)
  : Outcome (list (string * InsightsData)) :=
  Ok (insight_data someInsights).

Definition zoneUTC (t : Z) (isUTC : bool) : Z := 0.

Lemma insights_generated_once_then_cached_witness :
  exists a',
    fst (loadOrGenerateInsights zoneUTC answers callTime callTime spender)
      = Some {| insight_data := insight_data someInsights; lastUpdated := callTime |} /\
    snd (loadOrGenerateInsights zoneUTC answers callTime callTime spender) = a' /\
    analysisRequests a' = [tl fourDebits].
Proof.
  destruct (insights_generated_once_then_cached zoneUTC answers callTime callTime spender
              TransferFacts.alice (insight_data someInsights)
              eq_refl eq_refl eq_refl) as (a' & Hrun & Hreq & _).
  - vm_compute. discriminate.
  - vm_compute. lia.
  - reflexivity.
  - exists a'. rewrite Hrun. split; [reflexivity|]. split; [reflexivity|].
    rewrite Hreq. reflexivity.
Defined.

Definition silent (txs : list Transaction) (today : Z)
  : Outcome (list (string * InsightsData)) :=
  Throw "503".

Lemma insights_model_failure_persists_nothing_witness :
  exists a',
    loadOrGenerateInsights zoneUTC silent callTime callTime spender = (None, a') /\
    db a' = db spender /\ List.length (analysisRequests a') = 1%nat.
Proof.
  destruct (insights_model_failure_persists_nothing zoneUTC silent callTime callTime spender
              TransferFacts.alice "503" eq_refl eq_refl eq_refl)
    as (a' & Hrun & Hreq & Hdb & _).
  - vm_compute. discriminate.
  - vm_compute. lia.
  - reflexivity.
  - exists a'. split; [exact Hrun|]. split; [exact Hdb|]. rewrite Hreq. reflexivity.
Defined.

End InsightsMore.


(* ------------------------------------------------------------------ *)
(** ** Further properties of the conversation loop *)

Module ModalMore.
Import ChatModal LoopFacts.

(** The tools whose handling calls an operation of the context. *)
Definition operationTools : list string :=
  (sensitiveActions ++ ["getSpendingAnalysis"])%list.

(** The operation a call is handed to, with the arguments taken from the
    call, for a user named [fullName]. *)
Definition invocationOf (fullName : string) (call : FunctionCall) : option Invocation :=
  let args := match call_args call with Some a => a | None => noArgs end in
  let details :=
    withField "fullName" (JStr fullName)
      (match applicationDetails args with Some d => d | None => [] end) in
  match orElse (call_name call) None with
  | None => None
  | Some n =>
      if String.eqb n "initiatePayment" then
        Some (InvTransferMoney
                (orElse (recipientAccountNumber args)
                   (orElse (recipientEmail args)
                      (orElse (recipientPhone args) (recipientName args))))
                (amount args))
      else if String.eqb n "makeAccountPayment" then
        Some (InvMakeAccountPayment (accountId args) (accountType args) (paymentType args)
                (amount args))
      else if String.eqb n "requestPaymentExtension" then
        Some (InvRequestPaymentExtension (accountId args) (accountType args))
      else if String.eqb n "applyForCreditCard" then Some (InvAddCardToUser details)
      else if String.eqb n "applyForLoan" then Some (InvAddLoanToUser details)
      else if String.eqb n "getSpendingAnalysis" then Some InvLoadOrGenerateInsights
      else None
  end.

(** The ids of the messages shown are distinct and below the counter the
    next id is taken from. *)
Definition Fresh (shown : list Message) (next : nat) : Prop :=
  Forall (fun m => (id m < next)%nat) shown /\ NoDup (map id shown).

Definition idsFresh {A : Type} (w : Modal A) : Prop := Fresh (messages w) (messageId w).

Lemma Fresh_append :
  forall shown next s body,
    Fresh shown next ->
    Fresh (shown ++ [{| id := next; sender := s; text := body |}]) (S next).
Proof.
  intros shown next s body [Hlt Hnd]. split.
  - apply Forall_app. split.
    + eapply Forall_impl; [|exact Hlt]. simpl. intros m Hm. lia.
    + constructor; [simpl; lia|constructor].
  - rewrite map_app. simpl.
    apply NoDup_app; [exact Hnd | repeat constructor; simpl; tauto |].
    intros i Hi [<-|[]]. apply in_map_iff in Hi. destruct Hi as [m [Hid Hm]].
    rewrite Forall_forall in Hlt. specialize (Hlt m Hm). lia.
Qed.

Lemma Fresh_map :
  forall (f : Message -> Message) shown next,
    (forall m, id (f m) = id m) ->
    Fresh shown next -> Fresh (map f shown) next.
Proof.
  intros f shown next Hf [Hlt Hnd]. split.
  - apply Forall_map. eapply Forall_impl; [|exact Hlt]. simpl. intros m Hm.
    rewrite Hf. exact Hm.
  - rewrite map_map. rewrite (map_ext _ id Hf). exact Hnd.
Qed.

(** The text carried by the chunks of a stream, in order. *)
Fixpoint streamedText (chunks : list Chunk) : string :=
  match chunks with
  | [] => ""
  | c :: rest =>
      match orElse (chunk_text c) None with
      | Some txt => txt ++ streamedText rest
      | None => streamedText rest
      end
  end.

Lemma map_outside :
  forall (f : Message -> Message) (i : nat) shown,
    (forall m, id m <> i -> f m = m) ->
    ~ In i (map id shown) -> map f shown = shown.
Proof.
  intros f i shown Hf Hnot. induction shown as [|m shown IH]; simpl; [reflexivity|].
  simpl in Hnot. rewrite Hf by tauto. rewrite IH by tauto. reflexivity.
Qed.

Lemma append_empty : forall s : string, s ++ "" = s.
Proof. induction s; simpl; congruence. Qed.

Lemma append_append : forall a b c : string, (a ++ b) ++ c = a ++ (b ++ c).
Proof. induction a; intros b c; simpl; [reflexivity|]. rewrite IHa. reflexivity. Qed.

Section Loop.

Context {A : Type}.
Variable ctx : BankContext A.
Variable t : string -> list (string * string) -> string.
Variable language : string.
Variable LocalTZA : Z -> bool -> Z.

Ltac run_in H :=
  repeat (unfold bind, ret, done, invoke, record, await, onApp, appendMessage,
            nextMessageId, setMessages in H; cbn [fst snd negb app trace chat messages
            messageId inputValue isLoading] in H).

Ltac run :=
  repeat (unfold bind, ret, done, invoke, record, await, onApp, appendMessage,
            nextMessageId, setMessages; cbn [fst snd negb app trace chat messages
            messageId inputValue isLoading]).

(** A call without a name, with an unknown name, or of a tool that only
    reads (statement details, card transactions, balance, account
    transactions, existing insights) is answered from the values of the
    render: no operation of the context is called, nothing is thrown, and the
    state of the modal and of the application is left exactly as it was. *)
Theorem reading_tools_change_nothing :
  forall call w,
    (forall n, call_name call = Some n -> ~ In n operationTools) ->
    exists r, handleFunctionCall ctx language LocalTZA call w = (Ok r, w).
Proof.
  intros call w Hname. unfold handleFunctionCall.
  destruct (call_name call) as [n|] eqn:Hn; simpl; [|eexists; reflexivity].
  specialize (Hname n eq_refl).
  destruct (String.eqb n "") eqn:Hempty; [eexists; reflexivity|].
  destruct (currentUser ctx) as [cu|]; [|eexists; reflexivity].
  assert (Hnot : forall m, In m operationTools -> String.eqb n m = false).
  { intros m Hm. destruct (String.eqb n m) eqn:E; [|reflexivity].
    apply String.eqb_eq in E. subst m. contradiction. }
  rewrite (Hnot "initiatePayment"), (Hnot "makeAccountPayment"),
    (Hnot "requestPaymentExtension"), (Hnot "applyForCreditCard"),
    (Hnot "applyForLoan"), (Hnot "getSpendingAnalysis") by (simpl; tauto).
  repeat match goal with
         | |- context [if String.eqb n ?x then _ else _] => destruct (String.eqb n x)
         end;
  repeat match goal with
         | |- context [match ?x with Some _ => _ | None => _ end] => destruct x
         | |- context [if ?c then _ else _] => destruct c
         end;
  eexists; reflexivity.
Qed.

(** A call of one of the six tools that act (the five sensitive ones and
    the spending analysis), for a logged-in user, calls exactly one operation
    of the context: the one named for the tool, with the arguments of the
    call; a transfer is addressed to the account number if the call carries
    one, else to the e-mail, else to the phone, else to the name. *)
Theorem acting_tools_call_their_operation_once :
  forall call w cu n r w',
    currentUser ctx = Some cu ->
    call_name call = Some n ->
    In n operationTools ->
    handleFunctionCall ctx language LocalTZA call w = (r, w') ->
    exists i,
      invocationOf (name (data cu)) call = Some i /\
      trace w' = (trace w ++ [EvInvoke i])%list /\
      messages w' = messages w /\ messageId w' = messageId w.
Proof.
  intros call w cu n r w' Hcu Hn Hin H.
  unfold handleFunctionCall in H. unfold invocationOf.
  rewrite Hn in *. rewrite Hcu in H.
  simpl in Hin.
  repeat (destruct Hin as [<-|Hin]; [|]); try contradiction;
    cbn [orElse String.eqb Ascii.eqb Bool.eqb] in H |- *;
    run_in H;
    repeat match type of H with
           | context [match ?op (app w) with _ => _ end] =>
               destruct (op (app w)) as [[?|?] ?]
           | context [let (_, _) := ?op (app w) in _] =>
               destruct (op (app w)) as [? ?]
           end;
    run_in H;
    repeat match type of H with
           | context [match ?x with Some _ => _ | None => _ end] => destruct x
           | context [match ?x with [] => _ | _ :: _ => _ end] => destruct x
           end;
    run_in H;
    injection H as _ <-; eexists; cbn; auto.
Qed.

Lemma handleFunctionCall_messages :
  forall call w r w',
    handleFunctionCall ctx language LocalTZA call w = (r, w') ->
    messages w' = messages w /\ messageId w' = messageId w.
Proof.
  intros call w r w' H. unfold handleFunctionCall in H.
  destruct (orElse (call_name call) None) as [fname|];
    [|injection H as _ <-; auto].
  destruct (currentUser ctx) as [cu|];
    [|injection H as _ <-; auto].
  repeat match type of H with
         | (if ?c then _ else _) _ = _ => destruct c
         end;
    run_in H;
    repeat match type of H with
           | context [match ?op (app w) with _ => _ end] =>
               destruct (op (app w)) as [[?|?] ?]
           | context [let (_, _) := ?op (app w) in _] =>
               destruct (op (app w)) as [? ?]
           | context [match ?x with Some _ => _ | None => _ end] => destruct x
           | context [match ?x with [] => _ | _ :: _ => _ end] => destruct x
           | context [if ?c then _ else _] => destruct c
           end;
    run_in H;
    injection H as _ <-; cbn; auto.
Qed.

Lemma consume_fresh :
  forall stream acc mid collected (w : Modal A) r w',
    consume stream acc mid collected w = (r, w') ->
    idsFresh w -> idsFresh w'.
Proof.
  induction stream as [|item rest IH]; intros acc mid collected w r w' H Hf.
  - simpl in H. run_in H. injection H as _ <-. exact Hf.
  - destruct item as [chunk|e].
    + simpl in H. run_in H.
      destruct (orElse (chunk_text chunk) None) as [chunkText|].
      * destruct mid as [i|]; run_in H; apply IH in H; auto; unfold idsFresh in *; cbn.
        -- apply Fresh_map; [intro m; destruct (Nat.eqb (id m) i); reflexivity|exact Hf].
        -- apply Fresh_map;
             [intro m; destruct (Nat.eqb (id m) (messageId w)); reflexivity|].
           apply Fresh_append. exact Hf.
      * apply IH in H; auto.
    + simpl in H. injection H as _ <-. exact Hf.
Qed.

Lemma streamAndHandle_fresh :
  forall content w r w',
    streamAndHandle ctx content w = (r, w') -> idsFresh w -> idsFresh w'.
Proof.
  intros content w r w' H Hf. unfold streamAndHandle in H. run_in H.
  destruct (sendMessageStream ctx content (app w)) as [[stream|e] a1].
  - apply consume_fresh in H; auto.
  - injection H as _ <-. exact Hf.
Qed.

Lemma processCall_fresh :
  forall call w r w',
    processCall ctx t language LocalTZA call w = (r, w') -> idsFresh w -> idsFresh w'.
Proof.
  intros call w r w' H Hf. unfold processCall in H.
  destruct (isSensitive call).
  - run_in H. destruct (verifyCurrentUserWithPasskey ctx (app w)) as [verified a1].
    run_in H. destruct verified; run_in H.
    + match type of H with
      | context [handleFunctionCall ctx language LocalTZA call ?w0] =>
          destruct (handleFunctionCall ctx language LocalTZA call w0) as [[h|e] w1] eqn:Eh;
          apply handleFunctionCall_messages in Eh; cbn in Eh; destruct Eh as [Em Ei]
      end.
      * run_in H. injection H as _ <-. unfold idsFresh. cbn. rewrite Em, Ei.
        apply Fresh_append, Fresh_append. exact Hf.
      * injection H as _ <-. unfold idsFresh. rewrite Em, Ei.
        apply Fresh_append. exact Hf.
    + injection H as _ <-. unfold idsFresh. cbn.
      apply Fresh_append, Fresh_append. exact Hf.
  - run_in H.
    match type of H with
    | context [handleFunctionCall ctx language LocalTZA call ?w0] =>
        destruct (handleFunctionCall ctx language LocalTZA call w0) as [[h|e] w1] eqn:Eh;
        apply handleFunctionCall_messages in Eh; cbn in Eh; destruct Eh as [Em Ei]
    end.
    + run_in H. injection H as _ <-. unfold idsFresh. cbn. rewrite Em, Ei.
      apply Fresh_append. exact Hf.
    + injection H as _ <-. unfold idsFresh. rewrite Em, Ei. exact Hf.
Qed.

Lemma processCalls_fresh :
  forall calls parts w r w',
    processCalls ctx t language LocalTZA calls parts w = (r, w') -> idsFresh w -> idsFresh w'.
Proof.
  induction calls as [|call calls IH]; intros parts w r w' H Hf; simpl in H.
  - unfold ret in H. injection H as _ <-. exact Hf.
  - unfold bind in H.
    destruct (processCall ctx t language LocalTZA call w) as [[part|e] w1] eqn:Ec.
    + eapply IH; [exact H|]. eapply processCall_fresh; eauto.
    + injection H as _ <-. eapply processCall_fresh; eauto.
Qed.

Lemma turn_fresh :
  forall prompt w r w',
    turn ctx t language LocalTZA prompt w = (r, w') -> idsFresh w -> idsFresh w'.
Proof.
  intros prompt w r w' H Hf. unfold turn in H. unfold bind at 1 in H.
  destruct (streamAndHandle ctx (PromptText prompt) w) as [[calls|e] w1] eqn:E1;
    [|injection H as _ <-; eapply streamAndHandle_fresh; eauto].
  pose proof (streamAndHandle_fresh _ _ _ _ E1 Hf) as Hf1.
  destruct calls as [|call calls].
  - unfold ret in H. injection H as _ <-. exact Hf1.
  - unfold bind at 1 in H.
    destruct (processCalls ctx t language LocalTZA (call :: calls) [] w1)
      as [[parts|e] w2] eqn:E2;
      [|injection H as _ <-; eapply processCalls_fresh; eauto].
    pose proof (processCalls_fresh _ _ _ _ _ E2 Hf1) as Hf2.
    unfold bind at 1 in H.
    destruct (streamAndHandle ctx (ResponseParts parts) w2) as [[c2|e] w3] eqn:E3;
      [unfold ret in H|]; injection H as _ <-; eapply streamAndHandle_fresh; eauto.
Qed.

(** Message ids stay unique. If the ids of the messages shown are distinct
    and below the id counter, they still are after [handleSend], however the
    turn goes: every message added takes a new id, and the streamed text is
    written into the message of its own id only. *)
Theorem handleSend_keeps_message_ids_unique :
  forall prompt w,
    idsFresh w -> idsFresh (handleSend ctx t language LocalTZA prompt w).
Proof.
  intros prompt w Hf. unfold handleSend.
  destruct (isBlank prompt || isLoading w
            || match currentUser ctx with Some _ => false | None => true end
            || negb (chat w))%bool; [exact Hf|].
  run. unfold setLoading at 3.
  match goal with
  | |- context [turn ctx t language LocalTZA prompt ?w0] =>
      destruct (turn ctx t language LocalTZA prompt w0) as [r w3] eqn:E;
      assert (Hf3 : idsFresh w3)
        by (eapply turn_fresh; [exact E|]; unfold idsFresh; cbn;
            apply Fresh_append; exact Hf)
  end.
  destruct r; unfold idsFresh in *; cbn.
  - exact Hf3.
  - apply Fresh_append. exact Hf3.
Qed.


Lemma consume_text_started :
  forall stream acc i collected (w : Modal A) r w' shown,
    messages w = (shown ++ [{| id := i; sender := ai; text := acc |}])%list ->
    ~ In i (map id shown) ->
    consume stream acc (Some i) collected w = (r, w') ->
    messages w' =
      (shown ++ [{| id := i; sender := ai; text := acc ++ streamedText (yielded stream) |}])%list.
Proof using Type.
  induction stream as [|item rest IH]; intros acc i collected w r w' shown Hm Hnot H.
  - simpl in H. run_in H. injection H as _ <-. simpl. rewrite Hm, append_empty. reflexivity.
  - destruct item as [chunk|e].
    + simpl in H. run_in H. simpl.
      destruct (orElse (chunk_text chunk) None) as [chunkText|].
      * run_in H.
        match type of H with
        | consume rest _ _ _ ?w0 = _ =>
            assert (Hm0 : messages w0 =
                          (shown ++ [{| id := i; sender := ai; text := acc ++ chunkText |}])%list)
        end.
        { cbn. rewrite Hm, map_app. simpl. rewrite Nat.eqb_refl. f_equal.
          apply (map_outside _ i); [|exact Hnot].
          intros m Hne. apply Nat.eqb_neq in Hne. rewrite Hne. reflexivity. }
        rewrite (IH _ _ _ _ _ _ shown Hm0 Hnot H), append_append. reflexivity.
      * eapply IH; [|exact Hnot|exact H]. cbn. exact Hm.
    + simpl in H. injection H as _ <-. simpl. rewrite Hm, append_empty. reflexivity.
Qed.

Lemma consume_text :
  forall stream collected (w : Modal A) r w',
    idsFresh w ->
    consume stream "" None collected w = (r, w') ->
    messages w' =
      if String.eqb (streamedText (yielded stream)) "" then messages w
      else (messages w ++ [{| id := messageId w; sender := ai;
                              text := streamedText (yielded stream) |}])%list.
Proof using Type.
  induction stream as [|item rest IH]; intros collected w r w' Hf H.
  - simpl in H. run_in H. injection H as _ <-. reflexivity.
  - destruct item as [chunk|e].
    + simpl in H. run_in H. simpl.
      destruct (orElse (chunk_text chunk) None) as [chunkText|] eqn:Et.
      * run_in H.
        assert (Hne : String.eqb (chunkText ++ streamedText (yielded rest)) "" = false).
        { unfold orElse in Et. destruct (chunk_text chunk) as [s0|]; [|discriminate].
          destruct (String.eqb s0 "") eqn:E0; [discriminate|]. injection Et as <-.
          destruct s0; [discriminate|reflexivity]. }
        rewrite Hne.
        eapply consume_text_started in H.
        -- rewrite H. reflexivity.
        -- cbn. rewrite map_app. simpl. rewrite Nat.eqb_refl. f_equal.
           apply (map_outside _ (messageId w)).
           ++ intros m Hm. apply Nat.eqb_neq in Hm. rewrite Hm. reflexivity.
           ++ destruct Hf as [Hlt _]. intros Hin. apply in_map_iff in Hin.
              destruct Hin as [m [Hid Hm]]. rewrite Forall_forall in Hlt.
              specialize (Hlt m Hm). lia.
        -- destruct Hf as [Hlt _]. intros Hin. apply in_map_iff in Hin.
           destruct Hin as [m [Hid Hm]]. rewrite Forall_forall in Hlt.
           specialize (Hlt m Hm). lia.
      * apply IH in H; [|exact Hf]. cbn in H. exact H.
    + simpl in H. injection H as _ <-. reflexivity.
Qed.

(** The text of a response is shown as one message. With distinct message
    ids, after [streamAndHandle] has consumed the chunks the stream yielded
    (to its end, or to the error that broke it), the messages shown before
    are untouched, and the text of the chunks, in order, is the text of one
    new message of the assistant, if there was text, and of none
    otherwise. *)
Theorem streamed_text_is_one_message :
  forall content w r w' stream a1,
    idsFresh w ->
    sendMessageStream ctx content (app w) = (Ok stream, a1) ->
    streamAndHandle ctx content w = (r, w') ->
    messages w' =
      if String.eqb (streamedText (yielded stream)) "" then messages w
      else (messages w ++ [{| id := messageId w; sender := ai;
                              text := streamedText (yielded stream) |}])%list.
Proof using Type.
  intros content w r w' stream a1 Hf Hs H. unfold streamAndHandle in H. run_in H.
  rewrite Hs in H. apply consume_text in H; [|exact Hf]. exact H.
Qed.

Lemma turn_broken :
  forall prompt w stream a1 e,
    sendMessageStream ctx (PromptText prompt) (app w) = (Ok stream, a1) ->
    failure stream = Some e ->
    exists w3,
      turn ctx t language LocalTZA prompt w = (Throw e, w3) /\
      trace w3 =
        (trace w ++ EvSendMessageStream (PromptText prompt)
         :: map EvChunk (yielded stream))%list /\
      app w3 = a1.
Proof.
  intros prompt w stream a1 e Hs Hfail.
  unfold turn, streamAndHandle. run. rewrite Hs.
  match goal with
  | |- context [consume stream ?a ?m ?c ?w0] =>
      destruct (consume stream a m c w0) as [r w3] eqn:E;
      destruct (consume_spec _ _ _ _ _ _ _ E) as (Ht & Ha & Hr)
  end.
  rewrite Hfail in Hr. subst r. cbn in Ht, Ha.
  exists w3. split; [reflexivity|].
  split; [rewrite Ht, <- app_assoc; reflexivity | exact Ha].
Qed.

(** A stream that breaks executes nothing. When the stream opened for the
    prompt fails after some chunks, whatever calls those chunks carried,
    [handleSend] takes up no call, consults no gate and calls no operation:
    its events are the sending and the chunks received; it shows the generic
    error as the last message and ends not loading. *)
Theorem broken_stream_executes_nothing :
  forall prompt w stream a1 e,
    isBlank prompt = false ->
    isLoading w = false ->
    currentUser ctx <> None ->
    chat w = true ->
    sendMessageStream ctx (PromptText prompt) (app w) = (Ok stream, a1) ->
    failure stream = Some e ->
    let w' := handleSend ctx t language LocalTZA prompt w in
    trace w' =
      (trace w ++ EvSendMessageStream (PromptText prompt) :: map EvChunk (yielded stream))%list /\
    app w' = a1 /\
    isLoading w' = false /\
    exists shown i,
      messages w' = (shown ++ [{| id := i; sender := system; text := t "chatError" [] |}])%list /\
      messageId w' = S i.
Proof.
  intros prompt w stream a1 e Hprompt Hidle Huser Hchat Hs Hfail w'. subst w'.
  unfold handleSend. rewrite Hprompt, Hidle, Hchat.
  destruct (currentUser ctx) as [cu|]; [|contradiction]. cbn [orb negb].
  run. unfold setLoading at 3.
  match goal with
  | |- context [turn ctx t language LocalTZA prompt ?w0] =>
      destruct (turn_broken prompt w0 stream a1 e Hs Hfail) as (w3 & Hturn & Ht & Ha);
      rewrite Hturn
  end.
  cbn in Ht. cbn.
  split; [exact Ht|]. split; [exact Ha|]. split; [reflexivity|].
  eexists. eexists. split; reflexivity.
Qed.

End Loop.

(* witnesses *)
Lemma handleSend_keeps_message_ids_unique_witness :
  idsFresh openModal /\
  NoDup (map id (messages (handleSend double plain "en" utc "pay Bob and my card" openModal))).
Proof.
  assert (H0 : idsFresh openModal) by (split; constructor).
  split; [exact H0|].
  exact (proj2 (handleSend_keeps_message_ids_unique double plain "en" utc
                  "pay Bob and my card" openModal H0)).
Defined.

Lemma reading_tools_change_nothing_witness :
  (forall n, call_name askBalance = Some n -> ~ In n operationTools) /\
  exists r, handleFunctionCall double "en" utc askBalance openModal = (Ok r, openModal).
Proof.
  assert (H : forall n, call_name askBalance = Some n -> ~ In n operationTools).
  { intros n Hn. injection Hn as <-. simpl. intuition discriminate. }
  split; [exact H|].
  exact (reading_tools_change_nothing double plain "en" utc askBalance openModal H).
Defined.

Lemma acting_tools_call_their_operation_once_witness :
  exists r w',
    handleFunctionCall double "en" utc payBob openModal = (r, w') /\
    trace w' = [EvInvoke (InvTransferMoney (Some "Bob") (Some 20000))].
Proof.
  destruct (handleFunctionCall double "en" utc payBob openModal) as [r w'] eqn:E.
  exists r, w'. split; [reflexivity|].
  destruct (acting_tools_call_their_operation_once double "en" utc payBob openModal
              PaymentFacts.carol "initiatePayment" r w' eq_refl eq_refl
              ltac:(simpl; tauto) E) as (i & Hi & Ht & _).
  vm_compute in Hi. injection Hi as <-. exact Ht.
Defined.

(** A stream that carries the transfer and then breaks. *)
Definition breaking : BankContext nat :=
  {| currentUser := currentUser double; transactions := transactions double;
     insightsData := insightsData double;
     transferMoney := fun r a => transferMoney double r a;
     makeAccountPayment := fun i ty p a => makeAccountPayment double i ty p a;
     requestPaymentExtension := fun i ty => requestPaymentExtension double i ty;
     addCardToUser := fun d => addCardToUser double d;
     addLoanToUser := fun d => addLoanToUser double d;
     verifyCurrentUserWithPasskey := fun a => verifyCurrentUserWithPasskey double a;
     loadOrGenerateInsights := fun a => loadOrGenerateInsights double a;
     sendMessageStream := fun content a => (Ok [Yield firstChunk; Fail "reset"], a) |}.

Lemma broken_stream_executes_nothing_witness :
  trace (handleSend breaking plain "en" utc "pay Bob" openModal) =
    [EvSendMessageStream (PromptText "pay Bob"); EvChunk firstChunk] /\
  isLoading (handleSend breaking plain "en" utc "pay Bob" openModal) = false.
Proof.
  destruct (broken_stream_executes_nothing breaking plain "en" utc "pay Bob" openModal
              [Yield firstChunk; Fail "reset"] 0%nat "reset"
              eq_refl eq_refl ltac:(discriminate) eq_refl eq_refl eq_refl)
    as (Ht & _ & Hl & _).
  split; [exact Ht | exact Hl].
Defined.

Lemma streamed_text_is_one_message_witness :
  idsFresh openModal /\
  exists r w',
    streamAndHandle double (PromptText "pay") openModal = (r, w') /\
    messages w' = [{| id := 0%nat; sender := ai; text := "One moment." |}].
Proof.
  assert (H0 : idsFresh openModal) by (split; constructor).
  split; [exact H0|].
  destruct (streamAndHandle double (PromptText "pay") openModal) as [r w'] eqn:E.
  exists r, w'. split; [reflexivity|].
  exact (streamed_text_is_one_message double (PromptText "pay") openModal r w'
           [Yield firstChunk; Yield secondChunk] 0%nat H0 eq_refl E).
Defined.

End ModalMore.

(* ------------------------------------------------------------------ *)
(** ** Properties of addLoanToUser and addCardToUser *)

Module CreditMore.
Import Firestore FirestoreFacts JsString App Accounts.

Lemma getDoc_setDoc_other :
  forall (K D : Type) (eqb : K -> K -> bool),
    (forall a b, eqb a b = true <-> a = b) ->
    forall (k k' : K) (d : D) docs,
      k' <> k -> getDoc eqb k' (setDoc eqb k d docs) = getDoc eqb k' docs.
Proof.
  intros K D eqb Heq k k' d docs Hne. induction docs as [|[k0 d0] rest IH]; simpl.
  - rewrite (eqb_neq_false eqb Heq) by congruence. reflexivity.
  - destruct (eqb k0 k) eqn:E; simpl.
    + apply Heq in E. subst k0.
      rewrite (eqb_neq_false eqb Heq) by congruence. reflexivity.
    + destruct (eqb k0 k'); [reflexivity | exact IH].
Qed.

Lemma find_app :
  forall (X : Type) (f : X -> bool) (l1 l2 : list X),
    find f (l1 ++ l2) = match find f l1 with Some x => Some x | None => find f l2 end.
Proof.
  intros X f l1 l2. induction l1 as [|x l1 IH]; simpl; [reflexivity|].
  destruct (f x); [reflexivity | exact IH].
Qed.

Lemma setBalance_same : forall d, setBalance (balance d) d = d.
Proof. intros []. reflexivity. Qed.

(** What an approved application has done, step by step. *)
Lemma addLoanToUser_success :
  forall LocalTZA random payment clock currentUser details s r s' upd,
    addLoanToUser LocalTZA random payment clock currentUser details s = (Ok r, s', upd) ->
    loan_success r = true ->
    exists cu before us due,
      currentUser = Some cu /\
      getUser (uid cu) s = Some before /\
      updateDoc String.eqb (uid cu)
        (setBalance (balance before + requestedAmount details)) (users s) = Some us /\
      setMonth LocalTZA (atDue clock) (getMonth LocalTZA (atMonth clock) + 1) = Some due /\
      let loan :=
        {| loan_id := "loan-" ++ uid cu ++ "-" ++ JsDate.showInt (atId clock);
           loan_uid := uid cu; loanAmount := requestedAmount details;
           termMonths := loanTerm details; monthlyPayment := payment;
           remainingBalance := requestedAmount details; status := Active;
           loan_startDate := atStart clock; loan_paymentDueDate := due |} in
      newLoan r = Some loan /\
      s' = setLoanDocs (setDoc pathEqb (uid cu, loan_id loan) loan (loanDocs s))
             (setUsers us s) /\
      upd = option_map (addLoan (requestedAmount details) loan).
Proof.
  intros LocalTZA random payment clock currentUser details s r s' upd H Hok.
  unfold addLoanToUser in H.
  destruct currentUser as [cu|]; [|injection H as <- _ _; discriminate].
  destruct (Qlt_bool random (3 # 10)); [injection H as <- _ _; discriminate|].
  destruct (setMonth LocalTZA (atDue clock) (getMonth LocalTZA (atMonth clock) + 1))
    as [due|]; [|discriminate].
  unfold runTransaction, loanTxn in H.
  destruct (getUser (uid cu) s) as [before|] eqn:Hu; [|discriminate].
  cbn [commit applyWrite] in H.
  destruct (updateDoc String.eqb (uid cu)
              (setBalance (balance before + requestedAmount details)) (users s))
    as [us|] eqn:U; cbn [option_map] in H; [|discriminate].
  injection H as <- <- <-.
  exists cu, before, us, due. split; [reflexivity|]. split; [exact Hu|].
  split; [exact U|]. split; [reflexivity|]. cbv zeta. repeat split.
Qed.

(** With the loan document stored, the function is
    [Accounts.addLoanToUser]. *)
Lemma addLoanToUser_without_faults :
  forall LocalTZA random payment clock u currentUser details s,
    Faults.addLoanToUser LocalTZA random payment clock (Ok u) currentUser details s
    = addLoanToUser LocalTZA random payment clock currentUser details s.
Proof.
  intros LocalTZA random payment clock u currentUser details s.
  unfold Faults.addLoanToUser, addLoanToUser.
  destruct currentUser as [cu|]; [|reflexivity].
  destruct (Qlt_bool random (3 # 10)); [reflexivity|].
  destruct (setMonth LocalTZA (atDue clock) (getMonth LocalTZA (atMonth clock) + 1));
    [|reflexivity].
  cbv zeta.
  destruct (runTransaction (loanTxn (uid cu) (requestedAmount details)) s) as [[x|m] s1];
    reflexivity.
Qed.

(** A draw below 0.3 refuses the loan of a logged-in user whatever is asked.
    An application that does not end in an approval (it is refused, or the
    promise is rejected) leaves the client's copy of the user as it was; the
    store is as it was too, unless the transaction had committed and the
    storing of the loan document was rejected after it: then the promise is
    rejected, the amount has been paid into the stored balance, and no loan
    is stored for it. *)
Theorem unapproved_loan_wrote_nothing_or_only_the_credit :
  forall LocalTZA random payment clock setLoanDoc currentUser details s o s' upd,
    Faults.addLoanToUser LocalTZA random payment clock setLoanDoc currentUser details s
      = (o, s', upd) ->
    (Qlt_bool random (3 # 10) = true -> currentUser <> None ->
     exists r, o = Ok r /\ loan_success r = false /\ newLoan r = None) /\
    ((forall r, o = Ok r -> loan_success r = false) ->
     (forall prev, upd prev = prev) /\
     (s' = s \/
      exists cu before m,
        currentUser = Some cu /\
        getUser (uid cu) s = Some before /\
        setLoanDoc = Throw m /\ o = Throw m /\
        getUser (uid cu) s' =
          Some (setBalance (balance before + requestedAmount details) before) /\
        loanDocs s' = loanDocs s) /\
     ((exists u, setLoanDoc = Ok u) -> s' = s)).
Proof.
  intros LocalTZA random payment clock setLoanDoc currentUser details s o s' upd H.
  unfold Faults.addLoanToUser in H. split.
  - intros Hdraw Hcu. destruct currentUser as [cu|]; [|contradiction].
    rewrite Hdraw in H. injection H as <- _ _. eexists. repeat split.
  - intros Hfail.
    destruct currentUser as [cu|]; [|injection H as _ <- <-; auto].
    destruct (Qlt_bool random (3 # 10)); [injection H as _ <- <-; auto|].
    destruct (setMonth LocalTZA (atDue clock) (getMonth LocalTZA (atMonth clock) + 1))
      as [due|]; [|injection H as _ <- <-; auto].
    unfold runTransaction, loanTxn in H.
    destruct (getUser (uid cu) s) as [before|] eqn:Hu; [|injection H as _ <- <-; auto].
    cbn [commit applyWrite] in H.
    destruct (updateDoc String.eqb (uid cu)
                (setBalance (balance before + requestedAmount details)) (users s))
      as [us|] eqn:U; cbn [option_map] in H; [|injection H as _ <- <-; auto].
    destruct setLoanDoc as [u|m].
    + injection H as <- _ _. specialize (Hfail _ eq_refl). discriminate.
    + injection H as <- <- <-. split; [reflexivity|]. split.
      * right. exists cu, before, m.
        destruct (updateDoc_same _ _ _ _ _ U) as [d [G1 G2]].
        unfold getUser in Hu. rewrite G1 in Hu. injection Hu as ->.
        split; [reflexivity|]. split; [exact G1|]. split; [reflexivity|].
        split; [reflexivity|]. split; [exact G2 | reflexivity].
      * intros [u Hx]. discriminate.
Qed.

(** An approved loan is paid into the balance the store holds when the
    transaction runs, whatever the client's copy says, and is stored under
    its id as an active loan that owes the whole amount. No transaction
    record is written for it; cards, and the documents and loans of every
    other user, stay as they were. *)
Theorem approved_loan_is_paid_into_the_stored_balance :
  forall LocalTZA random payment clock currentUser details s r s' upd,
    addLoanToUser LocalTZA random payment clock currentUser details s = (Ok r, s', upd) ->
    loan_success r = true ->
    exists cu before loan,
      currentUser = Some cu /\
      getUser (uid cu) s = Some before /\
      getUser (uid cu) s' =
        Some (setBalance (balance before + requestedAmount details) before) /\
      newLoan r = Some loan /\
      getLoan (uid cu) (loan_id loan) s' = Some loan /\
      loan_uid loan = uid cu /\
      loanAmount loan = requestedAmount details /\
      remainingBalance loan = requestedAmount details /\
      status loan = Active /\
      transactions s' = transactions s /\
      cardDocs s' = cardDocs s /\
      (forall u, u <> uid cu ->
         getUser u s' = getUser u s /\ forall k, getLoan u k s' = getLoan u k s).
Proof.
  intros LocalTZA random payment clock currentUser details s r s' upd H Hok.
  destruct (addLoanToUser_success _ _ _ _ _ _ _ _ _ _ H Hok)
    as (cu & before & us & due & Hcu & Hu & U & _ & Hloan & Hs & _).
  cbv zeta in Hloan, Hs. subst s'.
  destruct (updateDoc_same _ _ _ _ _ U) as [d [G1 G2]].
  unfold getUser in Hu. rewrite G1 in Hu. injection Hu as ->.
  eexists cu, before, _. split; [exact Hcu|]. split; [exact G1|].
  split; [exact G2|]. split; [exact Hloan|].
  split; [unfold getLoan; simpl; apply InsightsMore.getDoc_setDoc_same; exact pathEqb_eq|].
  repeat (split; [reflexivity|]).
  intros u Hne. split.
  - unfold getUser. simpl. apply (updateDoc_other _ String.eqb_eq _ _ _ _ _ U). exact Hne.
  - intro k. unfold getLoan. simpl. apply getDoc_setDoc_other; [exact pathEqb_eq|].
    congruence.
Qed.

(** A loan can be repaid in full as soon as it is approved. After an
    approval of a positive amount to a user whose stored balance is not
    negative and who holds no loan under the new id, the store holds the
    balance with the amount paid in, and a payment in full of the new loan
    from the updated client copy succeeds: it takes the amount off that
    balance, and the loan is stored as paid off with nothing owed. *)
Theorem borrow_then_repay_in_full :
  forall LocalTZA random payment clock cu details s r s1 upd before,
    addLoanToUser LocalTZA random payment clock (Some cu) details s = (Ok r, s1, upd) ->
    loan_success r = true ->
    0 < requestedAmount details ->
    getUser (uid cu) s = Some before ->
    0 <= balance before ->
    findLoan ("loan-" ++ uid cu ++ "-" ++ JsDate.showInt (atId clock)) cu = None ->
    exists loan credited r2 s2,
      newLoan r = Some loan /\
      getUser (uid cu) s1 = Some credited /\
      balance credited = balance before + requestedAmount details /\
      makeAccountPayment (upd (Some cu)) (loan_id loan) loanAccount full None s1 = (r2, s2) /\
      success r2 = true /\
      option_map balance (getUser (uid cu) s2)
        = Some (balance credited - requestedAmount details) /\
      getLoan (uid cu) (loan_id loan) s2 =
        Some (setLoan 0 PaidOff (loan_paymentDueDate loan) loan).
Proof.
  intros LocalTZA random payment clock cu details s r s1 upd before H Hok Hpos Hu Hb Hnew.
  destruct (addLoanToUser_success _ _ _ _ _ _ _ _ _ _ H Hok)
    as (cu0 & before0 & us & due & Hcu & Hu0 & U & _ & Hloan & Hs & Hupd).
  injection Hcu as <-. rewrite Hu in Hu0. injection Hu0 as <-.
  cbv zeta in Hloan, Hs, Hupd.
  set (loan := {| loan_id := "loan-" ++ uid cu ++ "-" ++ JsDate.showInt (atId clock);
                  loan_uid := uid cu; loanAmount := requestedAmount details;
                  termMonths := loanTerm details; monthlyPayment := payment;
                  remainingBalance := requestedAmount details; status := Active;
                  loan_startDate := atStart clock; loan_paymentDueDate := due |}) in *.
  destruct (updateDoc_same _ _ _ _ _ U) as [d [G1 G2]].
  unfold getUser in Hu. rewrite G1 in Hu. injection Hu as ->.
  assert (Hget1 : getUser (uid cu) s1 =
                  Some (setBalance (balance before + requestedAmount details) before)).
  { rewrite Hs. exact G2. }
  assert (Hloan1 : getLoan (uid cu) (loan_id loan) s1 = Some loan).
  { rewrite Hs. unfold getLoan. simpl. apply InsightsMore.getDoc_setDoc_same. exact pathEqb_eq. }
  assert (Hfind : findLoan (loan_id loan) (addLoan (requestedAmount details) loan cu)
                  = Some loan).
  { unfold findLoan in *. simpl. rewrite find_app. simpl in Hnew. rewrite Hnew. simpl.
    rewrite String.eqb_refl. reflexivity. }
  (* the body of the payment *)
  assert (Hbody : paymentTxn (addLoan (requestedAmount details) loan cu) (loan_id loan)
                    loanAccount full None s1
                  = Ok ("Successfully paid off your loan (" ++ loan_id loan
                        ++ "). Congratulations!",
                        [UpdateUserBalance (uid cu) (balance before);
                         UpdateLoanRemaining (uid cu) (loan_id loan) 0;
                         UpdateLoanStatus (uid cu) (loan_id loan) PaidOff])).
  { unfold paymentTxn. change (uid (addLoan (requestedAmount details) loan cu)) with (uid cu).
    rewrite Hget1, Hfind. cbv zeta.
    change (remainingBalance loan) with (requestedAmount details).
    change (loan_id loan) with ("loan-" ++ uid cu ++ "-" ++ JsDate.showInt (atId clock)).
    destruct (requestedAmount details <=? 0) eqn:E1; [apply Z.leb_le in E1; lia|].
    rewrite Z.ltb_irrefl. rewrite balance_setBalance.
    destruct (balance before + requestedAmount details <? requestedAmount details) eqn:E2;
      [apply Z.ltb_lt in E2; lia|].
    replace (requestedAmount details - requestedAmount details) with 0 by lia.
    replace (balance before + requestedAmount details - requestedAmount details)
      with (balance before) by lia.
    reflexivity. }
  (* its writes commit *)
  destruct (updateDoc_defined String.eqb (uid cu) (setBalance (balance before)) _ _ Hget1)
    as [us2 U2].
  destruct (updateDoc_defined pathEqb (uid cu, loan_id loan)
              (fun x => setLoan 0 (status x) (loan_paymentDueDate x) x) _ _ Hloan1)
    as [ls2 U3].
  destruct (updateDoc_same _ _ _ _ _ U3) as [l3 [G3 G4]].
  unfold getLoan in Hloan1. rewrite Hloan1 in G3. injection G3 as <-.
  destruct (updateDoc_defined pathEqb (uid cu, loan_id loan)
              (fun x => setLoan (remainingBalance x) PaidOff (loan_paymentDueDate x) x) _ _ G4)
    as [ls3 U4].
  destruct (updateDoc_same _ _ _ _ _ U4) as [l4 [G5 G6]].
  rewrite G4 in G5. injection G5 as <-.
  destruct (updateDoc_same _ _ _ _ _ U2) as [d2 [G7 G8]].
  unfold getUser in Hget1. rewrite Hget1 in G7. injection G7 as <-.
  exists loan, (setBalance (balance before + requestedAmount details) before).
  eexists. eexists.
  split; [exact Hloan|]. split; [exact Hget1|]. split; [apply balance_setBalance|]. split.
  - rewrite Hupd. cbn [option_map]. unfold makeAccountPayment, runTransaction.
    rewrite Hbody. cbn [commit applyWrite]. rewrite U2.
    cbn [option_map loanDocs setUsers]. rewrite U3.
    cbn [option_map loanDocs setLoanDocs]. rewrite U4. reflexivity.
  - split; [reflexivity|]. split.
    + unfold getUser. cbn [users setLoanDocs setUsers]. rewrite G8.
      cbn [option_map]. rewrite !balance_setBalance. f_equal. lia.
    + unfold getLoan. cbn [loanDocs setLoanDocs setUsers]. rewrite G6. reflexivity.
Qed.

(** An approved card is stored under its number and added to the client's
    copy after the cards held before. The payment and extension operations
    find a card by its last four digits and take the first match: the new
    card is the one they find under its own last four digits unless a card
    held before ends in the same digits, and then they find that older
    card. *)
Theorem new_card_is_found_unless_shadowed :
  forall random generateMockCard cu details s r s' upd,
    addCardToUser random generateMockCard (Some cu) details s = (r, s', upd) ->
    card_success r = true ->
    exists card cu',
      card = generateMockCard (requestedCardType details) /\
      newCard r = Some card /\
      getCard (uid cu) (cardNumber card) s' = Some card /\
      upd (Some cu) = Some cu' /\
      cards cu' = (cards cu ++ [card])%list /\
      data cu' = data cu /\
      users s' = users s /\
      findCard (sliceLast 4 (cardNumber card)) cu' =
        match findCard (sliceLast 4 (cardNumber card)) cu with
        | Some older => Some older
        | None => Some card
        end.
Proof.
  intros random generateMockCard cu details s r s' upd H Hok.
  unfold addCardToUser in H.
  destruct (Qlt_bool random (2 # 10)); [injection H as <- _ _; discriminate|].
  injection H as <- <- <-.
  eexists. eexists. split; [reflexivity|]. split; [reflexivity|].
  split; [unfold getCard; simpl; apply InsightsMore.getDoc_setDoc_same; exact pathEqb_eq|].
  split; [reflexivity|]. repeat (split; [reflexivity|]).
  unfold findCard. simpl. rewrite find_app. simpl. rewrite String.eqb_refl. reflexivity.
Qed.

(* witnesses *)

Definition utc0 (t : Z) (isUTC : bool) : Z := 0.

(** 25 January 2025, 10:00 UTC. *)
Definition morning : Readings :=
  {| atId := 1737799200000; atStart := 1737799200000;
     atDue := 1737799200000; atMonth := 1737799200000 |}.

Definition carolAsks (amount : Z) : LoanApplicationDetails :=
  {| fullName := "Carol"; requestedAmount := amount; loanTerm := 24 |}.


(** Carol is approved for 10,000.00 and the storing of the loan document is
    rejected: the promise is rejected, her stored balance is up by the
    amount, and she has no new loan. *)
Lemma unapproved_loan_wrote_nothing_or_only_the_credit_witness :
  exists o s' upd,
    Faults.addLoanToUser utc0 (1 # 2) 44321 morning (Throw "unavailable")
      (Some PaymentFacts.carol) (carolAsks 1000000) PaymentFacts.carolStore = (o, s', upd) /\
    o = Throw "unavailable" /\
    upd (Some PaymentFacts.carol) = Some PaymentFacts.carol /\
    option_map balance (getUser "u1" s') = Some 1100000 /\
    loanDocs s' = loanDocs PaymentFacts.carolStore.
Proof.
  destruct (Faults.addLoanToUser utc0 (1 # 2) 44321 morning (Throw "unavailable")
              (Some PaymentFacts.carol) (carolAsks 1000000) PaymentFacts.carolStore)
    as [[o s'] upd] eqn:E.
  assert (Ho : o = Throw "unavailable" /\
               option_map balance (getUser "u1" s') = Some 1100000).
  { vm_compute in E. injection E as <- <- _. split; reflexivity. }
  destruct Ho as [Ho Hb].
  exists o, s', upd. split; [reflexivity|]. split; [exact Ho|].
  destruct (unapproved_loan_wrote_nothing_or_only_the_credit _ _ _ _ _ _ _ _ _ _ _ E)
    as [_ Hrest].
  destruct Hrest as (Hupd & Hs & _); [intros r Hr; rewrite Ho in Hr; discriminate|].
  split; [apply Hupd|]. split; [exact Hb|].
  destruct Hs as [Hs|(cu & before & m & _ & _ & _ & _ & _ & Hl)]; [|exact Hl].
  rewrite Hs. reflexivity.
Defined.

Lemma approved_loan_is_paid_into_the_stored_balance_witness :
  exists r s' upd,
    addLoanToUser utc0 (1 # 2) 44321 morning (Some PaymentFacts.carol) (carolAsks 1000000)
      PaymentFacts.carolStore = (Ok r, s', upd) /\
    loan_success r = true /\
    option_map balance (getUser "u1" s') = Some 1100000.
Proof.
  destruct (addLoanToUser utc0 (1 # 2) 44321 morning (Some PaymentFacts.carol)
              (carolAsks 1000000) PaymentFacts.carolStore) as [[o s'] upd] eqn:E.
  assert (Ho : exists r, o = Ok r /\ loan_success r = true).
  { vm_compute in E. injection E as <- _ _. eexists. split; reflexivity. }
  destruct Ho as (r & -> & Hok).
  exists r, s', upd. split; [reflexivity|]. split; [exact Hok|].
  destruct (approved_loan_is_paid_into_the_stored_balance _ _ _ _ _ _ _ _ _ _ E Hok)
    as (cu & before & loan & Hcu & Hb & Ha & _).
  injection Hcu as <-.
  change (getUser (uid PaymentFacts.carol) PaymentFacts.carolStore)
    with (Some (data PaymentFacts.carol)) in Hb.
  injection Hb as <-.
  change (uid PaymentFacts.carol) with "u1" in Ha. rewrite Ha. reflexivity.
Defined.

Lemma borrow_then_repay_in_full_witness :
  exists r s1 upd loan r2 s2,
    addLoanToUser utc0 (1 # 2) 44321 morning (Some PaymentFacts.carol) (carolAsks 1000000)
      PaymentFacts.carolStore = (Ok r, s1, upd) /\
    newLoan r = Some loan /\
    makeAccountPayment (upd (Some PaymentFacts.carol)) (loan_id loan) loanAccount full None s1
      = (r2, s2) /\
    success r2 = true /\
    option_map balance (getUser "u1" s1) = Some 1100000 /\
    option_map balance (getUser "u1" s2) = Some (1100000 - 1000000) /\
    option_map remainingBalance (getLoan "u1" (loan_id loan) s2) = Some 0.
Proof.
  destruct (addLoanToUser utc0 (1 # 2) 44321 morning (Some PaymentFacts.carol)
              (carolAsks 1000000) PaymentFacts.carolStore) as [[o s1] upd] eqn:E.
  assert (Ho : exists r, o = Ok r /\ loan_success r = true).
  { vm_compute in E. injection E as <- _ _. eexists. split; reflexivity. }
  destruct Ho as (r & -> & Hok).
  destruct (borrow_then_repay_in_full utc0 (1 # 2) 44321 morning PaymentFacts.carol
              (carolAsks 1000000) PaymentFacts.carolStore r s1 upd
              (data PaymentFacts.carol) E Hok ltac:(simpl; lia) eq_refl
              ltac:(simpl; lia) eq_refl)
    as (loan & credited & r2 & s2 & Hl & Hc & Hb & Hp & Hok2 & Hu & Hloan).
  exists r, s1, upd, loan, r2, s2.
  split; [reflexivity|]. split; [exact Hl|]. split; [exact Hp|]. split; [exact Hok2|].
  change (uid PaymentFacts.carol) with "u1" in *.
  change (balance (data PaymentFacts.carol)) with 100000 in Hb.
  change (requestedAmount (carolAsks 1000000)) with 1000000 in *.
  split; [rewrite Hc; cbn [option_map]; rewrite Hb; reflexivity|].
  split; [rewrite Hu, Hb; reflexivity|].
  rewrite Hloan. reflexivity.
Defined.

Definition minted (t : CardType) : Card :=
  {| cardNumber := "5000999900001234"; cardType := t; creditLimit := 500000;
     creditBalance := 120000; card_paymentDueDate := 1739577600000;
     statementBalance := 110000; minimumPayment := 2500; card_transactions := [] |}.

(** Carol holds a card ending in 1234; the new one ends in 1234 too. *)
Lemma new_card_is_found_unless_shadowed_witness :
  exists r s' upd cu',
    addCardToUser (1 # 2) minted (Some PaymentFacts.carol)
      {| card_fullName := "Carol"; requestedCardType := Mastercard |}
      PaymentFacts.carolStore = (r, s', upd) /\
    card_success r = true /\
    upd (Some PaymentFacts.carol) = Some cu' /\
    findCard "1234" cu' = Some PaymentFacts.demoCard.
Proof.
  destruct (addCardToUser (1 # 2) minted (Some PaymentFacts.carol)
              {| card_fullName := "Carol"; requestedCardType := Mastercard |}
              PaymentFacts.carolStore) as [[r s'] upd] eqn:E.
  assert (Hok : card_success r = true) by (vm_compute in E; injection E as <- _ _; reflexivity).
  destruct (new_card_is_found_unless_shadowed _ _ _ _ _ _ _ _ E Hok)
    as (card & cu' & -> & _ & _ & Hu & _ & _ & _ & Hf).
  exists r, s', upd, cu'. split; [reflexivity|]. split; [exact Hok|]. split; [exact Hu|].
  exact Hf.
Defined.

End CreditMore.

(* ------------------------------------------------------------------ *)
(** ** Properties of refreshInsights *)

Module RefreshMore.
Import Firestore FirestoreFacts JsDate DateFacts App Accounts InsightsFacts InsightsMore.

Lemma getDoc_cleared :
  forall (D : Type) (u k : string) (docs : list (string * string * D)),
    getDoc pathEqb (u, k)
      (filter (fun d => negb (String.eqb (fst (fst d)) u)) docs) = None.
Proof.
  intros D u k docs. induction docs as [|[[u0 k0] d0] rest IH]; simpl; [reflexivity|].
  destruct (String.eqb u0 u) eqn:E; simpl; [exact IH|].
  unfold pathEqb at 1. simpl. rewrite E. simpl. exact IH.
Qed.

Lemma getDoc_kept :
  forall (D : Type) (u u' k : string) (docs : list (string * string * D)),
    u' <> u ->
    getDoc pathEqb (u', k)
      (filter (fun d => negb (String.eqb (fst (fst d)) u)) docs) = getDoc pathEqb (u', k) docs.
Proof.
  intros D u u' k docs Hne. induction docs as [|[[u0 k0] d0] rest IH]; simpl; [reflexivity|].
  destruct (String.eqb u0 u) eqn:E; simpl.
  - apply String.eqb_eq in E. subst u0. unfold pathEqb at 2. simpl.
    destruct (String.eqb u u') eqn:E'; [apply String.eqb_eq in E'; congruence|].
    simpl. exact IH.
  - destruct (pathEqb (u0, k0) (u', k)); [reflexivity | exact IH].
Qed.

(** The state in which [refreshInsights] calls [loadOrGenerateInsights]. *)
Definition cleared (cu : User) (a : AppState) : AppState :=
  clearShown
    (setInsightDocs
       (filter (fun d => negb (String.eqb (fst (fst d)) (uid cu))) (insightDocs (db a)))
       (db a)) a.

Lemma refreshInsights_runs :
  forall LocalTZA generateContent now stamp a cu,
    isInsightsLoading a = false ->
    currentUser a = Some cu ->
    refreshInsights LocalTZA generateContent now stamp a =
      (Some "Insights are being refreshed.",
       snd (loadOrGenerateInsights LocalTZA generateContent now stamp (cleared cu a))).
Proof.
  intros LocalTZA generateContent now stamp a cu Hidle Hcu.
  unfold refreshInsights. rewrite Hidle, Hcu. fold (cleared cu a).
  destruct (loadOrGenerateInsights LocalTZA generateContent now stamp (cleared cu a)).
  reflexivity.
Qed.

(** A refresh asks the model again, whatever is cached. With a user logged
    in, no generation in progress, at least three debits within the last
    sixty days and an answer from the model, [refreshInsights] sends the
    model one request about the transactions of the last sixty days,
    persists and shows the new answer stamped with the time of the call, and
    leaves the cached analyses of every other user alone. *)
Theorem refresh_asks_the_model_again :
  forall LocalTZA generateContent now stamp a cu parsed,
    isInsightsLoading a = false ->
    currentUser a = Some cu ->
    Z.abs (plusDays LocalTZA now (-60)) <= 8640000000000000 ->
    (3 <= List.length (filter isDebit (recentHistory LocalTZA now cu a)))%nat ->
    generateContent (recentHistory LocalTZA now cu a) now = Ok parsed ->
    exists a',
      refreshInsights LocalTZA generateContent now stamp a =
        (Some "Insights are being refreshed.", a') /\
      analysisRequests a' = (analysisRequests a ++ [recentHistory LocalTZA now cu a])%list /\
      persistedInsights cu (db a') = Some {| insight_data := parsed; lastUpdated := stamp |} /\
      insightsData a' = Some {| insight_data := parsed; lastUpdated := stamp |} /\
      isInsightsLoading a' = false /\
      forall u k, u <> uid cu ->
        getDoc pathEqb (u, k) (insightDocs (db a')) = getDoc pathEqb (u, k) (insightDocs (db a)).
Proof.
  intros LocalTZA generateContent now stamp a cu parsed Hidle Hcu Hrange Hdebits Hgen.
  rewrite (refreshInsights_runs _ _ _ _ _ _ Hidle Hcu).
  assert (Hnone : persistedInsights cu (db (cleared cu a)) = None)
    by (unfold persistedInsights; simpl; apply getDoc_cleared).
  rewrite (loadOrGenerateInsights_generates LocalTZA generateContent now stamp (cleared cu a) cu
             Hidle Hcu Hnone Hrange).
  change (recentHistory LocalTZA now cu (cleared cu a)) with (recentHistory LocalTZA now cu a).
  unfold getComprehensiveInsights.
  assert (E : (Z.of_nat (List.length (filter isDebit (recentHistory LocalTZA now cu a))) <? 3)
              = false) by (apply Z.ltb_ge; lia).
  rewrite E, Hgen. cbv zeta.
  eexists. split; [reflexivity|]. split; [reflexivity|].
  split; [unfold persistedInsights; simpl; apply getDoc_setDoc_same; exact pathEqb_eq|].
  split; [reflexivity|]. split; [reflexivity|].
  intros u k Hne. simpl.
  rewrite CreditMore.getDoc_setDoc_other; [|exact pathEqb_eq|congruence].
  apply getDoc_kept. exact Hne.
Qed.

(** A refresh that gets no new analysis loses the old one. With a user
    logged in and no generation in progress, when the last sixty days hold
    fewer than three debits, or the model fails, [refreshInsights] leaves
    the user with no persisted cache and nothing shown, whatever was cached
    before, and still announces the refresh. *)
Theorem refresh_without_an_answer_loses_the_cache :
  forall LocalTZA generateContent now stamp a cu,
    isInsightsLoading a = false ->
    currentUser a = Some cu ->
    Z.abs (plusDays LocalTZA now (-60)) <= 8640000000000000 ->
    ((List.length (filter isDebit (recentHistory LocalTZA now cu a)) < 3)%nat \/
     exists e, generateContent (recentHistory LocalTZA now cu a) now = Throw e) ->
    exists a',
      refreshInsights LocalTZA generateContent now stamp a =
        (Some "Insights are being refreshed.", a') /\
      persistedInsights cu (db a') = None /\
      insightsData a' = None /\
      isInsightsLoading a' = false.
Proof.
  intros LocalTZA generateContent now stamp a cu Hidle Hcu Hrange Hno.
  rewrite (refreshInsights_runs _ _ _ _ _ _ Hidle Hcu).
  assert (Hnone : persistedInsights cu (db (cleared cu a)) = None)
    by (unfold persistedInsights; simpl; apply getDoc_cleared).
  rewrite (loadOrGenerateInsights_generates LocalTZA generateContent now stamp (cleared cu a) cu
             Hidle Hcu Hnone Hrange).
  change (recentHistory LocalTZA now cu (cleared cu a)) with (recentHistory LocalTZA now cu a).
  unfold getComprehensiveInsights.
  destruct (Z.of_nat (List.length (filter isDebit (recentHistory LocalTZA now cu a))) <? 3)
    eqn:E.
  - eexists. split; [reflexivity|]. split; [exact Hnone|]. split; reflexivity.
  - destruct Hno as [Hfew | [e He]]; [apply Z.ltb_ge in E; lia|].
    rewrite He. eexists. split; [reflexivity|]. split; [exact Hnone|]. split; reflexivity.
Qed.

(* witnesses *)

(** The spender of the four debits, with an analysis cached. *)
Definition cachedSpender : AppState :=
  {| currentUser := Some TransferFacts.alice; clientTransactions := fourDebits;
     insightsData := Some someInsights; isInsightsLoading := false;
     db := setInsightDocs [(("u1", "latest"), someInsights)] TransferFacts.demoStore;
     analysisRequests := [] |}.

Definition laterTime : Z := callTime + 3600000.

Lemma refresh_asks_the_model_again_witness :
  exists a',
    refreshInsights zoneUTC answers laterTime laterTime cachedSpender =
      (Some "Insights are being refreshed.", a') /\
    List.length (analysisRequests a') = 1%nat /\
    option_map lastUpdated (persistedInsights TransferFacts.alice (db a')) = Some laterTime.
Proof.
  destruct (refresh_asks_the_model_again zoneUTC answers laterTime laterTime cachedSpender
              TransferFacts.alice (insight_data someInsights) eq_refl eq_refl)
    as (a' & Hrun & Hreq & Hp & _).
  - vm_compute. discriminate.
  - vm_compute. lia.
  - reflexivity.
  - exists a'. split; [exact Hrun|]. rewrite Hreq, Hp. split; reflexivity.
Defined.

Lemma refresh_without_an_answer_loses_the_cache_witness :
  persistedInsights TransferFacts.alice (db cachedSpender) = Some someInsights /\
  exists a',
    refreshInsights zoneUTC silent laterTime laterTime cachedSpender =
      (Some "Insights are being refreshed.", a') /\
    persistedInsights TransferFacts.alice (db a') = None.
Proof.
  split; [reflexivity|].
  destruct (refresh_without_an_answer_loses_the_cache zoneUTC silent laterTime laterTime
              cachedSpender TransferFacts.alice eq_refl eq_refl)
    as (a' & Hrun & Hp & _).
  - vm_compute. discriminate.
  - right. exists "503". reflexivity.
  - exists a'. split; [exact Hrun | exact Hp].
Defined.

End RefreshMore.

(* ------------------------------------------------------------------ *)
(** ** Properties of registration, login and passkeys *)

Module SessionMore.
Import Firestore FirestoreFacts JsString App Session.

Lemma lowerAscii_idem : forall c, lowerAscii (lowerAscii c) = lowerAscii c.
Proof. intros [[] [] [] [] [] [] [] []]; reflexivity. Qed.

Lemma toLowerCase_idem : forall s, toLowerCase (toLowerCase s) = toLowerCase s.
Proof.
  induction s as [|c s IH]; simpl; [reflexivity|]. rewrite lowerAscii_idem, IH. reflexivity.
Qed.

Section Collection.
Context {K D : Type} (eqb : K -> K -> bool).
Hypothesis eqb_eq : forall a b, eqb a b = true <-> a = b.

Lemma setDoc_fresh :
  forall (k : K) (d : D) docs,
    getDoc eqb k docs = None -> setDoc eqb k d docs = (docs ++ [(k, d)])%list.
Proof.
  intros k d docs. induction docs as [|[k0 d0] rest IH]; intros H; simpl in *; [reflexivity|].
  destruct (eqb k0 k); [discriminate|]. rewrite (IH H). reflexivity.
Qed.

Lemma updateDoc_last :
  forall (k : K) (f : D -> D) (d : D) docs,
    getDoc eqb k docs = None ->
    updateDoc eqb k f (docs ++ [(k, d)])%list = Some (docs ++ [(k, f d)])%list.
Proof.
  intros k f d docs. induction docs as [|[k0 d0] rest IH]; intros H; simpl in *.
  - rewrite (eqb_refl_true eqb eqb_eq). reflexivity.
  - destruct (eqb k0 k); [discriminate|]. rewrite (IH H). reflexivity.
Qed.

Lemma getDoc_deleteDoc_same :
  forall (k : K) (docs : list (K * D)), getDoc eqb k (deleteDoc eqb k docs) = None.
Proof.
  intros k docs. induction docs as [|[k0 d0] rest IH]; simpl; [reflexivity|].
  destruct (eqb k0 k) eqn:E; simpl; [exact IH|]. rewrite E. exact IH.
Qed.

Lemma getDoc_deleteDoc_other :
  forall (k k' : K) (docs : list (K * D)),
    k' <> k -> getDoc eqb k' (deleteDoc eqb k docs) = getDoc eqb k' docs.
Proof.
  intros k k' docs Hne. induction docs as [|[k0 d0] rest IH]; simpl; [reflexivity|].
  destruct (eqb k0 k) eqn:E; simpl.
  - apply eqb_eq in E. subst k0.
    rewrite (eqb_neq_false eqb eqb_eq) by congruence. exact IH.
  - destruct (eqb k0 k'); [reflexivity | exact IH].
Qed.

End Collection.

Lemma where_eq_app :
  forall field value l1 l2,
    where_eq field value (l1 ++ l2) = (where_eq field value l1 ++ where_eq field value l2)%list.
Proof. intros. unfold where_eq. apply filter_app. Qed.

Lemma where_eq_none :
  forall field value docs,
    where_eq field value docs = [] -> ~ In value (map (fun d => field (snd d)) docs).
Proof.
  intros field value docs. induction docs as [|d rest IH]; simpl; intros H; [tauto|].
  destruct (String.eqb (field (snd d)) value) eqn:E; [discriminate|].
  apply String.eqb_neq in E. intros [Heq|Hin]; [contradiction | exact (IH H Hin)].
Qed.

Lemma registerPasskey_store :
  forall supported ceremony now userParam b c,
    store (snd (fst (registerPasskey supported ceremony now userParam b c))) = store b.
Proof.
  intros supported ceremony now userParam b c. unfold registerPasskey.
  destruct (match userParam with Some u => Some u | None => currentUser c end);
    [|reflexivity].
  destruct (negb supported); [reflexivity|].
  destruct ceremony as [id| |e]; try reflexivity.
  destruct (negb (String.eqb e "NotAllowedError")); reflexivity.
Qed.

(** The user document [registerUser] writes. *)
Definition newUserDoc (name username email phone accountNumber : string) : UserData :=
  Build_UserData name (toLowerCase username) 100000 accountNumber email phone false.

(** What a registration that returns a uid has done. *)
Lemma registerUser_success :
  forall createUser accountNumber newCard supported ceremony now
         name username email phone password createPasskey b c id b' c',
    registerUser createUser accountNumber newCard supported ceremony now
      name username email phone password createPasskey b c = (Some id, b', c') ->
    where_eq usernameOf (toLowerCase username) (users (store b)) = [] /\
    createUser = Ok (Some id) /\
    store b' =
      (let s1 := setUsers (setDoc String.eqb id
                             (newUserDoc name username email phone accountNumber)
                             (users (store b))) (store b) in
       setCardDocs (setDoc pathEqb (id, cardNumber newCard) newCard (cardDocs s1)) s1) /\
    (createPasskey = true -> supported = true ->
     forall rawId, ceremony = Created rawId ->
       passkeyDocs b' = setDoc pathEqb (id, Base64url.encode rawId) now (passkeyDocs b)).
Proof.
  intros createUser accountNumber newCard supported ceremony now
         name username email phone password createPasskey b c id b' c' H.
  unfold registerUser in H.
  destruct (where_eq usernameOf (toLowerCase username) (users (store b))) as [|x xs];
    [|discriminate].
  destruct createUser as [[uid0|]|m]; try discriminate.
  destruct createPasskey.
  - match type of H with
    | context [registerPasskey ?a1 ?a2 ?a3 ?a4 ?a5 ?a6] =>
        pose proof (registerPasskey_store a1 a2 a3 a4 a5 a6) as Hst;
        destruct (registerPasskey a1 a2 a3 a4 a5 a6) as [[ans b3] c3] eqn:R
    end.
    injection H as <- <- <-. simpl in Hst.
    split; [reflexivity|]. split; [reflexivity|]. split; [exact Hst|].
    intros _ -> rawId ->. unfold registerPasskey in R. cbn [negb] in R.
    injection R as _ <- _. reflexivity.
  - injection H as <- <- <-.
    split; [reflexivity|]. split; [reflexivity|]. split; [reflexivity|].
    intros Hc. discriminate.
Qed.

Lemma registerUser_failure :
  forall createUser accountNumber newCard supported ceremony now
         name username email phone password createPasskey b c b' c',
    registerUser createUser accountNumber newCard supported ceremony now
      name username email phone password createPasskey b c = (None, b', c') ->
    b' = b.
Proof.
  intros createUser accountNumber newCard supported ceremony now
         name username email phone password createPasskey b c b' c' H.
  unfold registerUser in H.
  destruct (where_eq usernameOf (toLowerCase username) (users (store b))) as [|x xs];
    [|injection H as <- _; reflexivity].
  destruct createUser as [[uid0|]|m]; try (injection H as <- _; reflexivity).
  destruct createPasskey.
  - destruct (registerPasskey _ _ _ _ _ _) as [[ans b3] c3]. discriminate.
  - discriminate.
Qed.

(** Registration keeps the usernames of the user documents distinct.
    Provided the usernames are distinct before and the authentication
    service hands out a uid no user document is stored under, they are
    distinct after [registerUser], whatever it returns. *)
Theorem registration_keeps_usernames_distinct :
  forall createUser accountNumber newCard supported ceremony now
         name username email phone password createPasskey b c r b' c',
    registerUser createUser accountNumber newCard supported ceremony now
      name username email phone password createPasskey b c = (r, b', c') ->
    NoDup (map (fun d => usernameOf (snd d)) (users (store b))) ->
    (forall id, createUser = Ok (Some id) -> getUser id (store b) = None) ->
    NoDup (map (fun d => usernameOf (snd d)) (users (store b'))).
Proof.
  intros createUser accountNumber newCard supported ceremony now
         name username email phone password createPasskey b c r b' c' H Hnd Hfresh.
  destruct r as [id|].
  - destruct (registerUser_success _ _ _ _ _ _ _ _ _ _ _ _ _ _ _ _ _ H)
      as (Hq & Hc & Hst & _).
    rewrite Hst. simpl. rewrite (setDoc_fresh String.eqb); [|exact (Hfresh _ Hc)].
    rewrite map_app. simpl.
    apply where_eq_none in Hq.
    clear - Hnd Hq.
    induction (map (fun d => usernameOf (snd d)) (users (store b))) as [|u us IH]; simpl.
    + constructor; [tauto | constructor].
    + inversion Hnd as [|? ? Hnot Hnd']; subst. constructor.
      * rewrite in_app_iff. simpl. simpl in Hq. intuition congruence.
      * apply IH; [exact Hnd' | simpl in Hq; tauto].
  - pose proof (registerUser_failure _ _ _ _ _ _ _ _ _ _ _ _ _ _ _ _ H) as Hb.
    rewrite Hb. exact Hnd.
Qed.

(** A user who has registered cannot log in with the password before the
    identity check. After a registration under a fresh uid, [login] with the
    same username answers false whatever the password, without a call to
    the authentication service, and records the uid for the identity check;
    once [updateUserKycStatus] has marked that uid verified, [login] asks the
    authentication service with the registered e-mail address and answers
    what it answers. *)
Theorem password_login_waits_for_identity_check :
  forall createUser accountNumber newCard supported ceremony now
         name username email phone password createPasskey b c id b1 c1,
    registerUser createUser accountNumber newCard supported ceremony now
      name username email phone password createPasskey b c = (Some id, b1, c1) ->
    getUser id (store b) = None ->
    (forall signIn attempt c2,
        login signIn username attempt b1 c2 =
          (false,
           setKycUserId (Some id)
             (showToast "Please complete identity verification first." toastError c2))) /\
    exists b2,
      updateUserKycStatus id true b1 = (Ok tt, b2) /\
      forall signIn attempt c2,
        login signIn username attempt b2 c2 =
          (match signIn with Ok _ => true | Throw _ => false end,
           callAuth (SignInWithEmailAndPassword email attempt) c2).
Proof.
  intros createUser accountNumber newCard supported ceremony now
         name username email phone password createPasskey b c id b1 c1 H Hfresh.
  destruct (registerUser_success _ _ _ _ _ _ _ _ _ _ _ _ _ _ _ _ _ H)
    as (Hq & Hc & Hst & _).
  assert (Hus : users (store b1) =
                (users (store b)
                 ++ [(id, newUserDoc name username email phone accountNumber)])%list).
  { rewrite Hst. simpl. apply setDoc_fresh. exact Hfresh. }
  assert (Hfound : forall d,
             usernameOf d = toLowerCase username ->
             where_eq usernameOf (toLowerCase username) (users (store b) ++ [(id, d)])%list
             = [(id, d)]).
  { intros d Hd. rewrite where_eq_app, Hq. unfold where_eq. simpl.
    rewrite Hd, String.eqb_refl. reflexivity. }
  split.
  - intros signIn attempt c2. unfold login. rewrite Hus, Hfound by reflexivity. reflexivity.
  - unfold updateUserKycStatus. rewrite Hus.
    rewrite (updateDoc_last String.eqb String.eqb_eq) by exact Hfresh.
    eexists. split; [reflexivity|].
    intros signIn attempt c2. unfold login. simpl.
    rewrite Hfound by reflexivity. simpl. destruct signIn; reflexivity.
Qed.

Lemma getDoc_ofUser :
  forall (D : Type) (u k : string) (docs : list (string * string * D)),
    getDoc pathEqb (u, k) (ofUser u docs) = getDoc pathEqb (u, k) docs.
Proof.
  intros D u k docs. induction docs as [|[[u0 k0] d0] rest IH]; simpl; [reflexivity|].
  destruct (String.eqb u0 u) eqn:E; simpl.
  - destruct (pathEqb (u0, k0) (u, k)); [reflexivity | exact IH].
  - unfold pathEqb at 2. simpl. rewrite E. simpl. exact IH.
Qed.

(** The passkey login asks for no identity check. After a registration
    under a fresh uid that created a passkey, [loginWithPasskey] with an
    assertion for that credential and the user handle given at its creation
    (the username, lower-cased) answers true and loads the new user, whose
    document still says that the identity is not verified. *)
Theorem passkey_login_skips_identity_check :
  forall createUser accountNumber newCard rawId now
         name username email phone password b c id b1 c1,
    registerUser createUser accountNumber newCard true (Created rawId) now
      name username email phone password true b c = (Some id, b1, c1) ->
    getUser id (store b) = None ->
    forall c2,
    exists c3 u,
      loginWithPasskey true (Discovered rawId (Some (toLowerCase username))) b1 c2
        = (true, c3) /\
      currentUser c3 = Some u /\
      uid u = id /\
      data u = newUserDoc name username email phone accountNumber /\
      kycVerified (data u) = false /\
      In newCard (cards u) /\
      In {| passkey_id := Base64url.encode rawId; created := now |} (passkeys c3) /\
      authCalls c3 = authCalls c2.
Proof.
  intros createUser accountNumber newCard rawId now
         fullName handle mail tel secret b c id b1 c1 H Hfresh c2.
  destruct (registerUser_success _ _ _ _ _ _ _ _ _ _ _ _ _ _ _ _ _ H)
    as (Hq & Hc & Hst & Hpk).
  specialize (Hpk eq_refl eq_refl rawId eq_refl).
  set (pk := Base64url.encode rawId) in *.
  assert (Hus : users (store b1) =
                (users (store b)
                 ++ [(id, newUserDoc fullName handle mail tel accountNumber)])%list).
  { rewrite Hst. simpl. apply setDoc_fresh. exact Hfresh. }
  assert (Hget : getUser id (store b1)
                 = Some (newUserDoc fullName handle mail tel accountNumber)).
  { unfold getUser. rewrite Hst. simpl. apply InsightsMore.getDoc_setDoc_same.
    exact String.eqb_eq. }
  assert (Hpass : getDoc pathEqb (id, pk) (passkeyDocs b1) = Some now).
  { rewrite Hpk. apply InsightsMore.getDoc_setDoc_same. exact pathEqb_eq. }
  assert (Hcard : getDoc pathEqb (id, cardNumber newCard) (cardDocs (store b1)) = Some newCard).
  { rewrite Hst. simpl. apply InsightsMore.getDoc_setDoc_same. exact pathEqb_eq. }
  unfold loginWithPasskey. cbn [negb]. rewrite toLowerCase_idem, Hus, where_eq_app, Hq.
  unfold where_eq at 1. cbn [filter app snd usernameOf newUserDoc username].
  rewrite String.eqb_refl. cbv zeta. fold pk. rewrite Hpass.
  unfold loadUserAndData. rewrite Hget.
  eexists. eexists. split; [reflexivity|]. cbn. split; [reflexivity|].
  split; [reflexivity|]. split; [reflexivity|]. split; [reflexivity|]. split.
  - rewrite <- getDoc_ofUser in Hcard.
    clear - Hcard. induction (ofUser id (cardDocs (store b1))) as [|[k0 c0] rest IH];
      simpl in *; [discriminate|].
    destruct (pathEqb k0 (id, cardNumber newCard)).
    + injection Hcard as ->. left. reflexivity.
    + right. exact (IH Hcard).
  - split; [|reflexivity].
    rewrite <- getDoc_ofUser in Hpass.
    clear - Hpass. induction (ofUser id (passkeyDocs b1)) as [|[k0 t0] rest IH];
      simpl in *; [discriminate|].
    destruct (pathEqb k0 (id, pk)) eqn:E.
    + injection Hpass as ->. apply pathEqb_eq in E. subst k0. left. reflexivity.
    + right. exact (IH Hpass).
Qed.

(** A removed passkey is gone from the store and from the client. After
    [removePasskey], a passkey login with that credential for the user is
    not recognized and loads nothing; the client's list holds no passkey of
    that id and keeps every other one; the other passkey documents are as
    they were; and if the user had no other passkey, the gate of the
    sensitive actions answers false without a ceremony. *)
Theorem removed_passkey_opens_nothing :
  forall passkeyId b c cu b' c',
    removePasskey passkeyId b c = (b', c') ->
    currentUser c = Some cu ->
    (forall rawId handle d rest c0,
        Base64url.encode rawId = passkeyId ->
        where_eq usernameOf (toLowerCase handle) (users (store b')) = (uid cu, d) :: rest ->
        fst (loginWithPasskey true (Discovered rawId (Some handle)) b' c0) = false /\
        currentUser (snd (loginWithPasskey true (Discovered rawId (Some handle)) b' c0))
          = currentUser c0) /\
    ~ In passkeyId (map passkey_id (passkeys c')) /\
    (forall p, In p (passkeys c) -> passkey_id p <> passkeyId -> In p (passkeys c')) /\
    (forall k, k <> (uid cu, passkeyId) ->
               getDoc pathEqb k (passkeyDocs b') = getDoc pathEqb k (passkeyDocs b)) /\
    store b' = store b /\
    ((forall p, In p (passkeys c) -> passkey_id p = passkeyId) ->
     forall supported ceremony,
       verifyCurrentUserWithPasskey (currentUser c') supported (passkeys c') ceremony
       = (false, None)).
Proof.
  intros passkeyId b c cu b' c' H Hcu. unfold removePasskey in H. rewrite Hcu in H.
  injection H as <- <-. split; [|split; [|split; [|split; [|split]]]].
  - intros rawId handle d rest c0 Hid Hq. unfold loginWithPasskey. cbn [negb].
    cbn [store setPasskeyDocs] in Hq |- *. rewrite Hq, Hid.
    cbn [passkeyDocs setPasskeyDocs].
    rewrite (getDoc_deleteDoc_same pathEqb). split; reflexivity.
  - cbn. intros Hin. apply in_map_iff in Hin. destruct Hin as [p [Hid Hp]].
    apply filter_In in Hp. destruct Hp as [_ Hp]. rewrite Hid, String.eqb_refl in Hp.
    discriminate.
  - intros p Hin Hne. cbn. apply filter_In. split; [exact Hin|].
    apply String.eqb_neq in Hne. rewrite Hne. reflexivity.
  - intros k Hne. cbn. apply (getDoc_deleteDoc_other pathEqb pathEqb_eq). exact Hne.
  - reflexivity.
  - intros Hall supported ceremony. cbn [passkeys showToast setPasskeys currentUser].
    assert (Hnil : filter (fun p => negb (String.eqb (passkey_id p) passkeyId)) (passkeys c)
                   = []).
    { clear - Hall. induction (passkeys c) as [|p ps IH]; simpl; [reflexivity|].
      rewrite (Hall p (or_introl eq_refl)), String.eqb_refl. simpl.
      apply IH. intros q Hq. apply Hall. right. exact Hq. }
    rewrite Hnil. unfold verifyCurrentUserWithPasskey. rewrite Hcu.
    destruct supported; reflexivity.
Qed.

(** Where the payment writes the card, and what a reload of the cards then
    finds under the same last four digits. *)
Lemma paid_card_is_reloaded :
  forall (g : Card -> bool) (userId : string) cb sb card docs,
    (forall k c, In (k, c) docs -> snd k = cardNumber c) ->
    (forall c c', cardNumber c = cardNumber c' -> g c = g c') ->
    find g (map snd (ofUser userId docs)) = Some card ->
    exists docs',
      updateDoc pathEqb (userId, cardNumber card) (setCardBalances cb sb) docs = Some docs' /\
      find g (map snd (ofUser userId docs')) = Some (setCardBalances cb sb card).
Proof.
  intros g userId cb sb card docs Hkey Hg.
  induction docs as [|[[u0 k0] c0] rest IH]; intros Hfind; simpl in *; [discriminate|].
  assert (Hk0 : k0 = cardNumber c0) by (apply (Hkey (u0, k0) c0); left; reflexivity).
  assert (Hrest : forall k c, In (k, c) rest -> snd k = cardNumber c)
    by (intros k c Hin; apply Hkey; right; exact Hin).
  destruct (String.eqb u0 userId) eqn:Eu.
  - simpl in Hfind. destruct (g c0) eqn:Eg.
    + injection Hfind as <-. apply String.eqb_eq in Eu. subst u0 k0.
      replace (pathEqb (userId, cardNumber c0) (userId, cardNumber c0)) with true
        by (symmetry; apply pathEqb_eq; reflexivity).
      eexists. split; [reflexivity|]. simpl. rewrite String.eqb_refl. simpl.
      rewrite (Hg (setCardBalances cb sb c0) c0) by reflexivity. rewrite Eg. reflexivity.
    + destruct (pathEqb (u0, k0) (userId, cardNumber card)) eqn:Ep.
      * apply pathEqb_eq in Ep. injection Ep as _ Hnum. subst k0.
        apply find_some in Hfind. destruct Hfind as [_ Hgc].
        rewrite (Hg c0 card Hnum) in Eg. congruence.
      * destruct (IH Hrest Hfind) as (docs' & U & F). rewrite U. simpl.
        eexists. split; [reflexivity|]. simpl. rewrite Eu. simpl. rewrite Eg. exact F.
  - destruct (pathEqb (u0, k0) (userId, cardNumber card)) eqn:Ep.
    + apply pathEqb_eq in Ep. injection Ep as Hu _. subst u0.
      rewrite String.eqb_refl in Eu. discriminate.
    + destruct (IH Hrest Hfind) as (docs' & U & F). rewrite U. simpl.
      eexists. split; [reflexivity|]. simpl. rewrite Eu. exact F.
Qed.

(** A refresh brings the payment to the client. With card documents stored
    under their card numbers and a client whose cards are those of the
    store, after a successful card payment [refreshUserData] gives the
    client the stored balance, lowered by the amount paid, and, under the
    same last four digits, the card with the balances the payment wrote. *)
Theorem refresh_after_payment_shows_the_paid_card :
  forall cu accountId paymentType customAmount s r1 s1 pks c,
    (forall k card, In (k, card) (cardDocs s) -> snd k = cardNumber card) ->
    cards cu = map snd (ofUser (uid cu) (cardDocs s)) ->
    makeAccountPayment (Some cu) accountId cardAccount paymentType customAmount s = (r1, s1) ->
    success r1 = true ->
    currentUser c = Some cu ->
    isRefreshing c = false ->
    exists card before cu1,
      findCard accountId cu = Some card /\
      getUser (uid cu) s = Some before /\
      currentUser (refreshUserData {| store := s1; passkeyDocs := pks |} c) = Some cu1 /\
      uid cu1 = uid cu /\
      data cu1 =
        setBalance (balance before - PaymentFacts.cardRequested card paymentType customAmount)
          before /\
      findCard accountId cu1 =
        Some (setCardBalances
                (Z.max 0 (creditBalance card
                          - PaymentFacts.cardRequested card paymentType customAmount))
                (Z.max 0 (statementBalance card
                          - PaymentFacts.cardRequested card paymentType customAmount))
                card).
Proof.
  intros cu accountId paymentType customAmount s r1 s1 pks c Hkey Hsync H Hok Hcu Hidle.
  destruct (PaymentFacts.makeAccountPayment_success _ _ _ _ _ _ _ _ H Hok)
    as (cu0 & msg & ws & Hcu0 & Hbody & Hcommit).
  injection Hcu0 as <-.
  unfold paymentTxn in Hbody.
  destruct (getUser (uid cu) s) as [before|] eqn:Hu; [|discriminate].
  destruct (findCard accountId cu) as [card|] eqn:Hcard; [|discriminate].
  fold (PaymentFacts.cardRequested card paymentType customAmount) in Hbody.
  set (req := PaymentFacts.cardRequested card paymentType customAmount) in *.
  destruct (req <=? 0); [discriminate|].
  destruct (balance before <? req); [discriminate|].
  injection Hbody as _ <-.
  cbn [commit applyWrite] in Hcommit.
  destruct (updateDoc String.eqb (uid cu) (setBalance (balance before - req)) (users s))
    as [us1|] eqn:U1; cbn [option_map] in Hcommit; [|discriminate].
  cbn [cardDocs setUsers] in Hcommit.
  destruct (updateDoc pathEqb (uid cu, cardNumber card)
              (setCardBalances (Z.max 0 (creditBalance card - req))
                 (Z.max 0 (statementBalance card - req))) (cardDocs s))
    as [cs1|] eqn:U2; cbn [option_map] in Hcommit; [|discriminate].
  injection Hcommit as <-.
  destruct (updateDoc_same _ _ _ _ _ U1) as [d [G1 G2]].
  unfold getUser in Hu. rewrite G1 in Hu. injection Hu as ->.
  unfold findCard in Hcard. rewrite Hsync in Hcard.
  destruct (paid_card_is_reloaded
              (fun c0 => String.eqb (sliceLast 4 (cardNumber c0)) accountId) (uid cu)
              (Z.max 0 (creditBalance card - req)) (Z.max 0 (statementBalance card - req))
              card (cardDocs s) Hkey
              ltac:(intros c1 c2 Hn; cbv beta; rewrite Hn; reflexivity) Hcard)
    as (docs' & U3 & F).
  rewrite U2 in U3. injection U3 as <-.
  exists card, before. eexists.
  split; [reflexivity|]. split; [reflexivity|].
  unfold refreshUserData. rewrite Hcu, Hidle. unfold loadUserAndData.
  cbn [store]. unfold getUser. cbn [users setCardDocs setUsers]. rewrite G2.
  cbn. split; [reflexivity|]. split; [reflexivity|]. split; [reflexivity|].
  unfold findCard. cbn. exact F.
Qed.

(* witnesses *)

Definition emptyBackend : Backend :=
  {| store := TransferFacts.demoStore; passkeyDocs := [] |}.

Definition loggedOut : Client :=
  {| currentUser := None; transactions := []; passkeys := []; kycUserId := None;
     isLoading := false; isRefreshing := false; toasts := []; authCalls := [] |}.

(** The raw id of Dave's credential: the bytes fb ff fe 01. *)
Definition daveKey : list Byte.byte := [Byte.xfb; Byte.xff; Byte.xfe; Byte.x01].

Definition daveRegisters (createPasskey : bool) : option string * Backend * Client :=
  registerUser (Ok (Some "u9")) "9999000011112222" (CreditMore.minted Visa) true
    (Created daveKey) 1737799200000
    "Dave" "Dave" "dave@example.com" "555-0109" "hunter22" createPasskey
    emptyBackend loggedOut.

Lemma registration_keeps_usernames_distinct_witness :
  NoDup (map (fun d => usernameOf (snd d)) (users (store (snd (fst (daveRegisters false)))))).
Proof.
  destruct (daveRegisters false) as [[r b'] c'] eqn:E. unfold daveRegisters in E.
  refine (registration_keeps_usernames_distinct _ _ _ _ _ _ _ _ _ _ _ _ _ _ _ _ _
            E _ _).
  - repeat constructor; simpl; intuition discriminate.
  - intros id Hid. injection Hid as <-. reflexivity.
Defined.

Lemma password_login_waits_for_identity_check_witness :
  exists b1 c1,
    daveRegisters false = (Some "u9", b1, c1) /\
    fst (login (Ok tt) "Dave" "hunter22" b1 loggedOut) = false /\
    kycUserId (snd (login (Ok tt) "Dave" "hunter22" b1 loggedOut)) = Some "u9".
Proof.
  destruct (daveRegisters false) as [[r b1] c1] eqn:E.
  assert (Hr : r = Some "u9") by (vm_compute in E; injection E as <- _ _; reflexivity).
  subst r. exists b1, c1. split; [reflexivity|]. unfold daveRegisters in E.
  destruct (password_login_waits_for_identity_check _ _ _ _ _ _ _ _ _ _ _ _ _ _ _ _ _
              E eq_refl) as [Hrefused _].
  rewrite Hrefused. split; reflexivity.
Defined.

Lemma passkey_login_skips_identity_check_witness :
  exists b1 c1 c3 u,
    daveRegisters true = (Some "u9", b1, c1) /\
    loginWithPasskey true (Discovered daveKey (Some "dave")) b1 loggedOut = (true, c3) /\
    currentUser c3 = Some u /\ kycVerified (data u) = false.
Proof.
  destruct (daveRegisters true) as [[r b1] c1] eqn:E.
  assert (Hr : r = Some "u9") by (vm_compute in E; injection E as <- _ _; reflexivity).
  subst r. unfold daveRegisters in E.
  destruct (passkey_login_skips_identity_check _ _ _ _ _ _ _ _ _ _ _ _ _ _ _
              E eq_refl loggedOut) as (c3 & u & Hl & Hu & _ & _ & Hk & _).
  exists b1, c1, c3, u. split; [reflexivity|]. split; [exact Hl|].
  split; [exact Hu | exact Hk].
Defined.

(** The raw id of Carol's credential, and its id as stored. *)
Definition carolKey : list Byte.byte := [Byte.x63; Byte.x72; Byte.x65; Byte.x64; Byte.x37].

Definition carolKeyId : string := Eval vm_compute in Base64url.encode carolKey.

(** Carol, logged in with one passkey. *)
Definition carolBackend : Backend :=
  {| store := PaymentFacts.carolStore; passkeyDocs := [(("u1", carolKeyId), 1737000000000)] |}.

Definition carolClient : Client :=
  {| currentUser := Some PaymentFacts.carol; transactions := [];
     passkeys := [{| passkey_id := carolKeyId; created := 1737000000000 |}];
     kycUserId := None; isLoading := false; isRefreshing := false; toasts := [];
     authCalls := [] |}.

Lemma removed_passkey_opens_nothing_witness :
  exists b' c',
    removePasskey carolKeyId carolBackend carolClient = (b', c') /\
    fst (loginWithPasskey true (Discovered carolKey (Some "carol")) b' loggedOut) = false /\
    verifyCurrentUserWithPasskey (currentUser c') true (passkeys c') Asserted = (false, None).
Proof.
  destruct (removePasskey carolKeyId carolBackend carolClient) as [b' c'] eqn:E.
  exists b', c'. split; [reflexivity|].
  destruct (removed_passkey_opens_nothing _ _ _ PaymentFacts.carol _ _ E eq_refl)
    as (Hlogin & _ & _ & _ & Hst & Hgate).
  split.
  - refine (proj1 (Hlogin carolKey "carol"
                     (TransferFacts.customer "Carol" "carol" "1111" 100000)
                     [] loggedOut eq_refl _)).
    rewrite Hst. reflexivity.
  - apply Hgate. intros p [<-|[]]. reflexivity.
Defined.

Lemma refresh_after_payment_shows_the_paid_card_witness :
  exists r1 s1 cu1,
    makeAccountPayment (Some PaymentFacts.carol) "1234" cardAccount minimum None
      PaymentFacts.carolStore = (r1, s1) /\
    success r1 = true /\
    currentUser (refreshUserData {| store := s1; passkeyDocs := [] |} carolClient)
      = Some cu1 /\
    option_map creditBalance (findCard "1234" cu1) = Some 47500.
Proof.
  destruct (makeAccountPayment (Some PaymentFacts.carol) "1234" cardAccount minimum None
              PaymentFacts.carolStore) as [r1 s1] eqn:E.
  assert (Hok : success r1 = true) by (vm_compute in E; injection E as <- _; reflexivity).
  destruct (refresh_after_payment_shows_the_paid_card PaymentFacts.carol "1234" minimum None
              PaymentFacts.carolStore r1 s1 [] carolClient) as
    (card & before & cu1 & Hc & _ & Hr & _ & _ & Hf).
  - intros k card [Heq|[]]. injection Heq as <- <-. reflexivity.
  - reflexivity.
  - exact E.
  - exact Hok.
  - reflexivity.
  - reflexivity.
  - exists r1, s1, cu1. split; [reflexivity|]. split; [exact Hok|]. split; [exact Hr|].
    change (findCard "1234" PaymentFacts.carol) with (Some PaymentFacts.demoCard) in Hc.
    injection Hc as <-. rewrite Hf. reflexivity.
Defined.

End SessionMore.

(* ------------------------------------------------------------------ *)
(** ** Properties of base64url *)

Module CodecMore.
Import Base64url.

(** The characters [encode] produces. *)
Definition urlAlphabet : list ascii :=
  list_ascii_of_string "ABCDEFGHIJKLMNOPQRSTUVWXYZabcdefghijklmnopqrstuvwxyz0123456789-_".

(** What [encode] does to one character, and what [decode] does to it. *)
Definition toUrl (c : ascii) : ascii :=
  let c := if Ascii.eqb c "+" then "-"%char else c in
  if Ascii.eqb c "/" then "_"%char else c.

Definition fromUrl (c : ascii) : ascii :=
  let c := if Ascii.eqb c "-" then "+"%char else c in
  if Ascii.eqb c "_" then "/"%char else c.

(** A character of the base64 alphabet. *)
Definition Plain (c : ascii) : Prop := exists n, (n < 64)%N /\ c = charOf n.

Definition plainCheck (k : nat) : bool :=
  let n := N.of_nat k in
  let c := charOf n in
  (match sextetOf c with Some m => N.eqb m n | None => false end
   && negb (Ascii.eqb c "=")
   && negb (isAsciiWhitespace c)
   && negb (Ascii.eqb (toUrl c) "=")
   && Ascii.eqb (fromUrl (toUrl c)) c
   && existsb (Ascii.eqb (toUrl c)) urlAlphabet)%bool.

Lemma plain_checked : forallb plainCheck (seq 0 64) = true.
Proof. vm_compute. reflexivity. Qed.

Lemma charOf_facts :
  forall n, (n < 64)%N ->
    sextetOf (charOf n) = Some n /\
    Ascii.eqb (charOf n) "=" = false /\
    isAsciiWhitespace (charOf n) = false /\
    Ascii.eqb (toUrl (charOf n)) "=" = false /\
    fromUrl (toUrl (charOf n)) = charOf n /\
    In (toUrl (charOf n)) urlAlphabet.
Proof.
  intros n Hn.
  pose proof plain_checked as H. rewrite forallb_forall in H.
  specialize (H (N.to_nat n)). rewrite in_seq in H.
  assert (Hk : (0 <= N.to_nat n < 0 + 64)%nat) by lia.
  specialize (H Hk). unfold plainCheck in H. rewrite N2Nat.id in H. cbv zeta in H.
  apply andb_prop in H. destruct H as [H H5].
  apply andb_prop in H. destruct H as [H H4].
  apply andb_prop in H. destruct H as [H H3].
  apply andb_prop in H. destruct H as [H H2].
  apply andb_prop in H. destruct H as [H0 H1].
  split.
  { destruct (sextetOf (charOf n)) as [m|]; [|discriminate].
    apply N.eqb_eq in H0. congruence. }
  split; [apply negb_true_iff; exact H1|].
  split; [apply negb_true_iff; exact H2|].
  split; [apply negb_true_iff; exact H3|].
  split; [apply Ascii.eqb_eq; exact H4|].
  apply existsb_exists in H5. destruct H5 as [x [Hin Hx]].
  apply Ascii.eqb_eq in Hx. rewrite Hx. exact Hin.
Qed.

Lemma Plain_facts :
  forall c, Plain c ->
    Ascii.eqb c "=" = false /\
    isAsciiWhitespace c = false /\
    Ascii.eqb (toUrl c) "=" = false /\
    fromUrl (toUrl c) = c /\
    In (toUrl c) urlAlphabet.
Proof.
  intros c [n [Hn ->]]. destruct (charOf_facts n Hn) as (_ & H). exact H.
Qed.

Lemma sextet_Plain : forall k n, Plain (sextet k n).
Proof.
  intros k n. exists ((n / 64 ^ k) mod 64)%N. split; [|reflexivity].
  apply N.mod_lt. discriminate.
Qed.

Lemma code_bound : forall a, (N_of_ascii a < 256)%N.
Proof. intro a. apply N_ascii_bounded. Qed.

Lemma sextetOf_sextet :
  forall k n, sextetOf (sextet k n) = Some ((n / 64 ^ k) mod 64)%N.
Proof.
  intros k n. unfold sextet. apply charOf_facts. apply N.mod_lt. discriminate.
Qed.

(** Three bytes survive the four sextets. *)
Lemma group_round_trip :
  forall a b c,
    let n := group a b c in
    let s3 := ((n / 64 ^ 3) mod 64)%N in
    let s2 := ((n / 64 ^ 2) mod 64)%N in
    let s1 := ((n / 64 ^ 1) mod 64)%N in
    let s0 := ((n / 64 ^ 0) mod 64)%N in
    let m := (((s3 * 64 + s2) * 64 + s1) * 64 + s0)%N in
    m = n.
Proof.
  intros a b c n s3 s2 s1 s0 m. subst m s3 s2 s1 s0.
  assert (Hn : (n < 16777216)%N).
  { subst n. unfold group. pose proof (code_bound a). pose proof (code_bound b).
    pose proof (code_bound c). lia. }
  change (64 ^ 3)%N with 262144%N. change (64 ^ 2)%N with 4096%N.
  change (64 ^ 1)%N with 64%N. change (64 ^ 0)%N with 1%N.
  clearbody n. zify. Z.to_euclidean_division_equations. lia.
Qed.

Lemma bytes_of_group :
  forall a b c,
    let n := group a b c in
    ascii_of_N (n / 65536) = a /\
    ascii_of_N ((n / 256) mod 256) = b /\
    ascii_of_N (n mod 256) = c.
Proof.
  intros a b c n. subst n. unfold group.
  pose proof (code_bound a) as Ha. pose proof (code_bound b) as Hb.
  pose proof (code_bound c) as Hc.
  assert (E : forall x y z : N,
             (x < 256 -> y < 256 -> z < 256 ->
              (x * 65536 + y * 256 + z) / 65536 = x /\
              ((x * 65536 + y * 256 + z) / 256) mod 256 = y /\
              (x * 65536 + y * 256 + z) mod 256 = z)%N).
  { intros x y z Hx Hy Hz. repeat split; zify; Z.to_euclidean_division_equations; lia. }
  destruct (E _ _ _ Ha Hb Hc) as (-> & -> & ->).
  rewrite !ascii_N_embedding. auto.
Qed.

Lemma N_of_zero : N_of_ascii zero = 0%N.
Proof. reflexivity. Qed.

(** [btoa] gives characters of the alphabet followed by the padding, and
    the sextets of these characters give the bytes back. *)
Lemma btoa_shape :
  forall data,
    exists core pad ss k,
      btoa data = (core ++ pad)%list /\
      Forall Plain core /\
      sextets core = Some ss /\
      bytesOf ss = data /\
      ((pad = [] /\ List.length core = (4 * k)%nat) \/
       (pad = ["="%char] /\ List.length core = (4 * k + 3)%nat) \/
       (pad = ["="%char; "="%char] /\ List.length core = (4 * k + 2)%nat)).
Proof.
  fix IH 1. intros [|a [|b [|c rest]]].
  - exists [], [], [], 0%nat. simpl. repeat split; auto.
  - exists [sextet 3 (group a zero zero); sextet 2 (group a zero zero)],
           ["="%char; "="%char],
           [((group a zero zero / 64 ^ 3) mod 64)%N; ((group a zero zero / 64 ^ 2) mod 64)%N],
           0%nat.
    split; [reflexivity|]. split; [repeat constructor; apply sextet_Plain|].
    split; [cbn [sextets]; rewrite !sextetOf_sextet; reflexivity|].
    split; [|right; right; split; reflexivity].
    cbn [bytesOf]. cbv zeta. unfold group. rewrite N_of_zero.
    pose proof (code_bound a) as Ha.
    change (64 ^ 3)%N with 262144%N. change (64 ^ 2)%N with 4096%N.
    assert (E : forall x : N,
               (x < 256 ->
                (((x * 65536 + 0 * 256 + 0) / 262144) mod 64 * 64
                 + ((x * 65536 + 0 * 256 + 0) / 4096) mod 64) / 16 = x)%N).
    { intros x Hx. zify; Z.to_euclidean_division_equations; lia. }
    rewrite (E _ Ha), ascii_N_embedding. reflexivity.
  - exists [sextet 3 (group a b zero); sextet 2 (group a b zero); sextet 1 (group a b zero)],
           ["="%char],
           [((group a b zero / 64 ^ 3) mod 64)%N; ((group a b zero / 64 ^ 2) mod 64)%N;
            ((group a b zero / 64 ^ 1) mod 64)%N],
           0%nat.
    split; [reflexivity|]. split; [repeat constructor; apply sextet_Plain|].
    split; [cbn [sextets]; rewrite !sextetOf_sextet; reflexivity|].
    split; [|right; left; split; reflexivity].
    cbn [bytesOf]. cbv zeta. unfold group. rewrite N_of_zero.
    pose proof (code_bound a) as Ha. pose proof (code_bound b) as Hb.
    change (64 ^ 3)%N with 262144%N. change (64 ^ 2)%N with 4096%N.
    change (64 ^ 1)%N with 64%N.
    assert (E : forall x y : N,
               (x < 256 -> y < 256 ->
                let n := x * 65536 + y * 256 + 0 in
                let m := (((n / 262144) mod 64 * 64 + (n / 4096) mod 64) * 64
                          + (n / 64) mod 64) / 4 in
                m / 256 = x /\ m mod 256 = y)%N).
    { intros x y Hx Hy n m. subst m n.
      split; zify; Z.to_euclidean_division_equations; lia. }
    destruct (E _ _ Ha Hb) as (E1 & E2). cbv zeta in E1, E2.
    rewrite E1, E2, !ascii_N_embedding. reflexivity.
  - destruct (IH rest) as (core & pad & ss & k & Hb & Hp & Hs & Hd & Hk).
    exists (sextet 3 (group a b c) :: sextet 2 (group a b c) :: sextet 1 (group a b c)
            :: sextet 0 (group a b c) :: core), pad,
           (((group a b c / 64 ^ 3) mod 64)%N :: ((group a b c / 64 ^ 2) mod 64)%N
            :: ((group a b c / 64 ^ 1) mod 64)%N :: ((group a b c / 64 ^ 0) mod 64)%N :: ss),
           (S k).
    split; [cbn [btoa]; rewrite Hb; reflexivity|].
    split; [repeat (constructor; [apply sextet_Plain|]); exact Hp|].
    split; [cbn [sextets]; rewrite !sextetOf_sextet, Hs; reflexivity|].
    split.
    + cbn [bytesOf]. pose proof (group_round_trip a b c) as Hg. cbv zeta in Hg.
      rewrite Hg, Hd. destruct (bytes_of_group a b c) as (-> & -> & ->). reflexivity.
    + cbn [List.length]. destruct Hk as [[-> ->]|[[-> ->]|[-> ->]]];
        [left | right; left | right; right]; split; try reflexivity; lia.
Qed.

Lemma map_toUrl :
  forall l, replaceAll "/" "_" (replaceAll "+" "-" l) = map toUrl l.
Proof. intro l. unfold replaceAll. rewrite map_map. reflexivity. Qed.

Lemma map_fromUrl :
  forall l, replaceAll "_" "/" (replaceAll "-" "+" l) = map fromUrl l.
Proof. intro l. unfold replaceAll. rewrite map_map. reflexivity. Qed.

Lemma removeAll_core :
  forall core, Forall Plain core -> removeAll "=" (map toUrl core) = map toUrl core.
Proof.
  intros core H. unfold removeAll.
  induction H as [|c core Hc _ IH]; cbn [map filter]; [reflexivity|].
  destruct (Plain_facts c Hc) as (_ & _ & He & _). rewrite He. cbn [negb].
  rewrite IH. reflexivity.
Qed.

Lemma fromUrl_core :
  forall core, Forall Plain core -> map fromUrl (map toUrl core) = core.
Proof.
  intros core H. induction H as [|c core Hc _ IH]; simpl; [reflexivity|].
  destruct (Plain_facts c Hc) as (_ & _ & _ & Hr & _). rewrite Hr, IH. reflexivity.
Qed.

Lemma no_whitespace :
  forall core pad,
    Forall Plain core ->
    Forall (fun c => c = "="%char) pad ->
    filter (fun c => negb (isAsciiWhitespace c)) (core ++ pad) = (core ++ pad)%list.
Proof.
  intros core pad Hc Hp. rewrite filter_app. f_equal.
  - induction Hc as [|c core Hpl _ IH]; simpl; [reflexivity|].
    destruct (Plain_facts c Hpl) as (_ & Hw & _). rewrite Hw. simpl. rewrite IH.
    reflexivity.
  - induction Hp as [|c pad -> _ IH]; simpl; [reflexivity|]. rewrite IH. reflexivity.
Qed.

Lemma mod4 : forall k r, (r < 4)%nat -> ((4 * k + r) mod 4 = r)%nat.
Proof.
  intros k r Hr. rewrite Nat.add_comm, Nat.mul_comm, Nat.Div0.mod_add.
  apply Nat.mod_small. exact Hr.
Qed.

Lemma last_Plain :
  forall core, Forall Plain core ->
    match rev core with
    | c :: _ => Ascii.eqb c "=" = false
    | [] => True
    end.
Proof.
  intros core H. destruct (rev core) as [|c r] eqn:E; [exact I|].
  assert (Hin : In c core) by (apply in_rev; rewrite E; left; reflexivity).
  rewrite Forall_forall in H. destruct (Plain_facts c (H c Hin)) as (He & _). exact He.
Qed.

Lemma stripPadding_shape :
  forall core pad k,
    Forall Plain core ->
    ((pad = [] /\ List.length core = (4 * k)%nat) \/
     (pad = ["="%char] /\ List.length core = (4 * k + 3)%nat) \/
     (pad = ["="%char; "="%char] /\ List.length core = (4 * k + 2)%nat)) ->
    stripPadding (core ++ pad) = core.
Proof.
  intros core pad k Hp Hk. pose proof (last_Plain core Hp) as Hlast.
  unfold stripPadding. rewrite length_app.
  destruct Hk as [[-> Hl]|[[-> Hl]|[-> Hl]]]; rewrite Hl; cbn [List.length].
  - replace (4 * k + 0)%nat with (4 * k + 0)%nat by reflexivity.
    rewrite (mod4 k 0) by lia. cbn [Nat.eqb]. rewrite app_nil_r.
    destruct (rev core) as [|c r] eqn:E; cbn [dropEquals].
    + rewrite <- (rev_involutive core), E. reflexivity.
    + rewrite Hlast, <- E. apply rev_involutive.
  - replace (4 * k + 3 + 1)%nat with (4 * (S k) + 0)%nat by lia.
    rewrite (mod4 (S k) 0) by lia. cbn [Nat.eqb]. rewrite rev_app_distr.
    cbn [rev app dropEquals]. change (Ascii.eqb "=" "=") with true. cbv iota.
    destruct (rev core) as [|c r] eqn:E.
    + apply (f_equal (@List.length ascii)) in E. rewrite length_rev, Hl in E.
      cbn [List.length] in E. lia.
    + rewrite Hlast, <- E. apply rev_involutive.
  - replace (4 * k + 2 + 2)%nat with (4 * (S k) + 0)%nat by lia.
    rewrite (mod4 (S k) 0) by lia. cbn [Nat.eqb]. rewrite rev_app_distr.
    cbn [rev app dropEquals]. change (Ascii.eqb "=" "=") with true. cbv iota.
    apply rev_involutive.
Qed.

(** [atob] undoes [btoa]. *)
Lemma atob_btoa : forall data, atob (btoa data) = Some data.
Proof.
  intro data. destruct (btoa_shape data) as (core & pad & ss & k & Hb & Hp & Hs & Hd & Hk).
  unfold atob. rewrite Hb.
  assert (Hpad : Forall (fun c => c = "="%char) pad)
    by (destruct Hk as [[-> _]|[[-> _]|[-> _]]]; repeat constructor).
  rewrite (no_whitespace core pad Hp Hpad).
  rewrite (stripPadding_shape core pad k Hp Hk).
  assert (Hne : (List.length core mod 4 =? 1)%nat = false).
  { apply Nat.eqb_neq.
    destruct Hk as [[_ Hl]|[[_ Hl]|[_ Hl]]]; rewrite Hl.
    - replace (4 * k)%nat with (4 * k + 0)%nat by lia. rewrite mod4; lia.
    - rewrite mod4; lia.
    - rewrite mod4; lia. }
  rewrite Hne, Hs. cbn [option_map]. rewrite Hd. reflexivity.
Qed.

Lemma encode_chars :
  forall buffer,
    exists core pad k,
      btoa (map ascii_of_byte buffer) = (core ++ pad)%list /\
      Forall Plain core /\
      list_ascii_of_string (encode buffer) = map toUrl core /\
      ((pad = [] /\ List.length core = (4 * k)%nat) \/
       (pad = ["="%char] /\ List.length core = (4 * k + 3)%nat) \/
       (pad = ["="%char; "="%char] /\ List.length core = (4 * k + 2)%nat)).
Proof.
  intro buffer.
  destruct (btoa_shape (map ascii_of_byte buffer))
    as (core & pad & ss & k & Hb & Hp & Hs & Hd & Hk).
  exists core, pad, k. split; [exact Hb|]. split; [exact Hp|]. split; [|exact Hk].
  unfold encode. rewrite list_ascii_of_string_of_list_ascii, map_toUrl, Hb, map_app.
  unfold removeAll. rewrite filter_app. fold (removeAll "=" (map toUrl core)).
  rewrite (removeAll_core core Hp).
  destruct Hk as [[-> _]|[[-> _]|[-> _]]]; simpl; rewrite app_nil_r; reflexivity.
Qed.

(** A credential id survives the codec: [decode] gives back the bytes
    [encode] was given, whatever they are. *)
Theorem decode_undoes_encode :
  forall buffer, decode (encode buffer) = Ok buffer.
Proof.
  intro buffer.
  destruct (encode_chars buffer) as (core & pad & k & Hb & Hp & He & Hk).
  unfold decode. rewrite map_fromUrl, He, (fromUrl_core core Hp).
  pose proof (atob_btoa (map ascii_of_byte buffer)) as Hround. rewrite Hb in Hround.
  assert (Hbytes : map byte_of_ascii (map ascii_of_byte buffer) = buffer).
  { rewrite map_map. rewrite <- (map_id buffer) at 2. apply map_ext.
    intro b. apply byte_of_ascii_of_byte. }
  destruct Hk as [[-> Hl]|[[-> Hl]|[-> Hl]]]; rewrite Hl.
  - replace (4 * k)%nat with (4 * k + 0)%nat by lia. rewrite mod4 by lia. cbn [Nat.eqb negb].
    rewrite app_nil_r in Hround. rewrite Hround, Hbytes. reflexivity.
  - rewrite mod4 by lia. cbn [Nat.eqb negb Nat.sub repeat].
    rewrite Hround, Hbytes. reflexivity.
  - rewrite mod4 by lia. cbn [Nat.eqb negb Nat.sub repeat].
    rewrite Hround, Hbytes. reflexivity.
Qed.

(** An encoded id is made of letters, digits, [-] and [_] only: it holds no
    [/], [+] or [=], so it names one document of the passkeys collection. *)
Theorem encode_is_url_safe :
  forall buffer, Forall (fun c => In c urlAlphabet) (list_ascii_of_string (encode buffer)).
Proof.
  intro buffer.
  destruct (encode_chars buffer) as (core & pad & k & _ & Hp & He & _).
  rewrite He. clear He. induction Hp as [|c core Hc _ IH]; simpl; constructor; [|exact IH].
  destruct (Plain_facts c Hc) as (_ & _ & _ & _ & Hin). exact Hin.
Qed.

End CodecMore.

(* ------------------------------------------------------------------ *)
(** ** The passkey gate, run *)

Module GateMore.
Import App.

(** Carol holds one passkey and the ceremony yields an assertion: the gate
    opens, and the four conditions hold. *)
Lemma gate_opens_only_on_assertion_witness :
  fst (verifyCurrentUserWithPasskey (Some PaymentFacts.carol) true
         [{| passkey_id := SessionMore.carolKeyId; created := 1737000000000 |}] Asserted) = true /\
  Some PaymentFacts.carol <> None /\ Asserted = Asserted.
Proof.
  split; [reflexivity|].
  destruct (GateFacts.gate_opens_only_on_assertion (Some PaymentFacts.carol) true
              [{| passkey_id := SessionMore.carolKeyId; created := 1737000000000 |}] Asserted eq_refl)
    as (Hu & _ & _ & Hc).
  split; [exact Hu | exact Hc].
Defined.

End GateMore.
